(** * Forum: sessions, votes and cascading deletes

    A shallow embedding of the storage layer ([database/db.go]), of the
    request handlers ([handlers/auth_handlers.go], [handlers/post_handlers.go],
    [handlers/comment_handlers.go]) and of the wrapper of the router
    ([middleware.go]) of the forum, followed by the properties of the session
    lifecycle, the vote toggle and the delete cascade, and then of
    registration, the rights and failures of the handlers, the invariants of
    the database, the response recorder and the query of [GetPosts].

    The SQLite database is a record of tables; every handler is a function
    in a state monad over a [World] that holds the database, the in-memory
    session map, the clock, the statements issued so far, the log, and the
    answers of the environment (storage failures, fresh identifiers). *)

From Stdlib Require Import ZArith List String Ascii Bool Lia.
From stdpp Require Import base option list gmap strings fin_maps.

Local Open Scope string_scope.
Local Open Scope Z_scope.

(** ** Go standard library functions used by the handlers *)

Module Go.

(** Value of a decimal digit byte. *)
Definition digit_of (a : ascii) : option Z :=
  let n := Z.of_N (N_of_ascii a) in
  if (48 <=? n) && (n <=? 57) then Some (n - 48) else None.

Fixpoint parse_digits (acc : Z) (s : string) : option Z :=
  match s with
  | EmptyString => Some acc
  | String a rest =>
      match digit_of a with
      | Some d => parse_digits (acc * 10 + d) rest
      | None => None
      end
  end.

Definition in_int64 (n : Z) : bool :=
  (- 2 ^ 63 <=? n) && (n <=? 2 ^ 63 - 1).

(** [strconv.Atoi] on a 64-bit platform: an optional sign, then at least
    one decimal digit and nothing else; a value outside [int] is an
    error.  [None] stands for a non-nil error. *)
Definition Atoi (s : string) : option Z :=
  match s with
  | EmptyString => None
  | String a rest =>
      let sign := if Ascii.eqb a "-"%char then Some (-1)
                  else if Ascii.eqb a "+"%char then Some 1 else None in
      match sign with
      | Some sg =>
          match rest with
          | EmptyString => None
          | _ =>
              match parse_digits 0 rest with
              | Some n => if in_int64 (sg * n) then Some (sg * n) else None
              | None => None
              end
          end
      | None =>
          match parse_digits 0 s with
          | Some n => if in_int64 n then Some n else None
          | None => None
          end
      end
  end.

(** UTF-8 encodings of the runes for which [unicode.IsSpace] holds:
    tab, LF, VT, FF, CR, space, U+0085, U+00A0, U+1680, U+2000..U+200A,
    U+2028, U+2029, U+202F, U+205F, U+3000. *)
Definition space_encodings : list (list nat) :=
  [ [9]; [10]; [11]; [12]; [13]; [32];
    [194; 133]; [194; 160];
    [225; 154; 128];
    [226; 128; 128]; [226; 128; 129]; [226; 128; 130]; [226; 128; 131];
    [226; 128; 132]; [226; 128; 133]; [226; 128; 134]; [226; 128; 135];
    [226; 128; 136]; [226; 128; 137]; [226; 128; 138];
    [226; 128; 168]; [226; 128; 169]; [226; 128; 175];
    [226; 129; 159];
    [227; 128; 128] ]%nat.

Fixpoint strip_prefix (p : list nat) (s : list ascii) : option (list ascii) :=
  match p, s with
  | [], _ => Some s
  | n :: p', a :: s' =>
      if Nat.eqb n (nat_of_ascii a) then strip_prefix p' s' else None
  | _ :: _, [] => None
  end.

Fixpoint strip_any (ps : list (list nat)) (s : list ascii)
  : option (list ascii) :=
  match ps with
  | [] => None
  | p :: ps' =>
      match strip_prefix p s with
      | Some s' => Some s'
      | None => strip_any ps' s
      end
  end.

(** Drop leading pieces of [s] that are one of [ps], at most [fuel]
    times (every piece is non-empty, so [length s] is enough). *)
Fixpoint trim_left (ps : list (list nat)) (fuel : nat) (s : list ascii)
  : list ascii :=
  match fuel with
  | O => s
  | S fuel' =>
      match strip_any ps s with
      | Some s' => trim_left ps fuel' s'
      | None => s
      end
  end.

(** [strings.TrimSpace]: the string without its leading and trailing
    white space, as Unicode defines it.  A leading or trailing rune is a
    space exactly when the bytes there are its (unique) UTF-8 encoding. *)
Definition TrimSpace (s : string) : string :=
  let l := list_ascii_of_string s in
  let l1 := trim_left space_encodings (List.length l) l in
  let r1 := trim_left (List.map (@List.rev nat) space_encodings)
              (List.length l1) (List.rev l1) in
  string_of_list_ascii (List.rev r1).

(** [len(s)]: the number of bytes. *)
Definition len (s : string) : Z := Z.of_nat (String.length s).

End Go.

(** ** The data model *)

(** A [time.Time] is the number of nanoseconds since the epoch. *)
Definition Time : Type := Z.

Definition Hour : Z := 3600 * 1000000000.

(** Rows of [users], [sessions], [posts] and [comments] (the columns the
    modelled statements read or write); the key of each table is the key of
    the map that holds it. *)
Record UserRow : Type := mkUser
  { u_email : string; u_username : string; u_password : string; u_role : string }.

Record SessionRow : Type := mkSession
  { s_user_id : Z; s_role : string; s_expiry : Time }.

Record PostRow : Type := mkPost
  { p_user_id : Z; p_title : string; p_content : string }.

Record CommentRow : Type := mkComment
  { c_post_id : Z; c_user_id : Z; c_content : string; c_created_at : Time }.

(** A row of [post_votes] or [comment_votes]: [(user_id, post_id, vote)] or
    [(user_id, comment_id, vote)].  The tables are lists of rows, so that
    PRIMARY KEY(user_id, target) is a property to be kept, not a property of
    the representation. *)
Record VoteRow : Type := mkVote
  { vote_user : Z; vote_target : Z; vote_value : Z }.

(** [models.SessionData], the value type of the in-memory session map. *)
Record SessionData : Type := mkSessionData
  { UserID : Z; Role : string; Expiry : Time }.

Record DB : Type := mkDB
  { users : gmap Z UserRow;
    sessions : gmap string SessionRow;
    posts : gmap Z PostRow;
    post_categories : list (Z * Z);
    post_votes : list VoteRow;
    comments : gmap Z CommentRow;
    comments_seq : Z;
    comment_votes : list VoteRow }.

(** [sql.ErrNoRows], a constraint violation (PRIMARY KEY, FOREIGN KEY), and
    any other failure of the storage engine. *)
Inductive error : Type := ErrNoRows | ErrConstraint | ErrIO.

(** The SQL statements of [database/db.go] that the modelled handlers
    reach, with their arguments. *)
Inductive Stmt : Type :=
| SelectSession (sessionID : string)
| DeleteSessionByID (sessionID : string)
| DeleteSessionsOfUser (userID : Z)
| InsertSession (sessionID : string) (userID : Z) (role : string) (expiry : Time)
| SelectUserByEmail (email : string)
| SelectUsername (userID : Z)
| SelectPostOwner (postID : Z)
| DeleteFromPosts (postID : Z)
| DeleteFromPostCategories (postID : Z)
| DeleteFromCommentsOfPost (postID : Z)
| DeleteFromPostVotes (postID : Z)
| SelectPostVote (userID postID : Z)
| DeletePostVote (userID postID : Z)
| UpsertPostVote (userID postID vote : Z)
| SelectPostVoteStats (userID postID : Z)
| InsertComment (postID userID : Z) (content : string) (createdAt : Time)
| SelectCommentOwner (commentID : Z)
| DeleteFromComments (commentID : Z)
| DeleteFromCommentVotes (commentID : Z).

(** The state a handler runs in.  [Sessions] is [database.Sessions].
    [clock] is what [time.Now()] returns: it stands still while a handler
    runs and is moved between requests.  [faults] holds the answers of the
    storage engine to the statements still to come ([true]: the statement
    fails and changes nothing; an exhausted list: no failure); [uuids] the
    values that [uuid.New().String()] will return; [trace] the statements
    issued so far, in order; [logs] the messages logged. *)
Record World : Type := mkWorld
  { store : DB;
    Sessions : gmap string SessionData;
    clock : Time;
    faults : list bool;
    uuids : list string;
    trace : list Stmt;
    logs : list string }.

Definition set_store (d : DB) (w : World) : World :=
  mkWorld d (Sessions w) (clock w) (faults w) (uuids w) (trace w) (logs w).

(** No storage failure is scheduled. *)
Definition quiet (w : World) : bool := forallb negb (faults w).

(** ** The state monad of the handlers *)

Definition M (A : Type) : Type := World -> A * World.

Definition ret {A : Type} (a : A) : M A := fun w => (a, w).

Definition bind {A B : Type} (m : M A) (k : A -> M B) : M B :=
  fun w => k (m w).1 (m w).2.

Notation "'let*' x ':=' c 'in' k" := (bind c (fun x => k))
  (at level 10, x pattern, c at level 100, k at level 200).

(** [log.Println(msg, ...)]: the message is kept, its arguments are not. *)
Definition log_Println (msg : string) : M unit :=
  fun w => (tt, mkWorld (store w) (Sessions w) (clock w) (faults w) (uuids w)
                  (trace w) (logs w ++ [msg])).

Definition time_Now : M Time := fun w => (clock w, w).

Definition uuid_New : M string :=
  fun w => (hd "" (uuids w),
            mkWorld (store w) (Sessions w) (clock w) (faults w) (tl (uuids w))
              (trace w) (logs w)).

(** [database.Sessions[k] = v] and [delete(database.Sessions, k)]. *)
Definition Sessions_store (k : string) (v : SessionData) : M unit :=
  fun w => (tt, mkWorld (store w) (<[k := v]> (Sessions w)) (clock w) (faults w)
                  (uuids w) (trace w) (logs w)).

Definition Sessions_delete (k : string) : M unit :=
  fun w => (tt, mkWorld (store w) (delete k (Sessions w)) (clock w) (faults w)
                  (uuids w) (trace w) (logs w)).

(** One statement sent to the storage engine: it is recorded, the next
    answer of [faults] is consumed, and either the statement fails with
    [fail] or [sem] gives its result and the new database. *)
Definition db_call {A : Type} (s : Stmt) (fail : A) (sem : DB -> A * DB) : M A :=
  fun w =>
    let w1 := mkWorld (store w) (Sessions w) (clock w) (tl (faults w)) (uuids w)
                (trace w ++ [s]) (logs w) in
    if hd false (faults w) then (fail, w1)
    else ((sem (store w)).1, set_store (sem (store w)).2 w1).

(** ** [database/db.go] *)

Module database.

(** *** Tables of votes *)

Definition vote_matches (userID target : Z) (r : VoteRow) : bool :=
  (vote_user r =? userID) && (vote_target r =? target).

(** SELECT vote FROM t WHERE user_id = ? AND target = ? *)
Definition select_vote (userID target : Z) (t : list VoteRow) : option Z :=
  option_map vote_value (List.find (vote_matches userID target) t).

(** DELETE FROM t WHERE user_id = ? AND target = ? *)
Definition delete_vote (userID target : Z) (t : list VoteRow) : list VoteRow :=
  List.filter (fun r => negb (vote_matches userID target r)) t.

(** DELETE FROM t WHERE target = ? *)
Definition delete_votes_of (target : Z) (t : list VoteRow) : list VoteRow :=
  List.filter (fun r => negb (vote_target r =? target)) t.

(** ... DO UPDATE SET vote = v, on the rows in conflict *)
Definition update_vote (userID target v : Z) (t : list VoteRow) : list VoteRow :=
  List.map (fun r => if vote_matches userID target r
                     then mkVote (vote_user r) (vote_target r) v else r) t.

(** The rows WHERE target = ? *)
Definition votes_of (target : Z) (t : list VoteRow) : list VoteRow :=
  List.filter (fun r => vote_target r =? target) t.

(** SUM(CASE WHEN vote = v THEN 1 ELSE 0 END), 0 over no row (COALESCE). *)
Definition sum_case (v : Z) (rows : list VoteRow) : Z :=
  fold_right Z.add 0
    (List.map (fun r => if vote_value r =? v then 1 else 0) rows).

(** *** Sessions *)

Definition GetSessionData (sessionID : string)
  : M (Z * string * Time * option error) :=
  db_call (SelectSession sessionID) (0, "", 0, Some ErrIO)
    (fun d =>
       match sessions d !! sessionID with
       | Some s => ((s_user_id s, s_role s, s_expiry s, None), d)
       | None => ((0, "", 0, Some ErrNoRows), d)
       end).

Definition delete_session (sessionID : string) (d : DB) : DB :=
  mkDB (users d) (delete sessionID (sessions d)) (posts d) (post_categories d)
    (post_votes d) (comments d) (comments_seq d) (comment_votes d).

Definition DeleteExpiredSession (sessionID : string) : M (option error) :=
  let* err := db_call (DeleteSessionByID sessionID) (Some ErrIO)
                (fun d => (None, delete_session sessionID d)) in
  match err with
  | Some _ =>
      let* _ := log_Println "Error deleting expired session:" in
      ret err
  | None => ret err
  end.

Definition DeleteSession (sessionID : string) : M (option error) :=
  let* err := db_call (DeleteSessionByID sessionID) (Some ErrIO)
                (fun d => (None, delete_session sessionID d)) in
  match err with
  | Some _ =>
      let* _ := log_Println "Error deleting session from database:" in
      ret err
  | None =>
      let* _ := Sessions_delete sessionID in
      ret None
  end.

(** DELETE FROM sessions WHERE user_id = ? *)
Definition delete_user_sessions (userID : Z) (d : DB) : DB :=
  mkDB (users d)
    (filter (fun kv : string * SessionRow => s_user_id kv.2 <> userID)
       (sessions d))
    (posts d) (post_categories d) (post_votes d) (comments d)
    (comments_seq d) (comment_votes d).

Definition DeleteUserSessions (userID : Z) : M (option error) :=
  db_call (DeleteSessionsOfUser userID) (Some ErrIO)
    (fun d => (None, delete_user_sessions userID d)).

(** INSERT INTO sessions: [session_id] is the primary key and [user_id]
    references [users]. *)
Definition insert_session (sessionID : string) (userID : Z) (role : string)
    (expiry : Time) (d : DB) : option error * DB :=
  match sessions d !! sessionID, users d !! userID with
  | None, Some _ =>
      (None,
       mkDB (users d)
         (<[sessionID := mkSession userID role expiry]> (sessions d))
         (posts d) (post_categories d) (post_votes d) (comments d)
         (comments_seq d) (comment_votes d))
  | _, _ => (Some ErrConstraint, d)
  end.

Definition CreateSession (sessionID : string) (userID : Z) (role : string)
    (expiry : Time) : M (option error) :=
  db_call (InsertSession sessionID userID role expiry) (Some ErrIO)
    (insert_session sessionID userID role expiry).

(** *** Users *)

Definition find_user_by_email (email : string) (us : gmap Z UserRow)
  : option (Z * UserRow) :=
  List.find (fun kv : Z * UserRow => String.eqb (u_email kv.2) email)
    (map_to_list us).

Definition GetUserByEmail (email : string)
  : M (Z * string * string * string * option error) :=
  db_call (SelectUserByEmail email) (0, "", "", "", Some ErrIO)
    (fun d =>
       match find_user_by_email email (users d) with
       | Some (id, u) => ((id, u_username u, u_password u, u_role u, None), d)
       | None => ((0, "", "", "", Some ErrNoRows), d)
       end).

Definition GetUsernameByID (userID : Z) : M (string * option error) :=
  db_call (SelectUsername userID) ("", Some ErrIO)
    (fun d =>
       match users d !! userID with
       | Some u => ((u_username u, None), d)
       | None => (("", Some ErrNoRows), d)
       end).

(** *** Posts *)

Definition GetPostOwnerID (postID : Z) : M (Z * option error) :=
  db_call (SelectPostOwner postID) (0, Some ErrIO)
    (fun d =>
       match posts d !! postID with
       | Some p => ((p_user_id p, None), d)
       | None => ((0, Some ErrNoRows), d)
       end).

(** DELETE FROM comments WHERE post_id = ?, on the table of comments. *)
Definition comments_without_post (postID : Z) (cs : gmap Z CommentRow)
  : gmap Z CommentRow :=
  filter (fun kv : Z * CommentRow => c_post_id kv.2 <> postID) cs.

(** The votes that ON DELETE CASCADE leaves in [comment_votes] when the
    comments of [postID] go: those of the other comments. *)
Definition votes_without_post (postID : Z) (cs : gmap Z CommentRow)
    (t : list VoteRow) : list VoteRow :=
  List.filter
    (fun r => match cs !! vote_target r with
              | Some c => negb (c_post_id c =? postID)
              | None => true
              end) t.

Definition delete_post_categories (postID : Z) (d : DB) : DB :=
  mkDB (users d) (sessions d) (posts d)
    (List.filter (fun pc : Z * Z => negb (pc.1 =? postID)) (post_categories d))
    (post_votes d) (comments d) (comments_seq d) (comment_votes d).

Definition delete_post_comments (postID : Z) (d : DB) : DB :=
  mkDB (users d) (sessions d) (posts d) (post_categories d) (post_votes d)
    (comments_without_post postID (comments d)) (comments_seq d)
    (votes_without_post postID (comments d) (comment_votes d)).

Definition delete_post_votes (postID : Z) (d : DB) : DB :=
  mkDB (users d) (sessions d) (posts d) (post_categories d)
    (delete_votes_of postID (post_votes d))
    (comments d) (comments_seq d) (comment_votes d).

(** DELETE FROM posts WHERE id = ?: the row goes, and with it (ON DELETE
    CASCADE, foreign keys being on) what still references it. *)
Definition delete_post (postID : Z) (d : DB) : DB :=
  mkDB (users d) (sessions d) (delete postID (posts d))
    (List.filter (fun pc : Z * Z => negb (pc.1 =? postID)) (post_categories d))
    (delete_votes_of postID (post_votes d))
    (comments_without_post postID (comments d)) (comments_seq d)
    (votes_without_post postID (comments d) (comment_votes d)).

Definition DeletePost (postID : Z) : M (option error) :=
  db_call (DeleteFromPosts postID) (Some ErrIO)
    (fun d => (None, delete_post postID d)).

Definition DeletePostCategories (postID : Z) : M (option error) :=
  db_call (DeleteFromPostCategories postID) (Some ErrIO)
    (fun d => (None, delete_post_categories postID d)).

Definition DeletePostComments (postID : Z) : M (option error) :=
  db_call (DeleteFromCommentsOfPost postID) (Some ErrIO)
    (fun d => (None, delete_post_comments postID d)).

Definition DeletePostVotes (postID : Z) : M (option error) :=
  db_call (DeleteFromPostVotes postID) (Some ErrIO)
    (fun d => (None, delete_post_votes postID d)).

(** *** Votes on posts *)

Definition set_post_votes (t : list VoteRow) (d : DB) : DB :=
  mkDB (users d) (sessions d) (posts d) (post_categories d) t
    (comments d) (comments_seq d) (comment_votes d).

Definition GetUserPostVote (userID postID : Z) : M (Z * bool * option error) :=
  db_call (SelectPostVote userID postID) (0, false, Some ErrIO)
    (fun d =>
       match select_vote userID postID (post_votes d) with
       | None => ((0, false, None), d)
       | Some v => ((v, true, None), d)
       end).

Definition RemovePostVote (userID postID : Z) : M (option error) :=
  db_call (DeletePostVote userID postID) (Some ErrIO)
    (fun d => (None, set_post_votes (delete_vote userID postID (post_votes d)) d)).

(** INSERT INTO post_votes (user_id, post_id, vote) VALUES (?, ?, v)
    ON CONFLICT(user_id, post_id) DO UPDATE SET vote = v: the rows in
    conflict are updated; without one, the row is inserted, if its user
    and its post exist (foreign keys). *)
Definition upsert_post_vote (userID postID v : Z) (d : DB) : option error * DB :=
  if existsb (vote_matches userID postID) (post_votes d) then
    (None, set_post_votes (update_vote userID postID v (post_votes d)) d)
  else
    match users d !! userID, posts d !! postID with
    | Some _, Some _ =>
        (None, set_post_votes (post_votes d ++ [mkVote userID postID v]) d)
    | _, _ => (Some ErrConstraint, d)
    end.

Definition SetPostLike (userID postID : Z) : M (option error) :=
  db_call (UpsertPostVote userID postID 1) (Some ErrIO)
    (upsert_post_vote userID postID 1).

Definition SetPostDislike (userID postID : Z) : M (option error) :=
  db_call (UpsertPostVote userID postID (-1)) (Some ErrIO)
    (upsert_post_vote userID postID (-1)).

(** One aggregate row, whatever the table holds. *)
Definition GetPostVoteStats (userID postID : Z)
  : M (Z * Z * Z * bool * option error) :=
  let* row :=
    db_call (SelectPostVoteStats userID postID) (0, 0, None, Some ErrIO)
      (fun d =>
         ((sum_case 1 (votes_of postID (post_votes d)),
           sum_case (-1) (votes_of postID (post_votes d)),
           select_vote userID postID (post_votes d),
           None), d)) in
  let '(likes, dislikes, userVote, err) := row in
  match err with
  | Some _ => ret (0, 0, 0, false, err)
  | None =>
      match userVote with
      | Some v => ret (likes, dislikes, v, true, None)
      | None => ret (likes, dislikes, 0, false, None)
      end
  end.

(** *** Comments *)

(** The largest key of the table (0 when it is empty). *)
Definition max_rowid (cs : gmap Z CommentRow) : Z :=
  fold_right Z.max 0 (List.map fst (map_to_list cs)).

(** INSERT INTO comments: [post_id] and [user_id] are foreign keys; the
    new id (AUTOINCREMENT) is one more than every id used so far. *)
Definition insert_comment (postID userID : Z) (content : string)
    (createdAt : Time) (d : DB) : Z * option error * DB :=
  match posts d !! postID, users d !! userID with
  | Some _, Some _ =>
      let id := Z.max (comments_seq d) (max_rowid (comments d)) + 1 in
      (id, None,
       mkDB (users d) (sessions d) (posts d) (post_categories d) (post_votes d)
         (<[id := mkComment postID userID content createdAt]> (comments d))
         id (comment_votes d))
  | _, _ => (0, Some ErrConstraint, d)
  end.

Definition CreateComment (postID userID : Z) (content : string)
    (createdAt : Time) : M (Z * option error) :=
  db_call (InsertComment postID userID content createdAt) (0, Some ErrIO)
    (insert_comment postID userID content createdAt).

Definition GetCommentOwnerID (commentID : Z) : M (Z * option error) :=
  db_call (SelectCommentOwner commentID) (0, Some ErrIO)
    (fun d =>
       match comments d !! commentID with
       | Some c => ((c_user_id c, None), d)
       | None => ((0, Some ErrNoRows), d)
       end).

(** DELETE FROM comments WHERE id = ?, with the cascade to its votes. *)
Definition delete_comment (commentID : Z) (d : DB) : DB :=
  mkDB (users d) (sessions d) (posts d) (post_categories d) (post_votes d)
    (delete commentID (comments d)) (comments_seq d)
    (delete_votes_of commentID (comment_votes d)).

Definition delete_comment_votes (commentID : Z) (d : DB) : DB :=
  mkDB (users d) (sessions d) (posts d) (post_categories d) (post_votes d)
    (comments d) (comments_seq d)
    (delete_votes_of commentID (comment_votes d)).

Definition DeleteComment (commentID : Z) : M (option error) :=
  db_call (DeleteFromComments commentID) (Some ErrIO)
    (fun d => (None, delete_comment commentID d)).

Definition DeleteCommentVotes (commentID : Z) : M (option error) :=
  db_call (DeleteFromCommentVotes commentID) (Some ErrIO)
    (fun d => (None, delete_comment_votes commentID d)).

(** *** Votes on comments *)

(** A statement that [Stmt] does not name: as [db_call], but [trace], which
    follows the statements of [Stmt] only, is left as it is. *)
Definition db_stmt {A : Type} (fail : A) (sem : DB -> A * DB) : M A :=
  fun w =>
    let w1 := mkWorld (store w) (Sessions w) (clock w) (tl (faults w)) (uuids w)
                (trace w) (logs w) in
    if hd false (faults w) then (fail, w1)
    else ((sem (store w)).1, set_store (sem (store w)).2 w1).

Definition set_comment_votes (t : list VoteRow) (d : DB) : DB :=
  mkDB (users d) (sessions d) (posts d) (post_categories d) (post_votes d)
    (comments d) (comments_seq d) t.

Definition GetUserCommentVote (userID commentID : Z)
  : M (Z * bool * option error) :=
  db_stmt (0, false, Some ErrIO)
    (fun d =>
       match select_vote userID commentID (comment_votes d) with
       | None => ((0, false, None), d)
       | Some v => ((v, true, None), d)
       end).

Definition RemoveCommentVote (userID commentID : Z) : M (option error) :=
  db_stmt (Some ErrIO)
    (fun d =>
       (None,
        set_comment_votes (delete_vote userID commentID (comment_votes d)) d)).

(** INSERT INTO comment_votes (user_id, comment_id, vote) VALUES (?, ?, v)
    ON CONFLICT(user_id, comment_id) DO UPDATE SET vote = v *)
Definition upsert_comment_vote (userID commentID v : Z) (d : DB)
  : option error * DB :=
  if existsb (vote_matches userID commentID) (comment_votes d) then
    (None,
     set_comment_votes (update_vote userID commentID v (comment_votes d)) d)
  else
    match users d !! userID, comments d !! commentID with
    | Some _, Some _ =>
        (None,
         set_comment_votes (comment_votes d ++ [mkVote userID commentID v]) d)
    | _, _ => (Some ErrConstraint, d)
    end.

Definition SetCommentLike (userID commentID : Z) : M (option error) :=
  db_stmt (Some ErrIO) (upsert_comment_vote userID commentID 1).

Definition SetCommentDislike (userID commentID : Z) : M (option error) :=
  db_stmt (Some ErrIO) (upsert_comment_vote userID commentID (-1)).

Definition GetCommentVoteStats (userID commentID : Z)
  : M (Z * Z * Z * bool * option error) :=
  let* row :=
    db_stmt (0, 0, None, Some ErrIO)
      (fun d =>
         ((sum_case 1 (votes_of commentID (comment_votes d)),
           sum_case (-1) (votes_of commentID (comment_votes d)),
           select_vote userID commentID (comment_votes d),
           None), d)) in
  let '(likes, dislikes, userVote, err) := row in
  match err with
  | Some _ => ret (0, 0, 0, false, err)
  | None =>
      match userVote with
      | Some v => ret (likes, dislikes, v, true, None)
      | None => ret (likes, dislikes, 0, false, None)
      end
  end.

(** *** Registration *)

(** SQLite's LOWER(): the letters A to Z of ASCII, and nothing else. *)
Definition sqlite_lower_byte (a : ascii) : ascii :=
  let n := nat_of_ascii a in
  if (65 <=? n)%nat && (n <=? 90)%nat then ascii_of_nat (n + 32) else a.

Fixpoint sqlite_LOWER (s : string) : string :=
  match s with
  | EmptyString => EmptyString
  | String a rest => String (sqlite_lower_byte a) (sqlite_LOWER rest)
  end.

Definition EmailExists (email : string) : M (bool * option error) :=
  db_stmt (false, Some ErrIO)
    (fun d =>
       match find_user_by_email email (users d) with
       | Some _ => ((true, None), d)
       | None => ((false, None), d)
       end).

(** SELECT EXISTS(SELECT 1 FROM users WHERE LOWER(username) = ?) *)
Definition username_taken (lowered : string) (us : gmap Z UserRow) : bool :=
  existsb (fun kv : Z * UserRow => String.eqb (sqlite_LOWER (u_username kv.2)) lowered)
    (map_to_list us).

Section WithToLower.

(** [strings.ToLower] *)
Variable ToLower : string -> string.

Definition UsernameExists (username : string) : M (bool * option error) :=
  let username := ToLower username in
  db_stmt (false, Some ErrIO) (fun d => ((username_taken username (users d), None), d)).

End WithToLower.

(** The largest id of the table (0 when it is empty). *)
Definition max_user_id (us : gmap Z UserRow) : Z :=
  fold_right Z.max 0 (List.map fst (map_to_list us)).

(** INSERT INTO users (email, username, password, role)
    VALUES (?, ?, ?, 'user'): [email] and [username] are UNIQUE; the new id
    (AUTOINCREMENT) is one more than the largest, no row of [users] being
    ever deleted. *)
Definition insert_user (email username hashedPassword : string) (d : DB)
  : option error * DB :=
  if existsb (fun kv : Z * UserRow =>
                String.eqb (u_email kv.2) email
                || String.eqb (u_username kv.2) username)
       (map_to_list (users d))
  then (Some ErrConstraint, d)
  else
    (None,
     mkDB (<[max_user_id (users d) + 1
             := mkUser email username hashedPassword "user"]> (users d))
       (sessions d) (posts d) (post_categories d) (post_votes d) (comments d)
       (comments_seq d) (comment_votes d)).

Definition RegisterUser (email username hashedPassword : string)
  : M (option error) :=
  db_stmt (Some ErrIO) (insert_user email username hashedPassword).

(** *** The query of [GetPosts] *)

(** An argument bound to a placeholder. *)
Inductive Arg : Type := ArgInt (n : Z) | ArgString (s : string).

Definition GetPosts_select : string :=
"
        SELECT p.id, p.title, p.content, p.created_at, p.image_url, p.user_id, u.username,
               COALESCE(SUM(CASE WHEN pv.vote = 1 THEN 1 ELSE 0 END), 0) AS likes,
               COALESCE(SUM(CASE WHEN pv.vote = -1 THEN 1 ELSE 0 END), 0) AS dislikes,
               COALESCE(pv_user.vote, 0) AS user_vote,
               GROUP_CONCAT(c.name) AS categories
        FROM posts p
        JOIN users u ON p.user_id = u.id
        LEFT JOIN post_votes pv ON p.id = pv.post_id
        LEFT JOIN post_votes pv_user ON p.id = pv_user.post_id AND pv_user.user_id = ?
        LEFT JOIN post_categories pc ON p.id = pc.post_id
        LEFT JOIN categories c ON pc.category_id = c.id
    ".

(** What the [switch filter] of [GetPosts] leaves: the text added to the
    query, the arguments added, the ORDER BY clause, and [filter] itself,
    which the default case sets to ["new"]. *)
Definition GetPosts_filter (userID : Z) (filter : string)
  : string * list Arg * string * string :=
  if String.eqb filter "my" then
    (" WHERE p.user_id = ?", [ArgInt userID],
     " ORDER BY p.created_at DESC", filter)
  else if String.eqb filter "liked" then
    (" WHERE EXISTS (SELECT 1 FROM post_votes pv2 WHERE pv2.post_id = p.id AND pv2.user_id = ? AND pv2.vote = 1)",
     [ArgInt userID], " ORDER BY p.created_at DESC", filter)
  else if String.eqb filter "commented" then
    (" WHERE EXISTS (SELECT 1 FROM comments c WHERE c.post_id = p.id AND c.user_id = ?)",
     [ArgInt userID], " ORDER BY p.created_at DESC", filter)
  else if String.eqb filter "best" then
    ("", [],
     " ORDER BY (COALESCE(SUM(CASE WHEN pv.vote = 1 THEN 1 ELSE 0 END), 0) - COALESCE(SUM(CASE WHEN pv.vote = -1 THEN 1 ELSE 0 END), 0)) DESC",
     filter)
  else if String.eqb filter "new" then
    ("", [], " ORDER BY p.created_at DESC", filter)
  else
    ("", [], " ORDER BY p.created_at DESC", "new").

(** The text and the arguments that [GetPosts] hands to [db.Query]. *)
Definition GetPosts_query (userID : Z) (filter category : string)
  : string * list Arg :=
  let '(condition, filterArgs, orderBy, filter) := GetPosts_filter userID filter in
  let query := (GetPosts_select ++ condition)%string in
  let args := ([ArgInt userID] ++ filterArgs)%list in
  let '(query, args) :=
    if negb (String.eqb category "") then
      ((if String.eqb filter "new" || String.eqb filter "best"
        then query ++ " WHERE c.name = ?"
        else query ++ " AND c.name = ?")%string,
       (args ++ [ArgString category])%list)
    else (query, args) in
  ((query
    ++ " GROUP BY p.id, p.title, p.content, p.created_at, p.image_url, p.user_id, pv_user.vote"
    ++ orderBy)%string,
   args).

End database.

(** ** [regexp]: matching with derivatives

    The expressions the handlers compile are anchored at both ends and name
    ASCII bytes only, so a text matches as a string of runes exactly when
    it matches as a string of bytes. *)

Module regexp.

Inductive Regexp : Type :=
| Fail
| Empty
| Class (p : ascii -> bool)
| Seq (r1 r2 : Regexp)
| Alt (r1 r2 : Regexp)
| Star (r : Regexp).

Definition Plus (r : Regexp) : Regexp := Seq r (Star r).

Fixpoint nullable (r : Regexp) : bool :=
  match r with
  | Fail => false
  | Empty => true
  | Class _ => false
  | Seq r1 r2 => nullable r1 && nullable r2
  | Alt r1 r2 => nullable r1 || nullable r2
  | Star _ => true
  end.

Fixpoint deriv (a : ascii) (r : Regexp) : Regexp :=
  match r with
  | Fail => Fail
  | Empty => Fail
  | Class p => if p a then Empty else Fail
  | Seq r1 r2 =>
      if nullable r1 then Alt (Seq (deriv a r1) r2) (deriv a r2)
      else Seq (deriv a r1) r2
  | Alt r1 r2 => Alt (deriv a r1) (deriv a r2)
  | Star r1 => Seq (deriv a r1) (Star r1)
  end.

(** [re.MatchString(s)] for an expression written between [^] and [$]. *)
Fixpoint MatchString (r : Regexp) (s : string) : bool :=
  match s with
  | EmptyString => nullable r
  | String a rest => MatchString (deriv a r) rest
  end.

End regexp.

(** ** Requests and responses *)

(** What the handlers read of an [*http.Request]: the method, the value of
    the cookie [session_id] when there is one, the query of the URL, and the
    form that [ParseForm] builds ([None] when it fails). *)
Record Request : Type := mkRequest
  { Method : string;
    Cookie_session_id : option string;
    URL_Query : gmap string string;
    Form : option (gmap string string) }.

(** [values.Get(key)]: the empty string when the key is absent. *)
Definition Get (values : gmap string string) (key : string) : string :=
  default "" (values !! key).

Definition FormValue (r : Request) (key : string) : string :=
  match Form r with
  | Some f => Get f key
  | None => ""
  end.

Record Cookie : Type := mkCookie
  { Value : string; MaxAge : Z; Expires : option Time }.

(** The JSON objects the handlers encode. *)
Inductive Json : Type :=
| Message (success : bool) (message : string)
| VoteCounts (likes dislikes user_vote : Z)
| NewComment (comment_id : Z) (content : string) (user_id : Z)
    (username : string) (created_at : Time).

Inductive Body : Type :=
| NoBody
| JSON (j : Json)
| ErrorPage (code : Z)
| Redirect (url : string).

(** The status is 200 where the handler writes a body without calling
    [WriteHeader]. *)
Record Response : Type := mkResponse
  { Status : Z; SetCookie : option Cookie; Content : Body }.

Definition StatusOK : Z := 200.
Definition StatusSeeOther : Z := 303.
Definition StatusBadRequest : Z := 400.
Definition StatusUnauthorized : Z := 401.
Definition StatusForbidden : Z := 403.
Definition StatusNotFound : Z := 404.
Definition StatusMethodNotAllowed : Z := 405.
Definition StatusInternalServerError : Z := 500.

(** The field ["success"] of the JSON object of a response. *)
Definition success_of (resp : Response) : option bool :=
  match Content resp with
  | JSON (Message b _) => Some b
  | JSON (VoteCounts _ _ _) => Some true
  | JSON (NewComment _ _ _ _ _) => Some true
  | _ => None
  end.

Definition json (status : Z) (j : Json) : M Response :=
  ret (mkResponse status None (JSON j)).

Definition failure (status : Z) (message : string) : M Response :=
  json status (Message false message).

(** [writeError(w, code)]: the error page for [code]; the status line is
    not set. *)
Definition writeError (code : Z) : M Response :=
  ret (mkResponse StatusOK None (ErrorPage code)).

Definition http_Redirect (url : string) (code : Z) : M Response :=
  ret (mkResponse code None (Redirect url)).

(** ** [handlers] *)

Module handlers.
Import database.

Definition is_nil (err : option error) : bool :=
  match err with None => true | Some _ => false end.

Definition is_ErrNoRows (err : option error) : bool :=
  match err with Some ErrNoRows => true | _ => false end.

(** [IsAuthenticated(db, r)] *)
Definition IsAuthenticated (r : Request) : M (bool * Z * string) :=
  match Cookie_session_id r with
  | None => ret (false, 0, "")
  | Some cookie =>
      let* row := GetSessionData cookie in
      let '(userID, role, expiry, err) := row in
      if is_ErrNoRows err then ret (false, 0, "")
      else if negb (is_nil err) then
        let* _ := log_Println "Error querying session:" in
        ret (false, 0, "")
      else
        let* now := time_Now in
        if expiry <? now then
          let* err := DeleteExpiredSession cookie in
          let* _ := (if is_nil err then ret tt
                     else log_Println "Error deleting expired session:") in
          ret (false, 0, "")
        else
          let* _ := Sessions_store cookie (mkSessionData userID role expiry) in
          ret (true, userID, role)
  end.

Section Login.

(** [bcrypt.CompareHashAndPassword(hash, password) == nil] *)
Variable CompareHashAndPassword : string -> string -> bool.

Definition redirect_target (r : Request) : string :=
  if String.eqb (Get (URL_Query r) "redirect") "" then "/"
  else Get (URL_Query r) "redirect".

(** [LoginHandler(db)], for a database that is initialised. *)
Definition LoginHandler (r : Request) : M Response :=
  let* auth := IsAuthenticated r in
  let '(isAuth, _, _) := auth in
  if isAuth then http_Redirect (redirect_target r) StatusSeeOther
  else if String.eqb (Method r) "GET" then
    let* _ := log_Println "Redirecting GET /login to /." in
    http_Redirect "/?message=Login+please" StatusSeeOther
  else if String.eqb (Method r) "POST" then
    let* _ := log_Println "Processing login attempt." in
    match Form r with
    | None =>
        let* _ := log_Println "Error parsing form:" in
        http_Redirect "/?login_error=Bad request" StatusSeeOther
    | Some _ =>
        let email := Go.TrimSpace (FormValue r "email") in
        let password := FormValue r "password" in
        if String.eqb email "" || String.eqb password "" then
          let* _ := log_Println "Empty email or password." in
          http_Redirect "/?login_error=Email and password are required"
            StatusSeeOther
        else
          let* user := GetUserByEmail email in
          let '(userID, _, hashedPassword, role, err) := user in
          if negb (is_nil err) then
            let* _ := log_Println "Error fetching user with email" in
            http_Redirect "/?login_error=Invalid email or password"
              StatusSeeOther
          else if negb (CompareHashAndPassword hashedPassword password) then
            let* _ := log_Println "Invalid password for email" in
            http_Redirect "/?login_error=Invalid email or password"
              StatusSeeOther
          else
            let* err := DeleteUserSessions userID in
            if negb (is_nil err) then
              let* _ := log_Println "Error deleting old sessions:" in
              writeError StatusInternalServerError
            else
              let* sessionID := uuid_New in
              let* now := time_Now in
              let expiry := now + 24 * Hour in
              let* err := CreateSession sessionID userID role expiry in
              if negb (is_nil err) then
                let* _ := log_Println "Error saving session:" in
                writeError StatusInternalServerError
              else
                ret (mkResponse StatusSeeOther
                       (Some (mkCookie sessionID (24 * 60 * 60) None))
                       (Redirect (redirect_target r)))
    end
  else
    let* _ := log_Println "Method not allowed:" in
    writeError StatusMethodNotAllowed.

End Login.

(** [LogoutHandler(db)] *)
Definition LogoutHandler (r : Request) : M Response :=
  match Cookie_session_id r with
  | Some cookie =>
      let* err := DeleteSession cookie in
      let* _ := (if is_nil err then ret tt
                 else log_Println "Error deleting session:") in
      ret (mkResponse StatusSeeOther (Some (mkCookie "" 0 (Some 0)))
             (Redirect "/"))
  | None => http_Redirect "/" StatusSeeOther
  end.

(** [DeletePostHandler(db)] *)
Definition DeletePostHandler (r : Request) : M Response :=
  if negb (String.eqb (Method r) "DELETE") then
    let* _ := log_Println "Method not allowed:" in
    failure StatusMethodNotAllowed "Method not allowed."
  else
    let* auth := IsAuthenticated r in
    let '(isAuth, userID, role) := auth in
    if negb isAuth then failure StatusUnauthorized "Not authenticated."
    else
      let postIDStr := Get (URL_Query r) "post_id" in
      if String.eqb postIDStr "" then
        failure StatusBadRequest "Post ID is required."
      else
        match Go.Atoi postIDStr with
        | None => failure StatusBadRequest "Invalid Post ID."
        | Some postID =>
            let* owner := GetPostOwnerID postID in
            let '(postUserID, err) := owner in
            if negb (is_nil err) then
              let* _ := log_Println "Error fetching post:" in
              failure StatusNotFound "Post not found."
            else if negb (userID =? postUserID)
                    && negb (String.eqb role "admin") then
              failure StatusForbidden "Unauthorized."
            else
              let* err := DeletePostCategories postID in
              if negb (is_nil err) then
                let* _ := log_Println "Error deleting post categories:" in
                failure StatusInternalServerError "Server error."
              else
                let* err := DeletePostComments postID in
                if negb (is_nil err) then
                  let* _ := log_Println "Error deleting comments:" in
                  failure StatusInternalServerError "Server error."
                else
                  let* err := DeletePostVotes postID in
                  if negb (is_nil err) then
                    let* _ := log_Println "Error deleting post votes:" in
                    failure StatusInternalServerError "Server error."
                  else
                    let* err := DeletePost postID in
                    if negb (is_nil err) then
                      let* _ := log_Println "Error deleting post:" in
                      failure StatusInternalServerError "Server error."
                    else
                      let* _ := log_Println "User %d deleted post %d." in
                      json StatusOK (Message true "Post deleted successfully.")
        end.

(** [LikeHandler(db)] *)
Definition LikeHandler (r : Request) : M Response :=
  let* auth := IsAuthenticated r in
  let '(isAuth, userID, _) := auth in
  if negb isAuth then failure StatusOK "Not authenticated."
  else
    let postIDStr := Get (URL_Query r) "post_id" in
    if String.eqb postIDStr "" then failure StatusOK "Post ID is required."
    else
      match Go.Atoi postIDStr with
      | None => failure StatusOK "Invalid Post ID."
      | Some postID =>
          let* vote := GetUserPostVote userID postID in
          let '(currentVote, voteExists, err) := vote in
          if negb (is_nil err) then
            let* _ := log_Println "Error checking vote:" in
            failure StatusOK "Server error."
          else
            let* err := (if voteExists && (currentVote =? 1)
                         then RemovePostVote userID postID
                         else SetPostLike userID postID) in
            if negb (is_nil err) then
              let* _ := log_Println "Error updating vote:" in
              failure StatusOK "Server error."
            else
              let* stats := GetPostVoteStats userID postID in
              let '(likes, dislikes, userVote, userVoteExists, err) := stats in
              if negb (is_nil err) then
                let* _ := log_Println "Error fetching votes:" in
                failure StatusOK "Server error."
              else
                json StatusOK
                  (VoteCounts likes dislikes
                     (if userVoteExists then userVote else 0))
      end.

(** [DislikeHandler(db)] *)
Definition DislikeHandler (r : Request) : M Response :=
  let* auth := IsAuthenticated r in
  let '(isAuth, userID, _) := auth in
  if negb isAuth then failure StatusOK "Not authenticated."
  else
    let postIDStr := Get (URL_Query r) "post_id" in
    if String.eqb postIDStr "" then failure StatusOK "Post ID is required."
    else
      match Go.Atoi postIDStr with
      | None => failure StatusOK "Invalid Post ID."
      | Some postID =>
          let* vote := GetUserPostVote userID postID in
          let '(currentVote, voteExists, err) := vote in
          if negb (is_nil err) then
            let* _ := log_Println "Error checking vote:" in
            failure StatusOK "Server error."
          else
            let* err := (if voteExists && (currentVote =? -1)
                         then RemovePostVote userID postID
                         else SetPostDislike userID postID) in
            if negb (is_nil err) then
              let* _ := log_Println "Error updating vote:" in
              failure StatusOK "Server error."
            else
              let* stats := GetPostVoteStats userID postID in
              let '(likes, dislikes, userVote, userVoteExists, err) := stats in
              if negb (is_nil err) then
                let* _ := log_Println "Error fetching votes:" in
                failure StatusOK "Server error."
              else
                json StatusOK
                  (VoteCounts likes dislikes
                     (if userVoteExists then userVote else 0))
      end.

(** [CommentHandler(db)]; the creation time is kept as the instant that
    [time.Now()] returns, not as its formatted text. *)
Definition CommentHandler (r : Request) : M Response :=
  let* auth := IsAuthenticated r in
  let '(isAuth, userID, _) := auth in
  if negb isAuth then
    let* _ := log_Println "Unauthenticated user attempted to create a comment." in
    http_Redirect "/?message=Login+please" StatusSeeOther
  else if negb (String.eqb (Method r) "POST") then
    failure StatusOK "Method not allowed."
  else
    match Form r with
    | None =>
        let* _ := log_Println "Error parsing form:" in
        failure StatusOK "Bad request."
    | Some _ =>
        let* _ := log_Println "Received form data:" in
        let postIDStr := FormValue r "post_id" in
        let content := FormValue r "content" in
        let* _ := log_Println "Comment attempt:" in
        if String.eqb postIDStr "" || String.eqb content "" then
          failure StatusOK "Post ID and content are required."
        else
          match Go.Atoi postIDStr with
          | None => failure StatusOK "Invalid Post ID."
          | Some postID =>
              let trimmedContent := Go.TrimSpace content in
              if String.eqb trimmedContent "" then
                failure StatusOK
                  "Comment content cannot be empty or contain only whitespace."
              else if Go.len trimmedContent <? 3 then
                failure StatusOK "Comment must be at least 3 characters long."
              else if 500 <? Go.len trimmedContent then
                failure StatusOK "Comment cannot be longer than 500 characters."
              else
                let* createdAt := time_Now in
                let* created := CreateComment postID userID content createdAt in
                let '(commentID, err) := created in
                if negb (is_nil err) then
                  let* _ := log_Println "Error inserting comment:" in
                  failure StatusInternalServerError "Server error."
                else
                  let* name := GetUsernameByID userID in
                  let '(username, err) := name in
                  if negb (is_nil err) then
                    let* _ := log_Println "Error fetching username:" in
                    failure StatusInternalServerError "Server error."
                  else
                    json StatusOK
                      (NewComment commentID content userID username createdAt)
          end
    end.

(** [DeleteCommentHandler(db)] *)
Definition DeleteCommentHandler (r : Request) : M Response :=
  if negb (String.eqb (Method r) "DELETE") then
    let* _ := log_Println "Method not allowed:" in
    failure StatusMethodNotAllowed "Method not allowed."
  else
    let* auth := IsAuthenticated r in
    let '(isAuth, userID, role) := auth in
    if negb isAuth then failure StatusUnauthorized "Not authenticated."
    else
      let commentIDStr := Get (URL_Query r) "comment_id" in
      if String.eqb commentIDStr "" then
        failure StatusBadRequest "Comment ID is required."
      else
        match Go.Atoi commentIDStr with
        | None => failure StatusBadRequest "Invalid Comment ID."
        | Some commentID =>
            let* owner := GetCommentOwnerID commentID in
            let '(commentOwnerID, err) := owner in
            if is_ErrNoRows err then
              failure StatusNotFound "Comment not found."
            else if negb (String.eqb role "admin")
                    && negb (userID =? commentOwnerID) then
              failure StatusForbidden "Unauthorized."
            else if negb (is_nil err) then
              let* _ := log_Println "Error fetching comment owner:" in
              failure StatusInternalServerError "Server error."
            else
              let* err := DeleteCommentVotes commentID in
              if negb (is_nil err) then
                let* _ := log_Println "Error deleting comment votes:" in
                failure StatusInternalServerError "Server error."
              else
                let* err := DeleteComment commentID in
                if negb (is_nil err) then
                  let* _ := log_Println "Error deleting comment:" in
                  failure StatusInternalServerError "Server error."
                else
                  let* _ := log_Println "User %d deleted comment %d successfully." in
                  json StatusOK (Message true "Comment deleted.")
        end.

(** [CommentLikeHandler(db)] *)
Definition CommentLikeHandler (r : Request) : M Response :=
  let* auth := IsAuthenticated r in
  let '(isAuth, userID, _) := auth in
  if negb isAuth then
    let* _ := log_Println "Unauthenticated user attempted to like a comment." in
    http_Redirect "/?message=Login+please" StatusSeeOther
  else if negb (String.eqb (Method r) "POST") then
    failure StatusMethodNotAllowed "Method not allowed."
  else
    let commentIDStr := Get (URL_Query r) "comment_id" in
    if String.eqb commentIDStr "" then
      failure StatusBadRequest "Comment ID is required."
    else
      match Go.Atoi commentIDStr with
      | None => failure StatusBadRequest "Invalid Comment ID."
      | Some commentID =>
          let* vote := GetUserCommentVote userID commentID in
          let '(currentVote, voteExists, err) := vote in
          if negb (is_nil err) then
            let* _ := log_Println "Error checking vote:" in
            failure StatusInternalServerError "Server error."
          else
            let* err := (if voteExists && (currentVote =? 1)
                         then RemoveCommentVote userID commentID
                         else SetCommentLike userID commentID) in
            if negb (is_nil err) then
              let* _ := log_Println "Error updating vote:" in
              failure StatusInternalServerError "Server error."
            else
              let* stats := GetCommentVoteStats userID commentID in
              let '(likes, dislikes, userVote, userVoteExists, err) := stats in
              if negb (is_nil err) then
                let* _ := log_Println "Error fetching comment votes:" in
                failure StatusInternalServerError "Server error."
              else
                json StatusOK
                  (VoteCounts likes dislikes
                     (if userVoteExists then userVote else 0))
      end.

(** [CommentDislikeHandler(db)] *)
Definition CommentDislikeHandler (r : Request) : M Response :=
  let* auth := IsAuthenticated r in
  let '(isAuth, userID, _) := auth in
  if negb isAuth then
    let* _ := log_Println "Unauthenticated user attempted to dislike a comment." in
    http_Redirect "/?message=Login+please" StatusSeeOther
  else if negb (String.eqb (Method r) "POST") then
    failure StatusMethodNotAllowed "Method not allowed."
  else
    let commentIDStr := Get (URL_Query r) "comment_id" in
    if String.eqb commentIDStr "" then
      failure StatusBadRequest "Comment ID is required."
    else
      match Go.Atoi commentIDStr with
      | None => failure StatusBadRequest "Invalid Comment ID."
      | Some commentID =>
          let* vote := GetUserCommentVote userID commentID in
          let '(currentVote, voteExists, err) := vote in
          if negb (is_nil err) then
            let* _ := log_Println "Error checking vote:" in
            failure StatusInternalServerError "Server error."
          else
            let* err := (if voteExists && (currentVote =? -1)
                         then RemoveCommentVote userID commentID
                         else SetCommentDislike userID commentID) in
            if negb (is_nil err) then
              let* _ := log_Println "Error updating vote:" in
              failure StatusInternalServerError "Server error."
            else
              let* stats := GetCommentVoteStats userID commentID in
              let '(likes, dislikes, userVote, userVoteExists, err) := stats in
              if negb (is_nil err) then
                let* _ := log_Println "Error fetching comment votes:" in
                failure StatusInternalServerError "Server error."
              else
                json StatusOK
                  (VoteCounts likes dislikes
                     (if userVoteExists then userVote else 0))
      end.

(** *** Registration *)

(** What [RegisterHandler] writes: the template [templates/register.html]
    executed on a [models.PageData] of which only [ErrorMessage] and
    [Message] can be other than the zero value (the request is not
    authenticated on these paths), or an answer that renders no page. *)
Inductive Page : Type :=
| RegisterPage (ErrorMessage Message : string)
| Answer (resp : Response).

(** The expression
    [^[a-zA-Z0-9._%+\-]+@[a-zA-Z0-9.\-]+\.[a-zA-Z]{2,}$]. *)
Definition is_letter (a : ascii) : bool :=
  let n := nat_of_ascii a in
  ((65 <=? n) && (n <=? 90) || (97 <=? n) && (n <=? 122))%nat.

Definition is_digit (a : ascii) : bool :=
  let n := nat_of_ascii a in ((48 <=? n) && (n <=? 57))%nat.

Definition is_local (a : ascii) : bool :=
  is_letter a || is_digit a
  || Ascii.eqb a "."%char || Ascii.eqb a "_"%char || Ascii.eqb a "%"%char
  || Ascii.eqb a "+"%char || Ascii.eqb a "-"%char.

Definition is_domain (a : ascii) : bool :=
  is_letter a || is_digit a || Ascii.eqb a "."%char || Ascii.eqb a "-"%char.

Definition emailRegex : regexp.Regexp :=
  regexp.Seq (regexp.Plus (regexp.Class is_local))
    (regexp.Seq (regexp.Class (Ascii.eqb "@"%char))
       (regexp.Seq (regexp.Plus (regexp.Class is_domain))
          (regexp.Seq (regexp.Class (Ascii.eqb "."%char))
             (regexp.Seq (regexp.Class is_letter)
                (regexp.Seq (regexp.Class is_letter)
                   (regexp.Star (regexp.Class is_letter))))))).

Section Register.

(** [strings.ToLower]; [bcrypt.GenerateFromPassword(password, DefaultCost)]
    ([None]: an error); whether [template.ParseFiles] succeeds on a file. *)
Variable ToLower : string -> string.
Variable GenerateFromPassword : string -> option string.
Variable ParseFiles : string -> bool.

(** The three lines that parse and execute [templates/register.html]. *)
Definition render_register (errorMessage message : string) : M Page :=
  if negb (ParseFiles "templates/register.html") then
    let* _ := log_Println "Error parsing register template:" in
    let* resp := writeError StatusInternalServerError in
    ret (Answer resp)
  else ret (RegisterPage errorMessage message).

(** [RegisterHandler(db)] *)
Definition RegisterHandler (r : Request) : M Page :=
  let* auth := IsAuthenticated r in
  let '(isAuth, _, _) := auth in
  if isAuth then
    let* resp := http_Redirect "/" StatusSeeOther in ret (Answer resp)
  else if String.eqb (Method r) "POST" then
    match Form r with
    | None =>
        let* _ := log_Println "Error parsing form:" in
        let* resp := writeError StatusBadRequest in ret (Answer resp)
    | Some _ =>
        let email := Go.TrimSpace (FormValue r "email") in
        let username := Go.TrimSpace (FormValue r "username") in
        let password := FormValue r "password" in
        if String.eqb email "" || String.eqb username ""
           || String.eqb password "" then
          render_register "All fields are required." ""
        else if negb (regexp.MatchString emailRegex email) then
          render_register "Invalid email format." ""
        else
          let* found := EmailExists email in
          let '(emailExists, err) := found in
          if negb (is_nil err) then
            let* _ := log_Println "Error checking email:" in
            let* resp := writeError StatusInternalServerError in
            ret (Answer resp)
          else if emailExists then
            render_register "Email already taken." ""
          else
            let* found := UsernameExists ToLower username in
            let '(usernameExists, err) := found in
            if negb (is_nil err) then
              let* _ := log_Println "Error checking username:" in
              let* resp := writeError StatusInternalServerError in
              ret (Answer resp)
            else if usernameExists then
              render_register "Username already taken." ""
            else
              match GenerateFromPassword password with
              | None =>
                  let* _ := log_Println "Error hashing password:" in
                  let* resp := writeError StatusInternalServerError in
                  ret (Answer resp)
              | Some hashedPassword =>
                  let* err := RegisterUser email username hashedPassword in
                  if negb (is_nil err) then
                    let* _ := log_Println "Error inserting user:" in
                    let* resp := writeError StatusInternalServerError in
                    ret (Answer resp)
                  else
                    render_register ""
                      "Registration successful, please login."
              end
    end
  else render_register (Get (URL_Query r) "error") "".

End Register.

End handlers.

(** ** [middleware.go] *)

Module middleware.

(** What reaches the [http.ResponseWriter] of the server. *)
Inductive WriterCall : Type :=
| WriteHeaderCall (code : Z)
| WriteCall (b : string)
| ExecuteCall (template : string).

(** [responseRecorder]; [inner] is the embedded [http.ResponseWriter], as
    the calls it has received. *)
Record responseRecorder : Type := mkRecorder
  { inner : list WriterCall; statusCode : Z; written : bool }.

(** [rec.WriteHeader(code)] *)
Definition WriteHeader (code : Z) (rec : responseRecorder) : responseRecorder :=
  if negb (written rec) then
    mkRecorder (inner rec ++ [WriteHeaderCall code]) code true
  else rec.

(** [rec.Write(b)], when the embedded writer answers [(n, err)]. *)
Definition Write (b : string) (n : Z) (err : option error)
    (rec : responseRecorder) : (Z * option error) * responseRecorder :=
  let rec1 :=
    if negb (written rec) then
      mkRecorder (inner rec ++ [WriteHeaderCall StatusOK]) StatusOK true
    else rec in
  let rec2 := mkRecorder (inner rec1 ++ [WriteCall b]) (statusCode rec1)
                (written rec1) in
  ((n, err),
   if handlers.is_nil err && (0 <? n)
   then mkRecorder (inner rec2) (statusCode rec2) true else rec2).

(** What a handler does with the writer it is given. *)
Inductive Op : Type :=
| OpWriteHeader (code : Z)
| OpWrite (b : string) (n : Z) (err : option error).

Definition run_op (rec : responseRecorder) (o : Op) : responseRecorder :=
  match o with
  | OpWriteHeader code => WriteHeader code rec
  | OpWrite b n err => (Write b n err rec).2
  end.

Definition run_ops (ops : list Op) (rec : responseRecorder) : responseRecorder :=
  fold_left run_op ops rec.

(** [http.Error(w, msg, code)], on the writer of the server. *)
Definition http_Error (msg : string) (code : Z) : list WriterCall :=
  [WriteHeaderCall code; WriteCall (msg ++ "
")].

(** [h.ServeHTTP(w, r)] for a router whose handler does [ops] with the
    recorder and does not panic: the calls that [w] receives.  [parse_ok]
    tells whether [templates/404.html] parses. *)
Definition ServeHTTP (method : string) (parse_ok : bool) (ops : list Op)
  : list WriterCall :=
  let rr := run_ops ops (mkRecorder [] 0 false) in
  if negb (written rr) then
    if String.eqb method "HEAD" then inner rr ++ [WriteHeaderCall StatusNotFound]
    else
      inner rr ++ [WriteHeaderCall StatusNotFound]
      ++ (if negb parse_ok then http_Error "Page not found." StatusNotFound
          else [ExecuteCall "templates/404.html"])
  else inner rr.

End middleware.

(** ** Vocabulary of the properties *)

Import database handlers.

(** PRIMARY KEY(user_id, target): no two rows of a table of votes have the
    same user and the same target. *)
Definition vote_key (r : VoteRow) : Z * Z := (vote_user r, vote_target r).

Definition pk_unique (t : list VoteRow) : Prop := NoDup (List.map vote_key t).

(** CHECK(vote IN (-1, 1)) *)
Definition votes_check (t : list VoteRow) : bool :=
  forallb (fun r => (vote_value r =? 1) || (vote_value r =? -1)) t.

(** The number of rows of user [userID] on [target]. *)
Definition count_votes (userID target : Z) (t : list VoteRow) : nat :=
  List.length (List.filter (vote_matches userID target) t).

(** The database after [LikeHandler], and after [DislikeHandler], when the
    request is authenticated as [userID], names the post [postID], and no
    statement fails in the storage engine: the vote is removed when it is
    the one asked for, and written otherwise. *)
Definition like_store (userID postID : Z) (d : DB) : DB :=
  match select_vote userID postID (post_votes d) with
  | Some 1 => set_post_votes (delete_vote userID postID (post_votes d)) d
  | _ => (upsert_post_vote userID postID 1 d).2
  end.

Definition dislike_store (userID postID : Z) (d : DB) : DB :=
  match select_vote userID postID (post_votes d) with
  | Some (-1) => set_post_votes (delete_vote userID postID (post_votes d)) d
  | _ => (upsert_post_vote userID postID (-1) d).2
  end.

(** The four removals of [DeletePostHandler], and the two of
    [DeleteCommentHandler], in the order of the calls. *)
Definition post_cascade (postID : Z) (d : DB) : DB :=
  delete_post postID
    (delete_post_votes postID
       (delete_post_comments postID (delete_post_categories postID d))).

Definition comment_cascade (commentID : Z) (d : DB) : DB :=
  delete_comment commentID (delete_comment_votes commentID d).

(** The statements that remove rows of a post or of a comment, and the
    orders in which the two delete handlers issue them. *)
Definition is_removal (s : Stmt) : bool :=
  match s with
  | DeleteFromPosts _ | DeleteFromPostCategories _
  | DeleteFromCommentsOfPost _ | DeleteFromPostVotes _
  | DeleteFromComments _ | DeleteFromCommentVotes _ => true
  | _ => false
  end.

Definition post_removals (postID : Z) : list Stmt :=
  [DeleteFromPostCategories postID; DeleteFromCommentsOfPost postID;
   DeleteFromPostVotes postID; DeleteFromPosts postID].

Definition comment_removals (commentID : Z) : list Stmt :=
  [DeleteFromCommentVotes commentID; DeleteFromComments commentID].

(** Nothing in the database refers to the post any more. *)
Definition post_gone (postID : Z) (d : DB) : Prop :=
  posts d !! postID = None
  /\ (forall pc, In pc (post_categories d) -> pc.1 <> postID)
  /\ (forall id c, comments d !! id = Some c -> c_post_id c <> postID)
  /\ (forall v, In v (post_votes d) -> vote_target v <> postID).

Definition comment_gone (commentID : Z) (d : DB) : Prop :=
  comments d !! commentID = None
  /\ (forall v, In v (comment_votes d) -> vote_target v <> commentID).

Definition user_exists (userID : Z) (d : DB) : bool :=
  match users d !! userID with Some _ => true | None => false end.

Definition post_exists (postID : Z) (d : DB) : bool :=
  match posts d !! postID with Some _ => true | None => false end.

(** The user and the role of the session that the request names with its
    cookie, when the store holds that session and it has not expired. *)
Definition logged_in (r : Request) (w : World) : option (Z * string) :=
  match Cookie_session_id r with
  | Some cookie =>
      match sessions (store w) !! cookie with
      | Some s =>
          if s_expiry s <? clock w then None else Some (s_user_id s, s_role s)
      | None => None
      end
  | None => None
  end.

(** ** A forum to compute with

    Users 1 (ann) and 2 (bob), one session each, and the post 7 of ann with
    one category, one comment of bob and a vote on that comment. *)

Definition db0 : DB :=
  mkDB {[ 1 := mkUser "ann@forum.io" "ann" "hash-a" "user";
          2 := mkUser "bob@forum.io" "bob" "hash-b" "user" ]}
    {[ "tokA" := mkSession 1 "user" 1000; "tokB" := mkSession 2 "user" 1000 ]}
    {[ 7 := mkPost 1 "title" "text" ]}
    [(7, 1)]
    []
    {[ 3 := mkComment 7 2 "first" 5 ]}
    3
    [mkVote 1 3 1].

Definition w0 : World := mkWorld db0 ∅ 10 [] ["tokN"] [] [].

(** The same forum once bob has liked the post 7. *)
Definition w_liked : World :=
  mkWorld (set_post_votes [mkVote 2 7 1] db0) ∅ 10 [] ["tokN"] [] [].

(** The same forum at the instant the sessions expire, and later. *)
Definition w_at_expiry : World := mkWorld db0 ∅ 1000 [] ["tokN"] [] [].

Definition w_expired : World := mkWorld db0 ∅ 2000 [] ["tokN"] [] [].

(** The same forum, the first statement to come failing. *)
Definition w_failing : World := mkWorld db0 ∅ 10 [true] ["tokN"] [] [].

(** POST /like?post_id=7 (or /dislike) with the cookie [tok]. *)
Definition vote_req (tok : string) : Request :=
  mkRequest "POST" (Some tok) {[ "post_id" := "7" ]} None.

(** DELETE /delete-post?post_id=7 with the cookie [tok]. *)
Definition delete_post_req (tok : string) : Request :=
  mkRequest "DELETE" (Some tok) {[ "post_id" := "7" ]} None.

(** DELETE /delete-comment?comment_id=3 with the cookie [tok]. *)
Definition delete_comment_req (tok : string) : Request :=
  mkRequest "DELETE" (Some tok) {[ "comment_id" := "3" ]} None.

(** POST /comment with the cookie [tok] and the form post_id=7, content. *)
Definition comment_req (tok content : string) : Request :=
  mkRequest "POST" (Some tok) ∅
    (Some {[ "post_id" := "7"; "content" := content ]}).

(** POST /login with the form email, password, and no cookie. *)
Definition login_req (email password : string) : Request :=
  mkRequest "POST" None ∅
    (Some {[ "email" := email; "password" := password ]}).

(** A password check for the examples: the stored hash is the password
    after the prefix [hash-]. *)
Definition check_password (hash password : string) : bool :=
  String.eqb hash ("hash-" ++ password).

(** The world at the later instant [t]. *)
Definition at_time (t : Time) (w : World) : World :=
  mkWorld (store w) (Sessions w) t (faults w) (uuids w) (trace w) (logs w).

(** The world when the storage engine is about to answer [fs]. *)
Definition with_faults (fs : list bool) (w : World) : World :=
  mkWorld (store w) (Sessions w) (clock w) fs (uuids w) (trace w) (logs w).

(** The database after [CommentLikeHandler], and after
    [CommentDislikeHandler], for a POST authenticated as [userID] that names
    the comment [commentID], no statement failing. *)
Definition comment_like_store (userID commentID : Z) (d : DB) : DB :=
  match select_vote userID commentID (comment_votes d) with
  | Some 1 => set_comment_votes (delete_vote userID commentID (comment_votes d)) d
  | _ => (upsert_comment_vote userID commentID 1 d).2
  end.

Definition comment_dislike_store (userID commentID : Z) (d : DB) : DB :=
  match select_vote userID commentID (comment_votes d) with
  | Some (-1) =>
      set_comment_votes (delete_vote userID commentID (comment_votes d)) d
  | _ => (upsert_comment_vote userID commentID (-1) d).2
  end.

Definition comment_exists (commentID : Z) (d : DB) : bool :=
  match comments d !! commentID with Some _ => true | None => false end.

(** Referential integrity: every row refers to rows that exist (the
    foreign keys of the schema, but for the table of categories). *)
Definition vote_refs_ok (d : DB) (target_exists : Z -> DB -> bool)
    (t : list VoteRow) : Prop :=
  forall v, In v t ->
    user_exists (vote_user v) d = true /\ target_exists (vote_target v) d = true.

Definition fk_ok (d : DB) : Prop :=
  (forall k s, sessions d !! k = Some s -> user_exists (s_user_id s) d = true)
  /\ (forall k p, posts d !! k = Some p -> user_exists (p_user_id p) d = true)
  /\ (forall pc, In pc (post_categories d) -> post_exists pc.1 d = true)
  /\ vote_refs_ok d post_exists (post_votes d)
  /\ (forall k c, comments d !! k = Some c ->
        post_exists (c_post_id c) d = true /\ user_exists (c_user_id c) d = true)
  /\ vote_refs_ok d comment_exists (comment_votes d).

(** The number of ["?"] in a query. *)
Fixpoint placeholders (q : string) : nat :=
  match q with
  | EmptyString => 0
  | String a rest =>
      ((if Ascii.eqb a "?"%char then 1 else 0) + placeholders rest)%nat
  end.

(** A hash for the examples, that [check_password] checks. *)
Definition hash_password (password : string) : option string :=
  Some ("hash-" ++ password)%string.

(** A lower-casing for the examples: that of ASCII. *)
Definition ascii_lower (s : string) : string := sqlite_LOWER s.

(** POST /comment-like?comment_id=3 (or /comment-dislike). *)
Definition comment_vote_req (tok : string) : Request :=
  mkRequest "POST" (Some tok) {[ "comment_id" := "3" ]} None.

(** POST /register with the form email, username, password, and no cookie. *)
Definition register_req (email username password : string) : Request :=
  mkRequest "POST" None ∅
    (Some {[ "email" := email; "username" := username;
             "password" := password ]}).

(** ** Vocabulary of the further properties *)

(** What a vote handler can do to the table of votes [t] for the pair
    ([userID], [target]): delete the rows of the pair, set them to [v], or
    add the row, which needs the user and the target to exist ([ok]). *)
Inductive vote_write (userID target v : Z) (ok : bool) (t : list VoteRow)
  : list VoteRow -> Prop :=
| vw_delete : vote_write userID target v ok t (delete_vote userID target t)
| vw_update : vote_write userID target v ok t (update_vote userID target v t)
| vw_insert :
    ok = true -> existsb (vote_matches userID target) t = false ->
    vote_write userID target v ok t (t ++ [mkVote userID target v]).

(** The table of votes after a like ([v = 1]) or a dislike ([v = -1]) of
    [userID] on [target]; [ok] tells whether the user and the target exist. *)
Definition toggle_vote (userID target v : Z) (ok : bool) (t : list VoteRow)
  : list VoteRow :=
  match select_vote userID target t with
  | Some x =>
      if x =? v then delete_vote userID target t
      else update_vote userID target v t
  | None => if ok then t ++ [mkVote userID target v] else t
  end.

(** The removals of [DeletePostHandler] and of [DeleteCommentHandler] as
    functions on the database, in the order of the calls. *)
Definition post_steps (postID : Z) : list (DB -> DB) :=
  [delete_post_categories postID; delete_post_comments postID;
   delete_post_votes postID; delete_post postID].

Definition comment_steps (commentID : Z) : list (DB -> DB) :=
  [delete_comment_votes commentID; delete_comment commentID].

(** The database after the removals [fs], done one after the other. *)
Definition run_steps (fs : list (DB -> DB)) (d : DB) : DB :=
  fold_left (fun d f => f d) fs d.

(** The reply of the JSON handlers to a failure of the database. *)
Definition server_error : Response :=
  mkResponse StatusInternalServerError None (JSON (Message false "Server error.")).

(** The vote [v] is on a comment of the post [p]. *)
Definition on_post (p : Z) (cs : gmap Z CommentRow) (v : VoteRow) : bool :=
  match cs !! vote_target v with
  | Some c => c_post_id c =? p
  | None => false
  end.

(** What the database holds of the post [p]: its row, its categories, its
    votes, its comments and their votes. *)
Definition post_view (p : Z) (d : DB)
  : option PostRow * list (Z * Z) * list VoteRow * gmap Z CommentRow
    * list VoteRow :=
  (posts d !! p,
   List.filter (fun pc : Z * Z => pc.1 =? p) (post_categories d),
   votes_of p (post_votes d),
   filter (fun kv : Z * CommentRow => c_post_id kv.2 = p) (comments d),
   List.filter (on_post p (comments d)) (comment_votes d)).

(** The ids that AUTOINCREMENT gives to the next comment and to the next
    user. *)
Definition next_comment_id (d : DB) : Z :=
  Z.max (comments_seq d) (max_rowid (comments d)) + 1.

Definition next_user_id (d : DB) : Z := max_user_id (users d) + 1.

(** The constraints of the two tables of votes: the primary key and the
    CHECK on the value. *)
Definition votes_ok (d : DB) : Prop :=
  (pk_unique (post_votes d) /\ votes_check (post_votes d) = true)
  /\ (pk_unique (comment_votes d) /\ votes_check (comment_votes d) = true).

(** The page that [RegisterHandler] renders when the account was created. *)
Definition registered : Page :=
  RegisterPage "" "Registration successful, please login.".

(** The texts that an expression matches from end to end. *)
Inductive lang : regexp.Regexp -> string -> Prop :=
| lang_empty : lang regexp.Empty ""
| lang_class (p : ascii -> bool) (a : ascii) :
    p a = true -> lang (regexp.Class p) (String a "")
| lang_seq (r1 r2 : regexp.Regexp) (s1 s2 : string) :
    lang r1 s1 -> lang r2 s2 -> lang (regexp.Seq r1 r2) (s1 ++ s2)
| lang_alt_l (r1 r2 : regexp.Regexp) (s : string) :
    lang r1 s -> lang (regexp.Alt r1 r2) s
| lang_alt_r (r1 r2 : regexp.Regexp) (s : string) :
    lang r2 s -> lang (regexp.Alt r1 r2) s
| lang_star_nil (r : regexp.Regexp) : lang (regexp.Star r) ""
| lang_star_cons (r : regexp.Regexp) (s1 s2 : string) :
    lang r s1 -> lang (regexp.Star r) s2 -> lang (regexp.Star r) (s1 ++ s2).

(** Every byte of the text is in the class. *)
Fixpoint all_chars (p : ascii -> bool) (s : string) : bool :=
  match s with
  | EmptyString => true
  | String a rest => p a && all_chars p rest
  end.

(** The status that an operation of a handler sets when it is the first,
    and the bodies that the operations write. *)
Definition status_of (o : middleware.Op) : Z :=
  match o with
  | middleware.OpWriteHeader code => code
  | middleware.OpWrite _ _ _ => StatusOK
  end.

Fixpoint bodies (ops : list middleware.Op) : list middleware.WriterCall :=
  match ops with
  | [] => []
  | middleware.OpWriteHeader _ :: rest => bodies rest
  | middleware.OpWrite b _ _ :: rest => middleware.WriteCall b :: bodies rest
  end.

(** The recorder that [ServeHTTP] hands to the router. *)
Definition fresh_recorder : middleware.responseRecorder :=
  middleware.mkRecorder [] 0 false.

(** The filters that [GetPosts] knows. *)
Definition known_filter (filter : string) : bool :=
  String.eqb filter "my" || String.eqb filter "liked"
  || String.eqb filter "commented" || String.eqb filter "best"
  || String.eqb filter "new".

(** * Properties *)

(** ** Go functions *)

Example Atoi_42 : Go.Atoi "42" = Some 42.
Proof. reflexivity. Qed.

Example Atoi_neg : Go.Atoi "-7" = Some (-7).
Proof. reflexivity. Qed.

Example Atoi_bad : Go.Atoi "4x" = None /\ Go.Atoi "" = None /\ Go.Atoi "+" = None.
Proof. repeat split; reflexivity. Qed.

Example TrimSpace_ascii : Go.TrimSpace "  ab c  " = "ab c".
Proof. reflexivity. Qed.

Example TrimSpace_blank : Go.TrimSpace "   " = "".
Proof. reflexivity. Qed.

Example TrimSpace_unicode : Go.TrimSpace "  ab c　 " = "ab c".
Proof. reflexivity. Qed.

(** The fuel of [Go.trim_left] is enough: nothing is left to strip. *)
Lemma strip_prefix_length (p : list nat) (s s' : list ascii) :
  Go.strip_prefix p s = Some s' ->
  (List.length s' + List.length p = List.length s)%nat.
Proof.
  revert s. induction p as [|n p IH]; intros s H; cbn in *.
  - injection H as ->. lia.
  - destruct s as [|a s]; [discriminate|].
    destruct (Nat.eqb n (nat_of_ascii a)); [|discriminate].
    apply IH in H. cbn. lia.
Qed.

Lemma strip_any_length (ps : list (list nat)) (s s' : list ascii) :
  Forall (fun p => p <> []) ps ->
  Go.strip_any ps s = Some s' ->
  (List.length s' < List.length s)%nat.
Proof.
  induction ps as [|p ps IH]; intros Hne H; cbn in *; [discriminate|].
  apply Forall_cons_1 in Hne as [Hp Hps].
  destruct (Go.strip_prefix p s) as [s1|] eqn:E.
  - injection H as ->. apply strip_prefix_length in E.
    destruct p; [congruence | cbn in E; lia].
  - exact (IH Hps H).
Qed.

Lemma trim_left_done (ps : list (list nat)) (fuel : nat) (s : list ascii) :
  Forall (fun p => p <> []) ps ->
  (List.length s <= fuel)%nat ->
  Go.strip_any ps (Go.trim_left ps fuel s) = None.
Proof.
  intros Hne. revert s. induction fuel as [|fuel IH]; intros s Hlen; cbn.
  - destruct s; [|cbn in Hlen; lia].
    clear Hlen. induction ps as [|p ps IHps]; [reflexivity|]. cbn.
    apply Forall_cons_1 in Hne as [Hp Hps].
    destruct p; [congruence|]. cbn. exact (IHps Hps).
  - destruct (Go.strip_any ps s) as [s'|] eqn:E; [|exact E].
    apply IH. apply (strip_any_length ps s s' Hne) in E. lia.
Qed.

Lemma Atoi_nonempty (s : string) (n : Z) :
  Go.Atoi s = Some n -> String.eqb s "" = false.
Proof. destruct s; [discriminate | reflexivity]. Qed.

(** ** Tables of votes *)

Section VoteTables.

Variables userID target : Z.

Lemma select_vote_None (t : list VoteRow) :
  select_vote userID target t = None <->
  existsb (vote_matches userID target) t = false.
Proof.
  unfold select_vote. induction t as [|r t IH]; cbn; [tauto|].
  destruct (vote_matches userID target r); cbn; [|exact IH].
  split; discriminate.
Qed.

Lemma select_vote_delete_vote (t : list VoteRow) :
  select_vote userID target (delete_vote userID target t) = None.
Proof.
  unfold select_vote, delete_vote. induction t as [|r t IH]; cbn; [reflexivity|].
  destruct (vote_matches userID target r) eqn:E; cbn; [exact IH|].
  rewrite E. exact IH.
Qed.

Lemma vote_matches_update (v : Z) (r : VoteRow) :
  vote_matches userID target
    (if vote_matches userID target r
     then mkVote (vote_user r) (vote_target r) v else r)
  = vote_matches userID target r.
Proof. destruct (vote_matches userID target r) eqn:E; [exact E | exact E]. Qed.

Lemma select_vote_update_vote (v : Z) (t : list VoteRow) :
  existsb (vote_matches userID target) t = true ->
  select_vote userID target (update_vote userID target v t) = Some v.
Proof.
  unfold select_vote, update_vote. induction t as [|r t IH]; cbn; [discriminate|].
  destruct (vote_matches userID target r) eqn:E; cbn.
  - unfold vote_matches in *. cbn. rewrite E. reflexivity.
  - rewrite E. exact IH.
Qed.

Lemma select_vote_insert (v : Z) (t : list VoteRow) :
  existsb (vote_matches userID target) t = false ->
  select_vote userID target (t ++ [mkVote userID target v]) = Some v.
Proof.
  unfold select_vote. induction t as [|r t IH]; cbn.
  - intros _. unfold vote_matches; cbn. rewrite !Z.eqb_refl. reflexivity.
  - destruct (vote_matches userID target r); cbn; [discriminate | exact IH].
Qed.

Lemma count_votes_delete_vote (t : list VoteRow) :
  count_votes userID target (delete_vote userID target t) = 0%nat.
Proof.
  unfold count_votes, delete_vote. induction t as [|r t IH]; cbn; [reflexivity|].
  destruct (vote_matches userID target r) eqn:E; cbn; [exact IH|].
  rewrite E. exact IH.
Qed.

Lemma count_votes_update_vote (v : Z) (t : list VoteRow) :
  count_votes userID target (update_vote userID target v t)
  = count_votes userID target t.
Proof.
  unfold count_votes, update_vote. induction t as [|r t IH]; cbn; [reflexivity|].
  rewrite vote_matches_update.
  destruct (vote_matches userID target r); cbn; congruence.
Qed.

Lemma count_votes_insert (v : Z) (t : list VoteRow) :
  existsb (vote_matches userID target) t = false ->
  count_votes userID target (t ++ [mkVote userID target v]) = 1%nat.
Proof.
  unfold count_votes. induction t as [|r t IH]; cbn.
  - intros _. unfold vote_matches; cbn. rewrite !Z.eqb_refl. reflexivity.
  - destruct (vote_matches userID target r); cbn; [discriminate | exact IH].
Qed.

Lemma vote_matches_key (r : VoteRow) :
  vote_matches userID target r = true <-> vote_key r = (userID, target).
Proof.
  unfold vote_matches, vote_key. rewrite andb_true_iff, !Z.eqb_eq.
  split; [intros [-> ->]; reflexivity | intros [= -> ->]; auto].
Qed.

Lemma existsb_vote_key (t : list VoteRow) :
  existsb (vote_matches userID target) t = false ->
  ~ In (userID, target) (List.map vote_key t).
Proof.
  induction t as [|r t IH]; cbn; [tauto|].
  rewrite orb_false_iff. intros [Hr Ht] [Hk | Hin]; [|exact (IH Ht Hin)].
  apply vote_matches_key in Hk. congruence.
Qed.

(** Under the primary key, a user has at most one row on a target. *)
Lemma pk_unique_count (t : list VoteRow) :
  pk_unique t -> (count_votes userID target t <= 1)%nat.
Proof.
  unfold pk_unique, count_votes. induction t as [|r t IH]; cbn; [lia|].
  intros Hnd. apply NoDup_cons_1_1 in Hnd as Hr.
  apply NoDup_cons_1_2 in Hnd as Ht. specialize (IH Ht).
  destruct (vote_matches userID target r) eqn:E; cbn; [|exact IH].
  apply vote_matches_key in E.
  destruct (List.filter (vote_matches userID target) t) as [|r' t'] eqn:F;
    cbn; [lia|].
  exfalso. apply Hr.
  assert (Hin : In r' (List.filter (vote_matches userID target) t))
    by (rewrite F; left; reflexivity).
  apply filter_In in Hin as [Hin Hm]. apply vote_matches_key in Hm.
  apply list_elem_of_In. rewrite E, <- Hm. apply in_map. exact Hin.
Qed.

Lemma select_vote_count (v : Z) (t : list VoteRow) :
  select_vote userID target t = Some v ->
  (1 <= count_votes userID target t)%nat.
Proof.
  unfold select_vote, count_votes. induction t as [|r t IH]; cbn; [discriminate|].
  destruct (vote_matches userID target r); cbn; [lia | exact IH].
Qed.

(** The three writes keep the primary key. *)
Lemma pk_unique_delete_vote (t : list VoteRow) :
  pk_unique t -> pk_unique (delete_vote userID target t).
Proof.
  unfold pk_unique, delete_vote. induction t as [|r t IH]; cbn; [auto|].
  intros Hnd. apply NoDup_cons_1_1 in Hnd as Hr.
  apply NoDup_cons_1_2 in Hnd as Ht. specialize (IH Ht).
  destruct (vote_matches userID target r); cbn; [exact IH|].
  apply NoDup_cons_2; [|exact IH].
  intros Hin. apply Hr. apply list_elem_of_In in Hin. apply list_elem_of_In.
  apply in_map_iff in Hin as (r' & Hk & Hin). apply filter_In in Hin as [Hin _].
  rewrite <- Hk. apply in_map. exact Hin.
Qed.

Lemma map_key_update_vote (v : Z) (t : list VoteRow) :
  List.map vote_key (update_vote userID target v t) = List.map vote_key t.
Proof.
  unfold update_vote. induction t as [|r t IH]; cbn; [reflexivity|].
  rewrite IH. destruct (vote_matches userID target r); reflexivity.
Qed.

Lemma pk_unique_update_vote (v : Z) (t : list VoteRow) :
  pk_unique t -> pk_unique (update_vote userID target v t).
Proof. unfold pk_unique. rewrite map_key_update_vote. auto. Qed.

Lemma pk_unique_insert (v : Z) (t : list VoteRow) :
  existsb (vote_matches userID target) t = false ->
  pk_unique t -> pk_unique (t ++ [mkVote userID target v]).
Proof.
  unfold pk_unique. intros He Hnd. rewrite map_app. cbn.
  apply NoDup_app. split; [exact Hnd|]. split; [|apply NoDup_singleton].
  intros k Hk Hin. apply list_elem_of_singleton in Hin. subst k.
  apply list_elem_of_In in Hk. exact (existsb_vote_key t He Hk).
Qed.

End VoteTables.

(** ** Running the handlers *)

Lemma quiet_hd (f : list bool) : forallb negb f = true -> hd false f = false.
Proof. destruct f as [|[] f]; cbn; congruence. Qed.

Lemma quiet_tl (f : list bool) :
  forallb negb f = true -> forallb negb (tl f) = true.
Proof. destruct f as [|[] f]; cbn; congruence. Qed.

Ltac unfold_db :=
  unfold GetSessionData, DeleteExpiredSession, DeleteSession, DeleteUserSessions,
    CreateSession, GetUserByEmail, GetUsernameByID, GetPostOwnerID, DeletePost,
    DeletePostCategories, DeletePostComments, DeletePostVotes, GetUserPostVote,
    RemovePostVote, SetPostLike, SetPostDislike, GetPostVoteStats, CreateComment,
    GetCommentOwnerID, DeleteComment, DeleteCommentVotes in *;
  unfold db_call, bind, ret, log_Println, time_Now, uuid_New, Sessions_store,
    Sessions_delete, failure, json, writeError, http_Redirect, set_store in *.

(** A failing statement contradicts a quiet world. *)
Ltac quiet_contra :=
  match goal with
  | Hq : forallb negb ?f = true, H : hd false ?t = true |- _ =>
      rewrite quiet_hd in H by (repeat apply quiet_tl; exact Hq); discriminate H
  end.

(** Case analysis on every test the handler makes. *)
Ltac cases :=
  repeat (case_match; cbn in *; simplify_eq; try quiet_contra; try congruence).

Ltac quiet_done := repeat split; auto using quiet_tl.

Lemma LikeHandler_run (w : World) (r : Request) (userID : Z) (role : string)
    (postID : Z) :
  quiet w = true ->
  logged_in r w = Some (userID, role) ->
  Go.Atoi (Get (URL_Query r) "post_id") = Some postID ->
  store (LikeHandler r w).2 = like_store userID postID (store w)
  /\ clock (LikeHandler r w).2 = clock w
  /\ quiet (LikeHandler r w).2 = true.
Proof.
  intros Hq Hl Ha.
  pose proof (Atoi_nonempty _ _ Ha) as Hne.
  destruct w as [d S ck f u t l]. unfold quiet, logged_in in *. cbn in *.
  unfold LikeHandler, IsAuthenticated, like_store. unfold_db. cbn.
  cases; quiet_done.
Qed.

Lemma DislikeHandler_run (w : World) (r : Request) (userID : Z) (role : string)
    (postID : Z) :
  quiet w = true ->
  logged_in r w = Some (userID, role) ->
  Go.Atoi (Get (URL_Query r) "post_id") = Some postID ->
  store (DislikeHandler r w).2 = dislike_store userID postID (store w)
  /\ clock (DislikeHandler r w).2 = clock w
  /\ quiet (DislikeHandler r w).2 = true.
Proof.
  intros Hq Hl Ha.
  pose proof (Atoi_nonempty _ _ Ha) as Hne.
  destruct w as [d S ck f u t l]. unfold quiet, logged_in in *. cbn in *.
  unfold DislikeHandler, IsAuthenticated, dislike_store. unfold_db. cbn.
  cases; quiet_done.
Qed.

(** [like_store] and [dislike_store] touch the table of votes only. *)
Lemma like_store_tables (userID postID : Z) (d : DB) :
  sessions (like_store userID postID d) = sessions d
  /\ users (like_store userID postID d) = users d
  /\ posts (like_store userID postID d) = posts d.
Proof.
  unfold like_store, upsert_post_vote. cases; auto.
Qed.

Lemma dislike_store_tables (userID postID : Z) (d : DB) :
  sessions (dislike_store userID postID d) = sessions d
  /\ users (dislike_store userID postID d) = users d
  /\ posts (dislike_store userID postID d) = posts d.
Proof.
  unfold dislike_store, upsert_post_vote. cases; auto.
Qed.

(** A session that is live before a vote is live after it. *)
Lemma logged_in_after_like (w : World) (r : Request) (userID : Z)
    (role : string) (postID : Z) :
  quiet w = true ->
  logged_in r w = Some (userID, role) ->
  Go.Atoi (Get (URL_Query r) "post_id") = Some postID ->
  logged_in r (LikeHandler r w).2 = Some (userID, role).
Proof.
  intros Hq Hl Ha.
  destruct (LikeHandler_run w r userID role postID Hq Hl Ha) as (Hs & Hc & _).
  unfold logged_in in *. rewrite Hs, Hc.
  destruct (like_store_tables userID postID (store w)) as (-> & _).
  exact Hl.
Qed.

Lemma GetUserPostVote_quiet (w : World) (userID postID : Z) :
  quiet w = true ->
  (GetUserPostVote userID postID w).1 =
  match select_vote userID postID (post_votes (store w)) with
  | Some v => (v, true, None)
  | None => (0, false, None)
  end.
Proof.
  intros Hq. unfold quiet in Hq. unfold GetUserPostVote, db_call.
  rewrite (quiet_hd _ Hq). cbn. case_match; reflexivity.
Qed.

(** ** The vote toggle *)

Lemma select_vote_like_store_liked (userID postID : Z) (d : DB) :
  select_vote userID postID (post_votes d) = Some 1 ->
  select_vote userID postID (post_votes (like_store userID postID d)) = None.
Proof.
  intros H. unfold like_store. rewrite H. cbn. apply select_vote_delete_vote.
Qed.

Lemma select_vote_like_store_other (userID postID : Z) (d : DB) :
  select_vote userID postID (post_votes d) <> Some 1 ->
  select_vote userID postID (post_votes (like_store userID postID d)) = Some 1
  \/ (like_store userID postID d = d
      /\ select_vote userID postID (post_votes d) = None).
Proof.
  intros H. unfold like_store, upsert_post_vote.
  destruct (select_vote userID postID (post_votes d)) as [v|] eqn:Hv.
  - assert (He : existsb (vote_matches userID postID) (post_votes d) = true).
    { destruct (existsb _ _) eqn:E; [reflexivity|].
      apply select_vote_None in E. congruence. }
    rewrite He. left.
    assert (Hgoal : select_vote userID postID
              (update_vote userID postID 1 (post_votes d)) = Some 1)
      by (apply select_vote_update_vote; exact He).
    destruct v as [|p|p]; cbn; try exact Hgoal.
    destruct p; cbn; try exact Hgoal. congruence.
  - apply select_vote_None in Hv as He. rewrite He.
    destruct (users d !! userID), (posts d !! postID); cbn; auto.
    left. apply select_vote_insert. exact He.
Qed.

(** C1, as amended.  When the user's vote on the post is not +1 (it is
    absent, or it is -1) and no statement fails, two likes in a row by a
    logged-in user leave no vote of that user on the post: the first like
    writes +1, the second removes it. *)
Theorem like_twice_clears_vote (w : World) (r : Request) (userID : Z)
    (role : string) (postID : Z) :
  quiet w = true ->
  logged_in r w = Some (userID, role) ->
  Go.Atoi (Get (URL_Query r) "post_id") = Some postID ->
  select_vote userID postID (post_votes (store w)) <> Some 1 ->
  (GetUserPostVote userID postID (LikeHandler r (LikeHandler r w).2).2).1
  = (0, false, None).
Proof.
  intros Hq Hl Ha Hv.
  pose proof (logged_in_after_like w r userID role postID Hq Hl Ha) as Hl1.
  destruct (LikeHandler_run w r userID role postID Hq Hl Ha) as (Hs1 & _ & Hq1).
  destruct (LikeHandler_run _ r userID role postID Hq1 Hl1 Ha) as (Hs2 & _ & Hq2).
  rewrite (GetUserPostVote_quiet _ _ _ Hq2), Hs2, Hs1.
  destruct (select_vote_like_store_other userID postID (store w) Hv)
    as [H1 | [Hsame Hnone]].
  - rewrite (select_vote_like_store_liked _ _ _ H1). reflexivity.
  - rewrite !Hsame, Hnone. reflexivity.
Qed.

Lemma like_twice_clears_vote_witness :
  (GetUserPostVote 2 7
     (LikeHandler (vote_req "tokB") (LikeHandler (vote_req "tokB") w0).2).2).1
  = (0, false, None).
Proof.
  apply (like_twice_clears_vote w0 (vote_req "tokB") 2 "user" 7).
  - reflexivity.
  - reflexivity.
  - reflexivity.
  - vm_compute. discriminate.
Defined.

(** C1 fails as stated: from a state where bob's vote on the post 7 is +1,
    two likes in a row leave the vote +1 (the first removes it, the second
    writes it again). *)
Lemma like_twice_from_liked_counterexample :
  quiet w_liked = true
  /\ logged_in (vote_req "tokB") w_liked = Some (2, "user")
  /\ select_vote 2 7 (post_votes (store w_liked)) = Some 1
  /\ (GetUserPostVote 2 7
        (LikeHandler (vote_req "tokB")
           (LikeHandler (vote_req "tokB") w_liked).2).2).1
     = (1, true, None).
Proof. repeat split; reflexivity. Qed.

(** ** Exclusivity of the two polarities, and the primary key *)

Lemma existsb_select_vote (userID postID v : Z) (t : list VoteRow) :
  select_vote userID postID t = Some v ->
  existsb (vote_matches userID postID) t = true.
Proof.
  intros H. destruct (existsb _ _) eqn:E; [reflexivity|].
  apply select_vote_None in E. congruence.
Qed.

(** What the upsert leaves when the user and the post exist. *)
Lemma upsert_post_vote_spec (userID postID v : Z) (d : DB) :
  user_exists userID d = true ->
  post_exists postID d = true ->
  select_vote userID postID (post_votes (upsert_post_vote userID postID v d).2)
  = Some v
  /\ count_votes userID postID (post_votes (upsert_post_vote userID postID v d).2)
     = (if existsb (vote_matches userID postID) (post_votes d)
        then count_votes userID postID (post_votes d) else 1%nat).
Proof.
  unfold user_exists, post_exists, upsert_post_vote. intros Hu Hp.
  destruct (existsb _ _) eqn:He; cbn.
  - split; [apply select_vote_update_vote; exact He
           | apply count_votes_update_vote].
  - destruct (users d !! userID); [|discriminate].
    destruct (posts d !! postID); [|discriminate]. cbn.
    split; [apply select_vote_insert | apply count_votes_insert]; exact He.
Qed.

Lemma like_then_dislike_store (userID postID : Z) (d : DB) :
  user_exists userID d = true ->
  post_exists postID d = true ->
  pk_unique (post_votes d) ->
  let d2 := dislike_store userID postID (like_store userID postID d) in
  select_vote userID postID (post_votes d2) = Some (-1)
  /\ count_votes userID postID (post_votes d2) = 1%nat.
Proof.
  intros Hu Hp Hpk. cbn zeta.
  set (d1 := like_store userID postID d).
  destruct (like_store_tables userID postID d) as (_ & Hu1 & Hp1).
  fold d1 in Hu1, Hp1.
  assert (Hu' : user_exists userID d1 = true)
    by (unfold user_exists; rewrite Hu1; exact Hu).
  assert (Hp' : post_exists postID d1 = true)
    by (unfold post_exists; rewrite Hp1; exact Hp).
  destruct (upsert_post_vote_spec userID postID (-1) d1 Hu' Hp') as (Hsel & Hcnt).
  assert (Hd1 : (select_vote userID postID (post_votes d1) = None
                 /\ existsb (vote_matches userID postID) (post_votes d1) = false)
                \/ (select_vote userID postID (post_votes d1) = Some 1
                    /\ count_votes userID postID (post_votes d1) = 1%nat)).
  { destruct (select_vote userID postID (post_votes d)) as [v|] eqn:Hv.
    - destruct (Z.eq_dec v 1) as [-> | Hne].
      + left. pose proof (select_vote_like_store_liked _ _ _ Hv) as Hn.
        fold d1 in Hn. split; [exact Hn | apply select_vote_None; exact Hn].
      + right. destruct (upsert_post_vote_spec userID postID 1 d Hu Hp) as (Hs & Hc).
        rewrite (existsb_select_vote _ _ _ _ Hv) in Hc.
        assert (Hd : d1 = (upsert_post_vote userID postID 1 d).2).
        { unfold d1, like_store. rewrite Hv.
          destruct v as [|p|p]; try reflexivity.
          destruct p; try reflexivity. congruence. }
        rewrite Hd. split; [exact Hs|]. rewrite Hc.
        pose proof (pk_unique_count userID postID _ Hpk).
        pose proof (select_vote_count userID postID _ _ Hv). lia.
    - right. destruct (upsert_post_vote_spec userID postID 1 d Hu Hp) as (Hs & Hc).
      apply select_vote_None in Hv as He. rewrite He in Hc.
      assert (Hd : d1 = (upsert_post_vote userID postID 1 d).2)
        by (unfold d1, like_store; rewrite Hv; reflexivity).
      rewrite Hd. auto. }
  unfold dislike_store.
  destruct Hd1 as [[Hn He] | [Hs1 Hc1]].
  - rewrite Hn. rewrite He in Hcnt. auto.
  - rewrite Hs1. cbn. rewrite (existsb_select_vote _ _ _ _ Hs1) in Hcnt.
    split; [exact Hsel | congruence].
Qed.

(** Whatever the request and whatever fails, a vote handler keeps the
    primary key of [post_votes]. *)
Lemma LikeHandler_pk_unique (r : Request) (w : World) :
  pk_unique (post_votes (store w)) ->
  pk_unique (post_votes (store (LikeHandler r w).2)).
Proof.
  intros H. destruct w as [d S ck f u t l]. cbn in H.
  unfold LikeHandler, IsAuthenticated. unfold_db.
  unfold upsert_post_vote, delete_session, set_post_votes. cbn.
  cases;
    auto using pk_unique_delete_vote, pk_unique_update_vote, pk_unique_insert.
Qed.

Lemma DislikeHandler_pk_unique (r : Request) (w : World) :
  pk_unique (post_votes (store w)) ->
  pk_unique (post_votes (store (DislikeHandler r w).2)).
Proof.
  intros H. destruct w as [d S ck f u t l]. cbn in H.
  unfold DislikeHandler, IsAuthenticated. unfold_db.
  unfold upsert_post_vote, delete_session, set_post_votes. cbn.
  cases;
    auto using pk_unique_delete_vote, pk_unique_update_vote, pk_unique_insert.
Qed.

(** C2.  After a like followed by a dislike of a logged-in user on an
    existing post (no statement failing), the user's vote on the post is -1
    and the table holds exactly one row for the pair; and every run of
    [LikeHandler] or [DislikeHandler], on any request and with any failure,
    keeps the primary key of [post_votes], hence at most one row per pair
    of a user and a post. *)
Theorem like_then_dislike (w : World) (r : Request) (userID : Z)
    (role : string) (postID : Z) :
  quiet w = true ->
  logged_in r w = Some (userID, role) ->
  Go.Atoi (Get (URL_Query r) "post_id") = Some postID ->
  user_exists userID (store w) = true ->
  post_exists postID (store w) = true ->
  pk_unique (post_votes (store w)) ->
  let w2 := (DislikeHandler r (LikeHandler r w).2).2 in
  (GetUserPostVote userID postID w2).1 = (-1, true, None)
  /\ count_votes userID postID (post_votes (store w2)) = 1%nat
  /\ (forall (r' : Request) (w' : World),
        pk_unique (post_votes (store w')) ->
        (pk_unique (post_votes (store (LikeHandler r' w').2))
         /\ pk_unique (post_votes (store (DislikeHandler r' w').2)))
        /\ forall u p : Z,
            (count_votes u p (post_votes (store (LikeHandler r' w').2)) <= 1
             /\ count_votes u p (post_votes (store (DislikeHandler r' w').2)) <= 1)%nat).
Proof.
  intros Hq Hl Ha Hu Hp Hpk. cbn zeta.
  pose proof (logged_in_after_like w r userID role postID Hq Hl Ha) as Hl1.
  destruct (LikeHandler_run w r userID role postID Hq Hl Ha) as (Hs1 & _ & Hq1).
  destruct (DislikeHandler_run _ r userID role postID Hq1 Hl1 Ha)
    as (Hs2 & _ & Hq2).
  destruct (like_then_dislike_store userID postID (store w) Hu Hp Hpk)
    as (Hsel & Hcnt).
  rewrite (GetUserPostVote_quiet _ _ _ Hq2), Hs2, Hs1, Hsel.
  split; [reflexivity|]. split; [exact Hcnt|].
  intros r' w' Hpk'.
  pose proof (LikeHandler_pk_unique r' w' Hpk') as HL.
  pose proof (DislikeHandler_pk_unique r' w' Hpk') as HD.
  split; [split; assumption|].
  intros u p. split; apply pk_unique_count; assumption.
Qed.

Lemma like_then_dislike_witness :
  (GetUserPostVote 2 7
     (DislikeHandler (vote_req "tokB") (LikeHandler (vote_req "tokB") w0).2).2).1
  = (-1, true, None)
  /\ count_votes 2 7
       (post_votes
          (store (DislikeHandler (vote_req "tokB")
                    (LikeHandler (vote_req "tokB") w0).2).2)) = 1%nat.
Proof.
  destruct (like_then_dislike w0 (vote_req "tokB") 2 "user" 7)
    as (Hvote & Hcount & _).
  - reflexivity.
  - reflexivity.
  - reflexivity.
  - reflexivity.
  - reflexivity.
  - apply NoDup_nil_2.
  - split; [exact Hvote | exact Hcount].
Defined.

(** ** Vote statistics *)

(** With every value -1 or +1, the two sums count each row once. *)
Lemma sum_case_partition (rows : list VoteRow) :
  votes_check rows = true ->
  sum_case 1 rows + sum_case (-1) rows = Z.of_nat (List.length rows).
Proof.
  unfold votes_check, sum_case. induction rows as [|r rows IH]; [reflexivity|].
  cbn [forallb List.map fold_right List.length].
  rewrite andb_true_iff, orb_true_iff, !Z.eqb_eq. intros [Hr Hrows].
  specialize (IH Hrows). rewrite Nat2Z.inj_succ.
  destruct Hr as [-> | ->]; cbn [Z.eqb Pos.eqb]; lia.
Qed.

Lemma votes_check_votes_of (target : Z) (t : list VoteRow) :
  votes_check t = true -> votes_check (votes_of target t) = true.
Proof.
  unfold votes_check, votes_of. induction t as [|r t IH]; [reflexivity|].
  cbn. rewrite andb_true_iff. intros [Hr Ht].
  destruct (vote_target r =? target); cbn; [rewrite Hr|]; auto.
Qed.

(** C3.  When the statement does not fail, the likes and the dislikes that
    [GetPostVoteStats] returns add up to the number of rows of the post in
    [post_votes] at that moment (every value being -1 or +1); the answer is
    computed from the table alone, which the query leaves as it is: two
    worlds with the same table give the same answer. *)
Theorem vote_stats_count_rows (w : World) (userID postID : Z) :
  votes_check (post_votes (store w)) = true ->
  hd false (faults w) = false ->
  (exists likes dislikes userVote userVoteExists,
      (GetPostVoteStats userID postID w).1
      = (likes, dislikes, userVote, userVoteExists, None)
      /\ likes + dislikes
         = Z.of_nat (List.length (votes_of postID (post_votes (store w)))))
  /\ store (GetPostVoteStats userID postID w).2 = store w
  /\ (forall w' : World,
        post_votes (store w') = post_votes (store w) ->
        hd false (faults w') = false ->
        (GetPostVoteStats userID postID w').1
        = (GetPostVoteStats userID postID w).1).
Proof.
  intros Hck Hf. unfold GetPostVoteStats, db_call, bind, ret, set_store.
  rewrite Hf. cbn. split; [|split].
  - pose proof (sum_case_partition _ (votes_check_votes_of postID _ Hck)) as Hsum.
    destruct (select_vote userID postID (post_votes (store w))) as [v|]; cbn.
    + exists (sum_case 1 (votes_of postID (post_votes (store w)))),
        (sum_case (-1) (votes_of postID (post_votes (store w)))), v, true.
      split; [reflexivity | exact Hsum].
    + exists (sum_case 1 (votes_of postID (post_votes (store w)))),
        (sum_case (-1) (votes_of postID (post_votes (store w)))), 0, false.
      split; [reflexivity | exact Hsum].
  - destruct w; cbn. case_match; reflexivity.
  - intros w' Heq Hf'. rewrite Hf'. cbn. rewrite Heq. case_match; reflexivity.
Qed.

Lemma vote_stats_count_rows_witness :
  exists likes dislikes userVote userVoteExists,
    (GetPostVoteStats 1 7 w_liked).1
    = (likes, dislikes, userVote, userVoteExists, None)
    /\ likes + dislikes
       = Z.of_nat (List.length (votes_of 7 (post_votes (store w_liked)))).
Proof.
  apply (vote_stats_count_rows w_liked 1 7); reflexivity.
Defined.

Example vote_stats_w_liked :
  (GetPostVoteStats 1 7 w_liked).1 = (1, 0, 0, false, None)
  /\ (GetPostVoteStats 2 7 w_liked).1 = (1, 0, 1, true, None).
Proof. split; reflexivity. Qed.

(** The CHECK constraint is kept by the vote handlers. *)
Lemma votes_check_delete_vote (u p : Z) (t : list VoteRow) :
  votes_check t = true -> votes_check (delete_vote u p t) = true.
Proof.
  unfold votes_check, delete_vote. induction t as [|r t IH]; [reflexivity|].
  cbn. rewrite andb_true_iff. intros [Hr Ht].
  destruct (vote_matches u p r); cbn; [|rewrite Hr]; auto.
Qed.

Lemma votes_check_update_vote (u p v : Z) (t : list VoteRow) :
  v = 1 \/ v = -1 ->
  votes_check t = true -> votes_check (update_vote u p v t) = true.
Proof.
  unfold votes_check, update_vote. intros Hv.
  induction t as [|r t IH]; [reflexivity|].
  cbn. rewrite !andb_true_iff. intros [Hr Ht]. split; [|auto].
  destruct (vote_matches u p r); cbn; [|exact Hr].
  destruct Hv as [-> | ->]; reflexivity.
Qed.

Lemma votes_check_insert (u p v : Z) (t : list VoteRow) :
  v = 1 \/ v = -1 ->
  votes_check t = true -> votes_check (t ++ [mkVote u p v]) = true.
Proof.
  unfold votes_check. intros Hv Ht. rewrite forallb_app, Ht. cbn.
  destruct Hv as [-> | ->]; reflexivity.
Qed.

Lemma vote_handlers_votes_check (r : Request) (w : World) :
  votes_check (post_votes (store w)) = true ->
  votes_check (post_votes (store (LikeHandler r w).2)) = true
  /\ votes_check (post_votes (store (DislikeHandler r w).2)) = true.
Proof.
  intros H. destruct w as [d S ck f u t l]. cbn in H.
  unfold LikeHandler, DislikeHandler, IsAuthenticated. unfold_db.
  unfold upsert_post_vote, delete_session, set_post_votes. cbn.
  split; cases;
    auto using votes_check_delete_vote, votes_check_update_vote,
      votes_check_insert.
Qed.

(** ** Sessions *)

(** Resolving reads the clock and the table of sessions only, and writes
    nothing but the session it finds expired. *)
Lemma IsAuthenticated_unknown (r : Request) (w : World) (cookie : string) :
  Cookie_session_id r = Some cookie ->
  sessions (store w) !! cookie = None ->
  (IsAuthenticated r w).1 = (false, 0, "").
Proof.
  intros Hc Hs. destruct w as [d S ck f u t l]. cbn in Hs.
  unfold IsAuthenticated. unfold_db. rewrite Hc. cbn. cases.
Qed.

(** C4, as amended.  A stored session whose expiry is before the clock
    ([expiry < now], as [expiry.Before(time.Now())] tests) resolves to
    unauthenticated whatever the storage engine does; when the lookup and
    the delete both succeed, the row is gone from the store; when the
    delete fails, the failure is logged and the store is as before. *)
Theorem expired_session_resolution (w : World) (r : Request) (cookie : string)
    (s : SessionRow) :
  Cookie_session_id r = Some cookie ->
  sessions (store w) !! cookie = Some s ->
  s_expiry s < clock w ->
  (IsAuthenticated r w).1 = (false, 0, "")
  /\ (hd false (faults w) = false ->
      hd false (tl (faults w)) = false ->
      sessions (store (IsAuthenticated r w).2) !! cookie = None)
  /\ (hd false (faults w) = false ->
      hd false (tl (faults w)) = true ->
      store (IsAuthenticated r w).2 = store w
      /\ In "Error deleting expired session:" (logs (IsAuthenticated r w).2)).
Proof.
  intros Hc Hs He. apply Z.ltb_lt in He.
  destruct w as [d S ck f u t l]. cbn in Hs, He.
  unfold IsAuthenticated. unfold_db. unfold delete_session.
  rewrite Hc. cbn. repeat split; cases; intros.
  - apply lookup_delete_eq.
  - apply in_or_app. right. left. reflexivity.
Qed.

Lemma expired_session_resolution_witness :
  (IsAuthenticated (vote_req "tokA") w_expired).1 = (false, 0, "")
  /\ sessions (store (IsAuthenticated (vote_req "tokA") w_expired).2) !! "tokA"
     = None.
Proof.
  destruct (expired_session_resolution w_expired (vote_req "tokA") "tokA"
              (mkSession 1 "user" 1000)) as (H1 & H2 & _).
  - reflexivity.
  - reflexivity.
  - cbn. lia.
  - split; [exact H1 | apply H2; reflexivity].
Defined.

(** C4 fails as stated at [expiry = now]: the session is still resolved,
    and its row stays. *)
Lemma session_at_expiry_counterexample :
  sessions (store w_at_expiry) !! "tokA" = Some (mkSession 1 "user" 1000)
  /\ clock w_at_expiry = 1000
  /\ (IsAuthenticated (vote_req "tokA") w_at_expiry).1 = (true, 1, "user")
  /\ sessions (store (IsAuthenticated (vote_req "tokA") w_at_expiry).2) !! "tokA"
     = Some (mkSession 1 "user" 1000).
Proof. repeat split; reflexivity. Qed.

(** C9.  Logout with a session cookie always answers with the cleared
    cookie (empty value, expiry at the epoch).  When the delete succeeds,
    the session is gone from the store and from the in-memory map; when it
    fails, the failure is logged and both are as before. *)
Theorem logout_clears_session (w : World) (r : Request) (cookie : string) :
  Cookie_session_id r = Some cookie ->
  (LogoutHandler r w).1
  = mkResponse StatusSeeOther (Some (mkCookie "" 0 (Some 0))) (Redirect "/")
  /\ (hd false (faults w) = false ->
      sessions (store (LogoutHandler r w).2) !! cookie = None
      /\ Sessions (LogoutHandler r w).2 !! cookie = None)
  /\ (hd false (faults w) = true ->
      store (LogoutHandler r w).2 = store w
      /\ Sessions (LogoutHandler r w).2 = Sessions w
      /\ In "Error deleting session:" (logs (LogoutHandler r w).2)).
Proof.
  intros Hc. destruct w as [d S ck f u t l].
  unfold LogoutHandler. unfold_db. unfold delete_session.
  rewrite Hc. cbn. repeat split; cases; intros;
    try apply lookup_delete_eq.
  apply in_or_app. right. left. reflexivity.
Qed.

Lemma logout_clears_session_witness :
  SetCookie (LogoutHandler (vote_req "tokA") w0).1 = Some (mkCookie "" 0 (Some 0))
  /\ SetCookie (LogoutHandler (vote_req "tokA") w_failing).1
     = Some (mkCookie "" 0 (Some 0))
  /\ sessions (store (LogoutHandler (vote_req "tokA") w0).2) !! "tokA" = None.
Proof.
  destruct (logout_clears_session w0 (vote_req "tokA") "tokA") as (H1 & H2 & _);
    [reflexivity|].
  destruct (logout_clears_session w_failing (vote_req "tokA") "tokA")
    as (H3 & _); [reflexivity|].
  split; [rewrite H1; reflexivity|]. split; [rewrite H3; reflexivity|].
  apply H2. reflexivity.
Defined.

(** ** Login *)

(** [LoginHandler] sets a cookie on one path only, the one that creates the
    session.  On that path the form names a user whose password checks; the
    table of sessions afterwards is the one before (less the session of the
    request's own cookie, if it was found expired), without the sessions of
    that user, plus the new session; the in-memory map is as before. *)
Lemma LoginHandler_created (check : string -> string -> bool) (r : Request)
    (w : World) (ck : Cookie) :
  SetCookie (LoginHandler check r w).1 = Some ck ->
  exists (userID : Z) (user : UserRow) (old : gmap string SessionRow),
    find_user_by_email (Go.TrimSpace (FormValue r "email")) (users (store w))
    = Some (userID, user)
    /\ check (u_password user) (FormValue r "password") = true
    /\ (old = sessions (store w)
        \/ exists c, old = delete c (sessions (store w)))
    /\ ck = mkCookie (hd "" (uuids w)) (24 * 60 * 60) None
    /\ sessions (store (LoginHandler check r w).2)
       = <[Value ck := mkSession userID (u_role user) (clock w + 24 * Hour)]>
           (filter (fun kv : string * SessionRow => s_user_id kv.2 <> userID) old)
    /\ Sessions (LoginHandler check r w).2 = Sessions w.
Proof.
  destruct w as [d S ck0 f u t l].
  unfold LoginHandler, IsAuthenticated. unfold_db.
  unfold insert_session, delete_user_sessions, delete_session. cbn.
  cases; intros [= <-]; cbn;
    (eexists _, _, _; split; [first [eassumption | reflexivity]|]; split;
     [apply negb_false_iff; eassumption|]; split;
     [|split; [reflexivity|split; reflexivity]]); eauto.
Qed.

(** C5.  When [LoginHandler] creates a session (it answers with the
    session cookie), every session that the same user had before, under
    another token, is gone from the store, and a request that carries such
    a token resolves to unauthenticated in the world the login leaves. *)
Theorem login_invalidates_old_sessions (check : string -> string -> bool)
    (r : Request) (w : World) (ck : Cookie) (new old : SessionRow)
    (old_token : string) (r' : Request) :
  SetCookie (LoginHandler check r w).1 = Some ck ->
  sessions (store (LoginHandler check r w).2) !! Value ck = Some new ->
  sessions (store w) !! old_token = Some old ->
  s_user_id old = s_user_id new ->
  old_token <> Value ck ->
  Cookie_session_id r' = Some old_token ->
  sessions (store (LoginHandler check r w).2) !! old_token = None
  /\ (IsAuthenticated r' (LoginHandler check r w).2).1 = (false, 0, "").
Proof.
  intros Hck Hnew Hold Huser Hne Hc'.
  destruct (LoginHandler_created check r w ck Hck)
    as (userID & user & before & _ & _ & Hbefore & _ & Hs & _).
  assert (Hgone : sessions (store (LoginHandler check r w).2) !! old_token = None).
  { rewrite Hs in Hnew |- *. rewrite lookup_insert_eq in Hnew.
    injection Hnew as <-. cbn in Huser.
    rewrite lookup_insert_ne by congruence.
    apply map_lookup_filter_None. right. intros old' Hold' Hkeep. cbn in Hkeep.
    assert (old' = old) as ->.
    { destruct Hbefore as [-> | [c ->]].
      - congruence.
      - apply lookup_delete_Some in Hold' as [_ Hold']. congruence. }
    exact (Hkeep Huser). }
  split; [exact Hgone|].
  exact (IsAuthenticated_unknown r' _ old_token Hc' Hgone).
Qed.

Lemma login_invalidates_old_sessions_witness :
  sessions (store (LoginHandler check_password (login_req "bob@forum.io" "b") w0).2)
    !! "tokB" = None
  /\ (IsAuthenticated (vote_req "tokB")
        (LoginHandler check_password (login_req "bob@forum.io" "b") w0).2).1
     = (false, 0, "").
Proof.
  apply (login_invalidates_old_sessions check_password
           (login_req "bob@forum.io" "b") w0
           (mkCookie "tokN" (24 * 60 * 60) None)
           (mkSession 2 "user" (10 + 24 * Hour)) (mkSession 2 "user" 1000)
           "tokB" (vote_req "tokB")).
  - reflexivity.
  - reflexivity.
  - reflexivity.
  - reflexivity.
  - discriminate.
  - reflexivity.
Defined.

(** C6, as amended.  When [LoginHandler] creates a session, the store
    holds, under the token of the cookie, the session of the user that the
    form names, with that user's role and the expiry [now + 24h]; the
    in-memory session map is left as it was. *)
Theorem login_persists_session (check : string -> string -> bool)
    (r : Request) (w : World) (ck : Cookie) :
  SetCookie (LoginHandler check r w).1 = Some ck ->
  exists (userID : Z) (user : UserRow),
    find_user_by_email (Go.TrimSpace (FormValue r "email")) (users (store w))
    = Some (userID, user)
    /\ sessions (store (LoginHandler check r w).2) !! Value ck
       = Some (mkSession userID (u_role user) (clock w + 24 * Hour))
    /\ Sessions (LoginHandler check r w).2 = Sessions w.
Proof.
  intros Hck.
  destruct (LoginHandler_created check r w ck Hck)
    as (userID & user & before & Hfind & _ & _ & _ & Hs & Hmirror).
  exists userID, user. split; [exact Hfind|]. split; [|exact Hmirror].
  rewrite Hs. apply lookup_insert_eq.
Qed.

Lemma login_persists_session_witness :
  exists (userID : Z) (user : UserRow),
    find_user_by_email (Go.TrimSpace (FormValue (login_req "bob@forum.io" "b") "email"))
      (users (store w0)) = Some (userID, user)
    /\ sessions (store (LoginHandler check_password
                          (login_req "bob@forum.io" "b") w0).2) !! "tokN"
       = Some (mkSession userID (u_role user) (clock w0 + 24 * Hour))
    /\ Sessions (LoginHandler check_password (login_req "bob@forum.io" "b") w0).2
       = Sessions w0.
Proof.
  apply (login_persists_session check_password (login_req "bob@forum.io" "b")
           w0 (mkCookie "tokN" (24 * 60 * 60) None)).
  reflexivity.
Defined.

(** C6 fails as stated: after bob's login the store holds the new session
    [tokN], expiring 24 hours after the clock, and the in-memory session map
    has no entry for it. *)
Lemma login_mirror_counterexample :
  SetCookie (LoginHandler check_password (login_req "bob@forum.io" "b") w0).1
  = Some (mkCookie "tokN" (24 * 60 * 60) None)
  /\ sessions (store (LoginHandler check_password
                        (login_req "bob@forum.io" "b") w0).2) !! "tokN"
     = Some (mkSession 2 "user" (10 + 24 * Hour))
  /\ Sessions (LoginHandler check_password (login_req "bob@forum.io" "b") w0).2
       !! "tokN" = None.
Proof. repeat split; reflexivity. Qed.

(** ** Cascading deletes *)

Lemma post_cascade_gone (postID : Z) (d : DB) :
  post_gone postID (post_cascade postID d).
Proof.
  unfold post_gone, post_cascade. cbn. repeat split.
  - apply lookup_delete_eq.
  - intros pc Hin. apply filter_In in Hin as [_ Hne].
    apply negb_true_iff, Z.eqb_neq in Hne. exact Hne.
  - intros id c Hc. unfold comments_without_post in Hc.
    apply map_lookup_filter_Some in Hc as [_ Hne]. exact Hne.
  - intros v Hin. unfold delete_votes_of in Hin.
    apply filter_In in Hin as [_ Hne].
    apply negb_true_iff, Z.eqb_neq in Hne. exact Hne.
Qed.

Lemma comment_cascade_gone (commentID : Z) (d : DB) :
  comment_gone commentID (comment_cascade commentID d).
Proof.
  unfold comment_gone, comment_cascade. cbn. split.
  - apply lookup_delete_eq.
  - intros v Hin. unfold delete_votes_of in Hin.
    apply filter_In in Hin as [_ Hne].
    apply negb_true_iff, Z.eqb_neq in Hne. exact Hne.
Qed.

Lemma DeletePostHandler_run (w : World) (r : Request) (userID : Z)
    (role : string) (postID : Z) (post : PostRow) (cookie : string) :
  quiet w = true ->
  Method r = "DELETE" ->
  Cookie_session_id r = Some cookie ->
  logged_in r w = Some (userID, role) ->
  Go.Atoi (Get (URL_Query r) "post_id") = Some postID ->
  posts (store w) !! postID = Some post ->
  (userID =? p_user_id post) || String.eqb role "admin" = true ->
  (DeletePostHandler r w).1
  = mkResponse StatusOK None (JSON (Message true "Post deleted successfully."))
  /\ trace (DeletePostHandler r w).2
     = (trace w ++ [SelectSession cookie; SelectPostOwner postID;
                   DeleteFromPostCategories postID;
                   DeleteFromCommentsOfPost postID;
                   DeleteFromPostVotes postID;
                   DeleteFromPosts postID])%list
  /\ store (DeletePostHandler r w).2 = post_cascade postID (store w).
Proof.
  intros Hq Hm Hc Hl Ha Hp Hauth.
  pose proof (Atoi_nonempty _ _ Ha) as Hne.
  destruct w as [d S ck f u t l]. unfold quiet, logged_in in *. cbn in *.
  unfold DeletePostHandler, IsAuthenticated, post_cascade. unfold_db.
  rewrite Hm, Hc in *. cbn. cases.
  - destruct (_ =? _), (String.eqb _ _); discriminate.
  - repeat rewrite <- app_assoc. auto.
Qed.

Lemma DeleteCommentHandler_run (w : World) (r : Request) (userID : Z)
    (role : string) (commentID : Z) (comment : CommentRow) (cookie : string) :
  quiet w = true ->
  Method r = "DELETE" ->
  Cookie_session_id r = Some cookie ->
  logged_in r w = Some (userID, role) ->
  Go.Atoi (Get (URL_Query r) "comment_id") = Some commentID ->
  comments (store w) !! commentID = Some comment ->
  String.eqb role "admin" || (userID =? c_user_id comment) = true ->
  (DeleteCommentHandler r w).1
  = mkResponse StatusOK None (JSON (Message true "Comment deleted."))
  /\ trace (DeleteCommentHandler r w).2
     = (trace w ++ [SelectSession cookie; SelectCommentOwner commentID;
                   DeleteFromCommentVotes commentID;
                   DeleteFromComments commentID])%list
  /\ store (DeleteCommentHandler r w).2 = comment_cascade commentID (store w).
Proof.
  intros Hq Hm Hc Hl Ha Hp Hauth.
  pose proof (Atoi_nonempty _ _ Ha) as Hne.
  destruct w as [d S ck f u t l]. unfold quiet, logged_in in *. cbn in *.
  unfold DeleteCommentHandler, IsAuthenticated, comment_cascade. unfold_db.
  rewrite Hm, Hc in *. cbn. cases.
  - destruct (_ =? _), (String.eqb _ _); discriminate.
  - repeat rewrite <- app_assoc. auto.
Qed.

(** Whatever the request and whatever fails, the removals that
    [DeletePostHandler] issues are the first [n] of categories, comments,
    votes, post, for one post; a success means all four were issued. *)
Lemma DeletePostHandler_order (r : Request) (w : World) :
  exists (new : list Stmt) (postID : Z) (n : nat),
    trace (DeletePostHandler r w).2 = (trace w ++ new)%list
    /\ List.filter is_removal new = firstn n (post_removals postID)
    /\ (success_of (DeletePostHandler r w).1 = Some true -> n = 4%nat).
Proof.
  destruct w as [d S ck f u t l].
  unfold DeletePostHandler, IsAuthenticated. unfold_db. cbn.
  cases; repeat rewrite <- app_assoc; cbn;
    try (exists [], 0, 0%nat; cbn; rewrite app_nil_r; repeat split;
         try reflexivity; discriminate);
    eexists _, _;
    first
      [ exists 0%nat; split; [reflexivity|]; split; [reflexivity|]; discriminate
      | exists 1%nat; split; [reflexivity|]; split; [reflexivity|]; discriminate
      | exists 2%nat; split; [reflexivity|]; split; [reflexivity|]; discriminate
      | exists 3%nat; split; [reflexivity|]; split; [reflexivity|]; discriminate
      | exists 4%nat; split; [reflexivity|]; split; [reflexivity|];
        intros; reflexivity ].
  Unshelve. all: exact 0.
Qed.

Lemma DeleteCommentHandler_order (r : Request) (w : World) :
  exists (new : list Stmt) (commentID : Z) (n : nat),
    trace (DeleteCommentHandler r w).2 = (trace w ++ new)%list
    /\ List.filter is_removal new = firstn n (comment_removals commentID)
    /\ (success_of (DeleteCommentHandler r w).1 = Some true -> n = 2%nat).
Proof.
  destruct w as [d S ck f u t l].
  unfold DeleteCommentHandler, IsAuthenticated. unfold_db. cbn.
  cases; repeat rewrite <- app_assoc; cbn;
    try (exists [], 0, 0%nat; cbn; rewrite app_nil_r; repeat split;
         try reflexivity; discriminate);
    eexists _, _;
    first
      [ exists 0%nat; split; [reflexivity|]; split; [reflexivity|]; discriminate
      | exists 1%nat; split; [reflexivity|]; split; [reflexivity|]; discriminate
      | exists 2%nat; split; [reflexivity|]; split; [reflexivity|];
        intros; reflexivity ].
  Unshelve. all: exact 0.
Qed.

(** C7.  For an existing post, a DELETE request of its author or of an
    admin, no statement failing, issues after the two lookups the four
    deletes in the order categories, comments, votes, post, whatever the
    tables hold, answers with success, and leaves no row that refers to the
    post.  For an existing comment, the request of its author or of an
    admin deletes the votes of the comment, then the comment.  And in every
    run of the two handlers, whatever the request and whatever fails, the
    removals issued are an initial part of that order. *)
Theorem cascade_delete_order :
  (forall (w : World) (r : Request) (userID : Z) (role : string) (postID : Z)
          (post : PostRow) (cookie : string),
      quiet w = true ->
      Method r = "DELETE" ->
      Cookie_session_id r = Some cookie ->
      logged_in r w = Some (userID, role) ->
      Go.Atoi (Get (URL_Query r) "post_id") = Some postID ->
      posts (store w) !! postID = Some post ->
      (userID =? p_user_id post) || String.eqb role "admin" = true ->
      success_of (DeletePostHandler r w).1 = Some true
      /\ trace (DeletePostHandler r w).2
         = (trace w ++ [SelectSession cookie; SelectPostOwner postID;
                       DeleteFromPostCategories postID;
                       DeleteFromCommentsOfPost postID;
                       DeleteFromPostVotes postID;
                       DeleteFromPosts postID])%list
      /\ store (DeletePostHandler r w).2 = post_cascade postID (store w)
      /\ post_gone postID (store (DeletePostHandler r w).2))
  /\ (forall (w : World) (r : Request) (userID : Z) (role : string)
             (commentID : Z) (comment : CommentRow) (cookie : string),
        quiet w = true ->
        Method r = "DELETE" ->
        Cookie_session_id r = Some cookie ->
        logged_in r w = Some (userID, role) ->
        Go.Atoi (Get (URL_Query r) "comment_id") = Some commentID ->
        comments (store w) !! commentID = Some comment ->
        String.eqb role "admin" || (userID =? c_user_id comment) = true ->
        success_of (DeleteCommentHandler r w).1 = Some true
        /\ trace (DeleteCommentHandler r w).2
           = (trace w ++ [SelectSession cookie; SelectCommentOwner commentID;
                         DeleteFromCommentVotes commentID;
                         DeleteFromComments commentID])%list
        /\ store (DeleteCommentHandler r w).2
           = comment_cascade commentID (store w)
        /\ comment_gone commentID (store (DeleteCommentHandler r w).2))
  /\ (forall (r : Request) (w : World),
        (exists (new : list Stmt) (postID : Z) (n : nat),
            trace (DeletePostHandler r w).2 = (trace w ++ new)%list
            /\ List.filter is_removal new = firstn n (post_removals postID)
            /\ (success_of (DeletePostHandler r w).1 = Some true -> n = 4%nat))
        /\ (exists (new : list Stmt) (commentID : Z) (n : nat),
               trace (DeleteCommentHandler r w).2 = (trace w ++ new)%list
               /\ List.filter is_removal new
                  = firstn n (comment_removals commentID)
               /\ (success_of (DeleteCommentHandler r w).1 = Some true ->
                   n = 2%nat))).
Proof.
  split; [|split].
  - intros w r userID role postID post cookie Hq Hm Hc Hl Ha Hp Hauth.
    destruct (DeletePostHandler_run w r userID role postID post cookie
                Hq Hm Hc Hl Ha Hp Hauth) as (Hresp & Htrace & Hstore).
    rewrite Hresp, Htrace, Hstore. repeat split; apply post_cascade_gone.
  - intros w r userID role commentID comment cookie Hq Hm Hc Hl Ha Hp Hauth.
    destruct (DeleteCommentHandler_run w r userID role commentID comment cookie
                Hq Hm Hc Hl Ha Hp Hauth) as (Hresp & Htrace & Hstore).
    rewrite Hresp, Htrace, Hstore. repeat split; apply comment_cascade_gone.
  - intros r w. split;
      [apply DeletePostHandler_order | apply DeleteCommentHandler_order].
Qed.

Lemma cascade_delete_order_witness :
  trace (DeletePostHandler (delete_post_req "tokA") w0).2
  = [SelectSession "tokA"; SelectPostOwner 7; DeleteFromPostCategories 7;
     DeleteFromCommentsOfPost 7; DeleteFromPostVotes 7; DeleteFromPosts 7]
  /\ trace (DeleteCommentHandler (delete_comment_req "tokB") w0).2
     = [SelectSession "tokB"; SelectCommentOwner 3; DeleteFromCommentVotes 3;
        DeleteFromComments 3].
Proof.
  destruct cascade_delete_order as (Hpost & Hcomment & _). split.
  - apply (Hpost w0 (delete_post_req "tokA") 1 "user" 7
             (mkPost 1 "title" "text") "tokA"); reflexivity.
  - apply (Hcomment w0 (delete_comment_req "tokB") 2 "user" 3
             (mkComment 7 2 "first" 5) "tokB"); reflexivity.
Defined.

(** ** Deleting twice *)

Lemma filter_all (A : Type) (f : A -> bool) (l : list A) :
  (forall x, In x l -> f x = true) -> List.filter f l = l.
Proof.
  induction l as [|a l IH]; cbn; [reflexivity|]. intros H.
  rewrite (H a (or_introl eq_refl)). f_equal. apply IH. auto.
Qed.

Lemma filter_twice (A : Type) (f : A -> bool) (l : list A) :
  List.filter f (List.filter f l) = List.filter f l.
Proof. apply filter_all. intros x Hin. apply filter_In in Hin. tauto. Qed.

(** The four removals are no-ops on a database that holds nothing of the
    post; so they change nothing when they are run again. *)
Lemma post_cascade_absent (postID : Z) (d : DB) :
  post_gone postID d -> post_cascade postID d = d.
Proof.
  destruct d as [us ss ps pcs pvs cs seq cvs].
  unfold post_gone. cbn [posts post_categories comments post_votes].
  intros (Hp & Hpc & Hc & Hv).
  assert (Hcs : comments_without_post postID cs = cs).
  { unfold comments_without_post. apply map_filter_id.
    intros i x Hx. exact (Hc i x Hx). }
  assert (Hcvs : votes_without_post postID cs cvs = cvs).
  { unfold votes_without_post. apply filter_all. intros r _.
    destruct (cs !! vote_target r) as [c|] eqn:E; [|reflexivity].
    apply negb_true_iff, Z.eqb_neq. exact (Hc _ _ E). }
  assert (Hpcs : List.filter (fun pc : Z * Z => negb (pc.1 =? postID)) pcs = pcs).
  { apply filter_all. intros pc Hin. apply negb_true_iff, Z.eqb_neq. auto. }
  assert (Hpvs : delete_votes_of postID pvs = pvs).
  { unfold delete_votes_of. apply filter_all. intros v Hin.
    apply negb_true_iff, Z.eqb_neq. auto. }
  unfold post_cascade, delete_post_categories.
  cbn [users sessions posts post_categories post_votes comments comments_seq
       comment_votes].
  rewrite Hpcs. unfold delete_post_comments.
  cbn [users sessions posts post_categories post_votes comments comments_seq
       comment_votes].
  rewrite Hcs, Hcvs. unfold delete_post_votes.
  cbn [users sessions posts post_categories post_votes comments comments_seq
       comment_votes].
  rewrite Hpvs. unfold delete_post.
  cbn [users sessions posts post_categories post_votes comments comments_seq
       comment_votes].
  rewrite Hpcs, Hcs, Hcvs, Hpvs, (delete_id _ _ Hp). reflexivity.
Qed.

Lemma post_cascade_twice (postID : Z) (d : DB) :
  post_cascade postID (post_cascade postID d) = post_cascade postID d.
Proof. apply post_cascade_absent, post_cascade_gone. Qed.

(** A successful [DeletePostHandler] went all the way: the request is a
    DELETE with the cookie of a live session, it names an existing post, and
    the database afterwards is the one before less the post and what
    referred to it. *)
Lemma DeletePostHandler_success (r : Request) (w : World) :
  success_of (DeletePostHandler r w).1 = Some true ->
  exists (cookie : string) (s : SessionRow) (postID : Z),
    Method r = "DELETE"
    /\ Cookie_session_id r = Some cookie
    /\ sessions (store w) !! cookie = Some s
    /\ (s_expiry s <? clock w) = false
    /\ Go.Atoi (Get (URL_Query r) "post_id") = Some postID
    /\ is_Some (posts (store w) !! postID)
    /\ store (DeletePostHandler r w).2 = post_cascade postID (store w)
    /\ clock (DeletePostHandler r w).2 = clock w.
Proof.
  destruct w as [d S ck f u t l].
  unfold DeletePostHandler, IsAuthenticated, post_cascade. unfold_db. cbn.
  cases; try discriminate; intros _;
    (eexists _, _, _; repeat split; eauto);
    apply String.eqb_eq; apply negb_false_iff; assumption.
Qed.

(** With a live session and no such post, [DeletePostHandler] fails and
    leaves the database as it is; the answer is 404 unless the lookup of the
    session itself fails. *)
Lemma DeletePostHandler_absent (r : Request) (w : World) (cookie : string)
    (s : SessionRow) (postID : Z) :
  Method r = "DELETE" ->
  Cookie_session_id r = Some cookie ->
  sessions (store w) !! cookie = Some s ->
  (s_expiry s <? clock w) = false ->
  Go.Atoi (Get (URL_Query r) "post_id") = Some postID ->
  posts (store w) !! postID = None ->
  success_of (DeletePostHandler r w).1 = Some false
  /\ store (DeletePostHandler r w).2 = store w
  /\ (hd false (faults w) = false ->
      (DeletePostHandler r w).1
      = mkResponse StatusNotFound None (JSON (Message false "Post not found."))).
Proof.
  intros Hm Hc Hs He Ha Hp.
  pose proof (Atoi_nonempty _ _ Ha) as Hne.
  destruct w as [d S ck f u t l]. cbn in *.
  unfold DeletePostHandler, IsAuthenticated. unfold_db. rewrite Hm, Hc. cbn.
  cases; repeat split; auto; intros; congruence.
Qed.

(** C8, as amended.  After a successful [DeletePostHandler], the same
    request again is refused: the answer has [success = false], it is the
    404 "Post not found." when the lookup of the session does not fail, and
    the database is left as the first delete left it.  The four removals
    themselves are no-ops on a database that holds nothing of the post. *)
Theorem second_delete_not_found (r : Request) (w : World) :
  success_of (DeletePostHandler r w).1 = Some true ->
  success_of (DeletePostHandler r (DeletePostHandler r w).2).1 = Some false
  /\ store (DeletePostHandler r (DeletePostHandler r w).2).2
     = store (DeletePostHandler r w).2
  /\ (hd false (faults (DeletePostHandler r w).2) = false ->
      (DeletePostHandler r (DeletePostHandler r w).2).1
      = mkResponse StatusNotFound None (JSON (Message false "Post not found.")))
  /\ (forall (postID : Z) (d : DB),
        post_gone postID d -> post_cascade postID d = d).
Proof.
  intros Hok.
  destruct (DeletePostHandler_success r w Hok)
    as (cookie & s & postID & Hm & Hc & Hs & He & Ha & _ & Hstore & Hclock).
  assert (Hs1 : sessions (store (DeletePostHandler r w).2) !! cookie = Some s)
    by (rewrite Hstore; exact Hs).
  assert (He1 : (s_expiry s <? clock (DeletePostHandler r w).2) = false)
    by (rewrite Hclock; exact He).
  assert (Hp1 : posts (store (DeletePostHandler r w).2) !! postID = None).
  { rewrite Hstore. apply post_cascade_gone. }
  destruct (DeletePostHandler_absent r _ cookie s postID Hm Hc Hs1 He1 Ha Hp1)
    as (H1 & H2 & H3).
  repeat split; auto using post_cascade_absent.
Qed.

Lemma second_delete_not_found_witness :
  success_of (DeletePostHandler (delete_post_req "tokA")
                (DeletePostHandler (delete_post_req "tokA") w0).2).1
  = Some false.
Proof.
  apply (second_delete_not_found (delete_post_req "tokA") w0). reflexivity.
Defined.

(** C8 fails as stated: ann deletes her post 7, successfully; the same
    request again is answered 404, [success = false]. *)
Lemma second_delete_counterexample :
  success_of (DeletePostHandler (delete_post_req "tokA") w0).1 = Some true
  /\ (DeletePostHandler (delete_post_req "tokA")
        (DeletePostHandler (delete_post_req "tokA") w0).2).1
     = mkResponse StatusNotFound None (JSON (Message false "Post not found.")).
Proof. split; reflexivity. Qed.

(** ** Comments *)

(** A resolution that succeeds leaves the database and the clock alone. *)
Lemma IsAuthenticated_true (r : Request) (w : World) (userID : Z)
    (role : string) :
  (IsAuthenticated r w).1 = (true, userID, role) ->
  store (IsAuthenticated r w).2 = store w
  /\ clock (IsAuthenticated r w).2 = clock w.
Proof.
  destruct w as [d S ck f u t l].
  unfold IsAuthenticated. unfold_db. cbn.
  cases; intros Heq; try discriminate Heq; auto.
Qed.

(** What [CommentHandler] does for an authenticated request: either it
    answers with a failure and the table of comments is as before, or the
    trimmed content has between 3 and 500 bytes and one row was written,
    with the content of the form as it came. *)
Lemma CommentHandler_effect (r : Request) (w : World) (userID : Z)
    (role : string) :
  (IsAuthenticated r w).1 = (true, userID, role) ->
  (success_of (CommentHandler r w).1 = Some false
   /\ comments (store (CommentHandler r w).2) = comments (store w))
  \/ (3 <= Go.len (Go.TrimSpace (FormValue r "content")) <= 500
      /\ exists (id : Z) (row : CommentRow),
          comments (store (CommentHandler r w).2)
          = <[id := row]> (comments (store w))
          /\ c_content row = FormValue r "content"
          /\ c_user_id row = userID
          /\ (success_of (CommentHandler r w).1 = Some true ->
              exists username : string,
                (CommentHandler r w).1
                = mkResponse StatusOK None
                    (JSON (NewComment id (FormValue r "content") userID
                             username (clock w))))).
Proof.
  intros Hauth.
  destruct (IsAuthenticated_true r w userID role Hauth) as [Hst Hck].
  unfold CommentHandler, bind.
  destruct (IsAuthenticated r w) as [[[isAuth uid] rl] w1].
  cbn in Hauth, Hst, Hck. injection Hauth as -> -> ->. cbn.
  destruct w1 as [d S ck f u t l]. cbn in *. subst.
  unfold_db. unfold insert_comment. cbn.
  cases; try (left; split; reflexivity);
    (right; split;
     [ match goal with
       | H1 : (_ <? 3) = false, H2 : (500 <? _) = false |- _ =>
           apply Z.ltb_ge in H1; apply Z.ltb_ge in H2; lia
       end
     | eexists _, _; split; [reflexivity|]; split; [reflexivity|];
       split; [reflexivity|]; intros Hok; try discriminate Hok;
       eexists; reflexivity ]).
Qed.

(** C10.  For an authenticated request, a content whose trimmed form has
    fewer than 3 or more than 500 bytes is answered with [success = false]
    and the table of comments is unchanged; and when the answer is a
    success, the comment stored under the returned id has the content of
    the form, untrimmed. *)
Theorem comment_length_validation (r : Request) (w : World) (userID : Z)
    (role : string) :
  (IsAuthenticated r w).1 = (true, userID, role) ->
  (Go.len (Go.TrimSpace (FormValue r "content")) < 3
   \/ 500 < Go.len (Go.TrimSpace (FormValue r "content")) ->
   success_of (CommentHandler r w).1 = Some false
   /\ comments (store (CommentHandler r w).2) = comments (store w))
  /\ (success_of (CommentHandler r w).1 = Some true ->
      exists (id : Z) (row : CommentRow) (username : string),
        (CommentHandler r w).1
        = mkResponse StatusOK None
            (JSON (NewComment id (FormValue r "content") userID username
                     (clock w)))
        /\ comments (store (CommentHandler r w).2) !! id = Some row
        /\ c_content row = FormValue r "content").
Proof.
  intros Hauth.
  destruct (CommentHandler_effect r w userID role Hauth)
    as [[Hfail Hsame] | (Hlen & id & row & Hins & Hcontent & _ & Hresp)].
  - split; [auto|]. rewrite Hfail. discriminate.
  - split; [intros Hout; lia|]. intros Hok.
    destruct (Hresp Hok) as [username Hr].
    exists id, row, username. split; [exact Hr|]. split; [|exact Hcontent].
    rewrite Hins. apply lookup_insert_eq.
Qed.

Lemma comment_length_validation_witness :
  (success_of (CommentHandler (comment_req "tokB" "  a ") w0).1 = Some false
   /\ comments (store (CommentHandler (comment_req "tokB" "  a ") w0).2)
      = comments (store w0))
  /\ exists (id : Z) (row : CommentRow) (username : string),
      (CommentHandler (comment_req "tokB" "  hello ") w0).1
      = mkResponse StatusOK None
          (JSON (NewComment id "  hello " 2 username 10))
      /\ comments (store (CommentHandler (comment_req "tokB" "  hello ") w0).2)
           !! id = Some row
      /\ c_content row = "  hello ".
Proof.
  split.
  - apply (comment_length_validation (comment_req "tokB" "  a ") w0 2 "user").
    + reflexivity.
    + left. reflexivity.
  - apply (comment_length_validation (comment_req "tokB" "  hello ") w0 2 "user").
    + reflexivity.
    + reflexivity.
Defined.

Example comment_stored_untrimmed :
  (CommentHandler (comment_req "tokB" "  hello ") w0).1
  = mkResponse StatusOK None (JSON (NewComment 4 "  hello " 2 "bob" 10))
  /\ comments (store (CommentHandler (comment_req "tokB" "  hello ") w0).2) !! 4
     = Some (mkComment 7 2 "  hello " 10).
Proof. split; reflexivity. Qed.

(** ** Resolution, login and logout *)

Lemma IsAuthenticated_answer (r : Request) (w : World) :
  (IsAuthenticated r w).1
  = match logged_in r w with
    | Some (userID, role) =>
        if hd false (faults w) then (false, 0, "") else (true, userID, role)
    | None => (false, 0, "")
    end.
Proof.
  destruct w as [d S ck f u t l]. unfold logged_in.
  unfold IsAuthenticated. unfold_db. cbn. cases.
Qed.

Lemma IsAuthenticated_mirror (r : Request) (w : World) :
  match (IsAuthenticated r w).1 with
  | (true, userID, role) =>
      exists cookie s,
        Cookie_session_id r = Some cookie
        /\ sessions (store w) !! cookie = Some s
        /\ Sessions (IsAuthenticated r w).2
           = <[cookie := mkSessionData (s_user_id s) (s_role s) (s_expiry s)]>
               (Sessions w)
        /\ store (IsAuthenticated r w).2 = store w
  | (false, _, _) => Sessions (IsAuthenticated r w).2 = Sessions w
  end.
Proof.
  destruct w as [d S ck f u t l].
  unfold IsAuthenticated. unfold_db. cbn. cases; eauto.
  eexists _, _. repeat split; eauto.
Qed.

(** X1.  IsAuthenticated answers (true, user, role) exactly when the request's
    cookie names a stored session that has not expired and the read of the
    session does not fail, and (false, 0, empty role) otherwise. On success it
    writes that session into the in-memory map Sessions and leaves the
    database alone; on failure Sessions is unchanged. *)
Theorem session_resolution (r : Request) (w : World) :
  (IsAuthenticated r w).1
  = match logged_in r w with
    | Some (userID, role) =>
        if hd false (faults w) then (false, 0, "") else (true, userID, role)
    | None => (false, 0, "")
    end
  /\ match (IsAuthenticated r w).1 with
     | (true, userID, role) =>
         exists cookie s,
           Cookie_session_id r = Some cookie
           /\ sessions (store w) !! cookie = Some s
           /\ Sessions (IsAuthenticated r w).2
              = <[cookie := mkSessionData (s_user_id s) (s_role s) (s_expiry s)]>
                  (Sessions w)
           /\ store (IsAuthenticated r w).2 = store w
     | (false, _, _) => Sessions (IsAuthenticated r w).2 = Sessions w
     end.
Proof.
  destruct w as [d S ck f u t l]. unfold logged_in.
  unfold IsAuthenticated. unfold_db. cbn. split.
  - cases.
  - cases; eauto. eexists _, _. repeat split; eauto.
Qed.

(** X2.  Round trip of login and resolution: the cookie that LoginHandler sets
    is resolved by IsAuthenticated to the user found by the email, with that
    user's stored role, at every instant up to 24 hours after the login, and
    to nobody after that. *)
Theorem login_then_resolve (check : string -> string -> bool) (r : Request)
    (w : World) (ck : Cookie) (t : Time) (r' : Request) :
  SetCookie (LoginHandler check r w).1 = Some ck ->
  Cookie_session_id r' = Some (Value ck) ->
  hd false (faults (LoginHandler check r w).2) = false ->
  exists (userID : Z) (user : UserRow),
    find_user_by_email (Go.TrimSpace (FormValue r "email")) (users (store w))
    = Some (userID, user)
    /\ (t <= clock w + 24 * Hour ->
        (IsAuthenticated r' (at_time t (LoginHandler check r w).2)).1
        = (true, userID, u_role user))
    /\ (clock w + 24 * Hour < t ->
        (IsAuthenticated r' (at_time t (LoginHandler check r w).2)).1
        = (false, 0, "")).
Proof.
  intros Hck Hc' Hf.
  destruct (LoginHandler_created check r w ck Hck)
    as (userID & user & before & Hfind & _ & _ & _ & Hs & _).
  exists userID, user. split; [exact Hfind|].
  assert (Hrow : sessions (store (LoginHandler check r w).2) !! Value ck
                 = Some (mkSession userID (u_role user) (clock w + 24 * Hour)))
    by (rewrite Hs; apply lookup_insert_eq).
  rewrite IsAuthenticated_answer. unfold logged_in, at_time. cbn.
  rewrite Hc', Hrow, Hf. cbn. split; intros Ht.
  - destruct (Z.ltb_spec (clock w + 24 * Hour) t); [lia | reflexivity].
  - destruct (Z.ltb_spec (clock w + 24 * Hour) t); [reflexivity | lia].
Qed.

Lemma login_then_resolve_witness :
  exists (userID : Z) (user : UserRow),
    find_user_by_email (Go.TrimSpace (FormValue (login_req "bob@forum.io" "b") "email"))
      (users (store w0))
    = Some (userID, user)
    /\ (20 <= clock w0 + 24 * Hour ->
        (IsAuthenticated (vote_req "tokN")
           (at_time 20 (LoginHandler check_password
                          (login_req "bob@forum.io" "b") w0).2)).1
        = (true, userID, u_role user))
    /\ (clock w0 + 24 * Hour < 20 ->
        (IsAuthenticated (vote_req "tokN")
           (at_time 20 (LoginHandler check_password
                          (login_req "bob@forum.io" "b") w0).2)).1
        = (false, 0, "")).
Proof.
  apply (login_then_resolve check_password (login_req "bob@forum.io" "b") w0
           (mkCookie "tokN" (24 * 60 * 60) None) 20 (vote_req "tokN"));
    reflexivity.
Defined.

(** X3.  After LogoutHandler, when its DELETE did not fail, the cookie of the
    request no longer resolves; the sessions under every other token, in the
    database and in Sessions, are as before. *)
Theorem logout_then_resolve (r : Request) (w : World) (cookie : string)
    (r' : Request) :
  Cookie_session_id r = Some cookie ->
  hd false (faults w) = false ->
  Cookie_session_id r' = Some cookie ->
  (IsAuthenticated r' (LogoutHandler r w).2).1 = (false, 0, "")
  /\ (forall c', c' <> cookie ->
        sessions (store (LogoutHandler r w).2) !! c' = sessions (store w) !! c'
        /\ Sessions (LogoutHandler r w).2 !! c' = Sessions w !! c').
Proof.
  intros Hc Hf Hc'. split.
  - apply (IsAuthenticated_unknown r' _ cookie Hc').
    destruct w as [d S ck f u t l]. cbn in Hf.
    unfold LogoutHandler. unfold_db. unfold delete_session. rewrite Hc. cbn. rewrite Hf. cbn.
    apply lookup_delete_eq.
  - intros c' Hne. destruct w as [d S ck f u t l]. cbn in Hf.
    unfold LogoutHandler. unfold_db. unfold delete_session. rewrite Hc. cbn. rewrite Hf. cbn.
    split; apply lookup_delete_ne; congruence.
Qed.

Lemma logout_then_resolve_witness :
  (IsAuthenticated (vote_req "tokA") (LogoutHandler (vote_req "tokA") w0).2).1
  = (false, 0, "")
  /\ (forall c', c' <> "tokA" ->
        sessions (store (LogoutHandler (vote_req "tokA") w0).2) !! c'
        = sessions (store w0) !! c'
        /\ Sessions (LogoutHandler (vote_req "tokA") w0).2 !! c'
           = Sessions w0 !! c').
Proof.
  apply (logout_then_resolve (vote_req "tokA") w0 "tokA" (vote_req "tokA"));
    reflexivity.
Defined.

(** X4.  A login without cookie whose password does not check against the user
    of that email (or whose email is unknown) sets no cookie and writes
    nothing to the database, whatever fails; for a POST with a non-empty email
    and password the reply is the redirect to /?login_error=Invalid email or
    password, the same for an unknown email and for a wrong password. *)
Theorem login_rejected (check : string -> string -> bool) (r : Request)
    (w : World) :
  Cookie_session_id r = None ->
  (forall userID user,
      find_user_by_email (Go.TrimSpace (FormValue r "email")) (users (store w))
      = Some (userID, user) ->
      check (u_password user) (FormValue r "password") = false) ->
  SetCookie (LoginHandler check r w).1 = None
  /\ store (LoginHandler check r w).2 = store w
  /\ (Method r = "POST" -> Form r <> None ->
      Go.TrimSpace (FormValue r "email") <> "" -> FormValue r "password" <> "" ->
      (LoginHandler check r w).1
      = mkResponse StatusSeeOther None
          (Redirect "/?login_error=Invalid email or password")).
Proof.
  intros Hc Hbad. destruct w as [d S ck f u t l]. cbn in Hbad.
  assert (Hno : forall userID user,
             find_user_by_email (Go.TrimSpace (FormValue r "email")) (users d)
             = Some (userID, user) ->
             negb (check (u_password user) (FormValue r "password")) = false ->
             False).
  { intros userID user Hfind Hneg. apply negb_false_iff in Hneg.
    rewrite (Hbad _ _ Hfind) in Hneg. discriminate. }
  unfold LoginHandler, IsAuthenticated. unfold_db. rewrite Hc. cbn.
  split; [|split].
  - cases; exfalso; eauto.
  - cases; exfalso; eauto.
  - intros Hm Hform He Hp. rewrite Hm. cbn.
    apply String.eqb_neq in He, Hp. rewrite He, Hp. cbn.
    cases; exfalso; eauto.
Qed.

Lemma login_rejected_witness :
  SetCookie (LoginHandler check_password (login_req "bob@forum.io" "x") w0).1
  = None
  /\ store (LoginHandler check_password (login_req "bob@forum.io" "x") w0).2
     = store w0
  /\ (Method (login_req "bob@forum.io" "x") = "POST" ->
      Form (login_req "bob@forum.io" "x") <> None ->
      Go.TrimSpace (FormValue (login_req "bob@forum.io" "x") "email") <> "" ->
      FormValue (login_req "bob@forum.io" "x") "password" <> "" ->
      (LoginHandler check_password (login_req "bob@forum.io" "x") w0).1
      = mkResponse StatusSeeOther None
          (Redirect "/?login_error=Invalid email or password")).
Proof.
  apply (login_rejected check_password (login_req "bob@forum.io" "x") w0).
  - reflexivity.
  - intros userID user H. vm_compute in H. injection H as <- <-. reflexivity.
Defined.

(** X5.  No rollback in LoginHandler: when the old sessions were deleted and
    the INSERT of the new session fails, the reply is the error page 500 and
    the user is left with no session at all, while the sessions of other users
    are untouched. *)
Theorem login_insert_failure (check : string -> string -> bool) (r : Request)
    (w : World) (userID : Z) (user : UserRow) :
  Cookie_session_id r = None ->
  Method r = "POST" ->
  Form r <> None ->
  FormValue r "password" <> "" ->
  find_user_by_email (Go.TrimSpace (FormValue r "email")) (users (store w))
  = Some (userID, user) ->
  Go.TrimSpace (FormValue r "email") <> "" ->
  check (u_password user) (FormValue r "password") = true ->
  firstn 3 (faults w) = [false; false; true] ->
  (LoginHandler check r w).1
  = mkResponse StatusOK None (ErrorPage StatusInternalServerError)
  /\ (forall tok s,
        sessions (store (LoginHandler check r w).2) !! tok = Some s ->
        s_user_id s <> userID)
  /\ (forall tok s,
        sessions (store w) !! tok = Some s -> s_user_id s <> userID ->
        sessions (store (LoginHandler check r w).2) !! tok = Some s).
Proof.
  intros Hc Hm Hform Hp Hfind He Hcheck Hf.
  destruct w as [d S ck f u t l]. cbn in *.
  destruct f as [|[] [|[] [|[] f]]]; try discriminate Hf.
  apply String.eqb_neq in He, Hp.
  unfold LoginHandler, IsAuthenticated. unfold_db.
  unfold delete_user_sessions. rewrite Hc, Hm. cbn.
  destruct (Form r); [|congruence]. cbn. rewrite He, Hp. cbn.
  rewrite Hfind. cbn. rewrite Hcheck. cbn.
  split; [reflexivity|]. split.
  - intros tok s Hs. apply map_lookup_filter_Some in Hs as [_ Hne]. exact Hne.
  - intros tok s Hs Hne. apply map_lookup_filter_Some. auto.
Qed.

Lemma login_insert_failure_witness :
  (LoginHandler check_password (login_req "bob@forum.io" "b")
     (with_faults [false; false; true] w0)).1
  = mkResponse StatusOK None (ErrorPage StatusInternalServerError)
  /\ (forall tok s,
        sessions (store (LoginHandler check_password
                           (login_req "bob@forum.io" "b")
                           (with_faults [false; false; true] w0)).2) !! tok
        = Some s ->
        s_user_id s <> 2)
  /\ (forall tok s,
        sessions (store (with_faults [false; false; true] w0)) !! tok = Some s ->
        s_user_id s <> 2 ->
        sessions (store (LoginHandler check_password
                           (login_req "bob@forum.io" "b")
                           (with_faults [false; false; true] w0)).2) !! tok
        = Some s).
Proof.
  apply (login_insert_failure check_password (login_req "bob@forum.io" "b")
           (with_faults [false; false; true] w0) 2
           (mkUser "bob@forum.io" "bob" "hash-b" "user"));
    first [reflexivity | (vm_compute; discriminate)].
Defined.

(** X6.  LoginHandler removes sessions of the user who logs in only: a stored
    session of another user, under a token that is not the request's cookie,
    is still stored after any login request, whatever fails. *)
Theorem login_keeps_other_sessions (check : string -> string -> bool)
    (r : Request) (w : World) (tok : string) (s : SessionRow) :
  sessions (store w) !! tok = Some s ->
  Cookie_session_id r <> Some tok ->
  (forall userID user,
      find_user_by_email (Go.TrimSpace (FormValue r "email")) (users (store w))
      = Some (userID, user) -> s_user_id s <> userID) ->
  sessions (store (LoginHandler check r w).2) !! tok = Some s.
Proof.
  intros Hs Hc Hother. destruct w as [d S ck f u t l]. cbn in *.
  unfold LoginHandler, IsAuthenticated. unfold_db.
  unfold insert_session, delete_user_sessions, delete_session. cbn.
  cases; auto;
    try match goal with
        | Ho : forall userID user, Some (?z, ?u) = Some (userID, user) -> _
          |- _ => specialize (Ho z u eq_refl)
        | Ho : forall userID user,
            find_user_by_email ?e ?us = Some (userID, user) -> _,
          Hf : find_user_by_email ?e ?us = Some (?z, ?u) |- _ =>
            specialize (Ho z u Hf)
        end.
  all: try (rewrite lookup_delete_ne by congruence; assumption).
  all: try (apply map_lookup_filter_Some; split; [|assumption];
            try rewrite lookup_delete_ne by congruence; assumption).
  all: match goal with
       | Hnone : filter ?P ?m !! ?sid = None |- _ =>
           assert (Hin : filter P m !! tok = Some s)
             by (apply map_lookup_filter_Some; split; [|assumption];
                 try rewrite lookup_delete_ne by congruence; assumption);
           rewrite lookup_insert_ne by congruence; exact Hin
       end.
Qed.

Lemma login_keeps_other_sessions_witness :
  sessions (store (LoginHandler check_password (login_req "bob@forum.io" "b")
                     w0).2) !! "tokA"
  = Some (mkSession 1 "user" 1000).
Proof.
  apply (login_keeps_other_sessions check_password
           (login_req "bob@forum.io" "b") w0 "tokA" (mkSession 1 "user" 1000)).
  - reflexivity.
  - discriminate.
  - intros userID user H. vm_compute in H. injection H as <- <-. discriminate.
Defined.

(** X7.  A request to LoginHandler that already carries a live session is
    redirected to the redirect target and changes nothing in the database: no
    password is read and no session is replaced. *)
Theorem login_while_logged_in (check : string -> string -> bool)
    (r : Request) (w : World) (userID : Z) (role : string) :
  logged_in r w = Some (userID, role) ->
  hd false (faults w) = false ->
  (LoginHandler check r w).1
  = mkResponse StatusSeeOther None (Redirect (redirect_target r))
  /\ store (LoginHandler check r w).2 = store w.
Proof.
  intros Hl Hf. destruct w as [d S ck f u t l]. unfold logged_in in Hl.
  cbn in *. unfold LoginHandler, IsAuthenticated. unfold_db. cbn.
  cases; auto.
Qed.

Lemma login_while_logged_in_witness :
  (LoginHandler check_password (vote_req "tokA") w0).1
  = mkResponse StatusSeeOther None (Redirect (redirect_target (vote_req "tokA")))
  /\ store (LoginHandler check_password (vote_req "tokA") w0).2 = store w0.
Proof.
  apply (login_while_logged_in check_password (vote_req "tokA") w0 1 "user");
    reflexivity.
Defined.

(** ** Votes on posts: the other rows and the counts *)

Ltac unfold_db2 :=
  unfold GetUserCommentVote, RemoveCommentVote, SetCommentLike,
    SetCommentDislike, GetCommentVoteStats, EmailExists, UsernameExists,
    RegisterUser in *;
  unfold db_stmt in *.

Section OtherVotes.

Variables userID target u p : Z.
Hypothesis other : ~ (u = userID /\ p = target).

Lemma vote_matches_other (r : VoteRow) :
  vote_matches userID target r = true -> vote_matches u p r = false.
Proof.
  unfold vote_matches. rewrite andb_true_iff, !Z.eqb_eq. intros [Hu Hp].
  apply andb_false_iff.
  destruct (Z.eqb_spec (vote_user r) u); [|auto].
  destruct (Z.eqb_spec (vote_target r) p); [|auto].
  exfalso. apply other. split; congruence.
Qed.

Lemma select_vote_delete_vote_other (t : list VoteRow) :
  select_vote u p (delete_vote userID target t) = select_vote u p t.
Proof.
  unfold select_vote, delete_vote. induction t as [|r t IH]; [reflexivity|].
  cbn. destruct (vote_matches userID target r) eqn:E; cbn.
  - rewrite (vote_matches_other r E). exact IH.
  - destruct (vote_matches u p r); [reflexivity | exact IH].
Qed.

Lemma select_vote_update_vote_other (v : Z) (t : list VoteRow) :
  select_vote u p (update_vote userID target v t) = select_vote u p t.
Proof.
  unfold select_vote, update_vote. induction t as [|r t IH]; [reflexivity|].
  cbn. destruct (vote_matches userID target r) eqn:E; cbn.
  - rewrite (vote_matches_other r E).
    assert (Hm : vote_matches u p (mkVote (vote_user r) (vote_target r) v) = false)
      by (rewrite <- (vote_matches_other r E); reflexivity).
    rewrite Hm. exact IH.
  - destruct (vote_matches u p r); [reflexivity | exact IH].
Qed.

Lemma select_vote_insert_other (v : Z) (t : list VoteRow) :
  select_vote u p (t ++ [mkVote userID target v]) = select_vote u p t.
Proof.
  unfold select_vote. induction t as [|r t IH]; cbn.
  - assert (Hm : vote_matches u p (mkVote userID target v) = false).
    { apply (vote_matches_other (mkVote userID target v)).
      unfold vote_matches. cbn. rewrite !Z.eqb_refl. reflexivity. }
    rewrite Hm. reflexivity.
  - destruct (vote_matches u p r); [reflexivity | exact IH].
Qed.

End OtherVotes.

Lemma LikeHandler_effect (r : Request) (w : World) :
  (store (LikeHandler r w).2 = store w
   \/ (exists c, store (LikeHandler r w).2 = delete_session c (store w)))
  \/ exists userID role postID t',
      logged_in r w = Some (userID, role)
      /\ Go.Atoi (Get (URL_Query r) "post_id") = Some postID
      /\ store (LikeHandler r w).2 = set_post_votes t' (store w)
      /\ vote_write userID postID 1
           (user_exists userID (store w) && post_exists postID (store w))
           (post_votes (store w)) t'.
Proof.
  destruct w as [d S ck f u t l]. unfold logged_in, user_exists, post_exists.
  unfold LikeHandler, IsAuthenticated. unfold_db.
  unfold upsert_post_vote. cbn.
  cases; eauto.
  all: right; eexists _, _, _, _; (split; [reflexivity|]); (split; [reflexivity|]);
    (split; [reflexivity|]).
  all: first [ apply vw_delete | apply vw_update | apply vw_insert;
               [ repeat match goal with H : _ !! _ = Some _ |- _ => rewrite H end; reflexivity | assumption ] ].
Qed.

Lemma DislikeHandler_effect (r : Request) (w : World) :
  (store (DislikeHandler r w).2 = store w
   \/ (exists c, store (DislikeHandler r w).2 = delete_session c (store w)))
  \/ exists userID role postID t',
      logged_in r w = Some (userID, role)
      /\ Go.Atoi (Get (URL_Query r) "post_id") = Some postID
      /\ store (DislikeHandler r w).2 = set_post_votes t' (store w)
      /\ vote_write userID postID (-1)
           (user_exists userID (store w) && post_exists postID (store w))
           (post_votes (store w)) t'.
Proof.
  destruct w as [d S ck f u t l]. unfold logged_in, user_exists, post_exists.
  unfold DislikeHandler, IsAuthenticated. unfold_db.
  unfold upsert_post_vote. cbn.
  cases; eauto.
  all: right; eexists _, _, _, _; (split; [reflexivity|]); (split; [reflexivity|]);
    (split; [reflexivity|]).
  all: first [ apply vw_delete | apply vw_update | apply vw_insert;
               [ repeat match goal with H : _ !! _ = Some _ |- _ => rewrite H end; reflexivity | assumption ] ].
Qed.

Lemma vote_write_other (userID target v : Z) (ok : bool) (t t' : list VoteRow)
    (u p : Z) :
  vote_write userID target v ok t t' ->
  ~ (u = userID /\ p = target) ->
  select_vote u p t' = select_vote u p t.
Proof.
  intros [| |Hok He] Hother.
  - apply select_vote_delete_vote_other. exact Hother.
  - apply select_vote_update_vote_other. exact Hother.
  - apply select_vote_insert_other. exact Hother.
Qed.

(** X9.  A like or dislike request changes at most the vote of its own (user,
    post) pair: the vote of every other pair is as before, and the comment
    votes and the posts are untouched, whatever fails. *)
Theorem post_vote_frame (r : Request) (w : World) (u p : Z) :
  (forall role, logged_in r w = Some (u, role) ->
                Go.Atoi (Get (URL_Query r) "post_id") = Some p -> False) ->
  (select_vote u p (post_votes (store (LikeHandler r w).2))
   = select_vote u p (post_votes (store w))
   /\ select_vote u p (post_votes (store (DislikeHandler r w).2))
      = select_vote u p (post_votes (store w)))
  /\ comment_votes (store (LikeHandler r w).2) = comment_votes (store w)
  /\ comment_votes (store (DislikeHandler r w).2) = comment_votes (store w)
  /\ posts (store (LikeHandler r w).2) = posts (store w)
  /\ posts (store (DislikeHandler r w).2) = posts (store w).
Proof.
  intros Hnot.
  assert (Hframe : forall userID role postID v ok t',
             logged_in r w = Some (userID, role) ->
             Go.Atoi (Get (URL_Query r) "post_id") = Some postID ->
             vote_write userID postID v ok (post_votes (store w)) t' ->
             select_vote u p t' = select_vote u p (post_votes (store w))).
  { intros userID role postID v ok t' Hl Ha Hw.
    apply (vote_write_other _ _ _ _ _ _ u p Hw).
    intros [-> ->]. exact (Hnot role Hl Ha). }
  destruct (LikeHandler_effect r w)
    as [[HL | [c HL]] | (U1 & r1 & T1 & t1 & Hl1 & Ha1 & HL & Hw1)];
  destruct (DislikeHandler_effect r w)
    as [[HD | [c' HD]] | (U2 & r2 & T2 & t2 & Hl2 & Ha2 & HD & Hw2)];
  rewrite HL, HD; cbn; repeat split; eauto.
Qed.

Lemma post_vote_frame_witness :
  (select_vote 1 7 (post_votes (store (LikeHandler (vote_req "tokB") w0).2))
   = select_vote 1 7 (post_votes (store w0))
   /\ select_vote 1 7 (post_votes (store (DislikeHandler (vote_req "tokB") w0).2))
      = select_vote 1 7 (post_votes (store w0)))
  /\ comment_votes (store (LikeHandler (vote_req "tokB") w0).2)
     = comment_votes (store w0)
  /\ comment_votes (store (DislikeHandler (vote_req "tokB") w0).2)
     = comment_votes (store w0)
  /\ posts (store (LikeHandler (vote_req "tokB") w0).2) = posts (store w0)
  /\ posts (store (DislikeHandler (vote_req "tokB") w0).2) = posts (store w0).
Proof.
  apply (post_vote_frame (vote_req "tokB") w0 1 7).
  intros role H _. vm_compute in H. discriminate H.
Defined.

Lemma sum_case_app (v : Z) (a b : list VoteRow) :
  sum_case v (a ++ b) = sum_case v a + sum_case v b.
Proof.
  unfold sum_case. induction a as [|r a IH]; cbn; [reflexivity|].
  rewrite IH. lia.
Qed.

Lemma votes_of_app (target : Z) (a b : list VoteRow) :
  votes_of target (a ++ b) = (votes_of target a ++ votes_of target b)%list.
Proof. unfold votes_of. apply List.filter_app. Qed.

Lemma sum_case_insert (v userID target x : Z) (t : list VoteRow) :
  sum_case v (votes_of target (t ++ [mkVote userID target x]))
  = sum_case v (votes_of target t) + (if x =? v then 1 else 0).
Proof.
  rewrite votes_of_app, sum_case_app. unfold votes_of at 2. cbn.
  rewrite Z.eqb_refl. unfold sum_case. cbn. lia.
Qed.

Lemma delete_vote_absent (userID target : Z) (t : list VoteRow) :
  existsb (vote_matches userID target) t = false ->
  delete_vote userID target t = t.
Proof.
  unfold delete_vote. induction t as [|r t IH]; cbn; [reflexivity|].
  rewrite orb_false_iff. intros [-> Ht]. cbn. f_equal. apply IH, Ht.
Qed.

Lemma update_vote_absent (userID target v : Z) (t : list VoteRow) :
  existsb (vote_matches userID target) t = false ->
  update_vote userID target v t = t.
Proof.
  unfold update_vote. induction t as [|r t IH]; cbn; [reflexivity|].
  rewrite orb_false_iff. intros [-> Ht]. f_equal. apply IH, Ht.
Qed.

Lemma pk_unique_head (userID target : Z) (r : VoteRow) (t : list VoteRow) :
  pk_unique (r :: t) ->
  vote_matches userID target r = true ->
  existsb (vote_matches userID target) t = false.
Proof.
  unfold pk_unique. cbn. intros Hnd Hm.
  apply NoDup_cons_1_1 in Hnd as Hr.
  destruct (existsb _ t) eqn:E; [|reflexivity].
  exfalso. apply Hr. apply existsb_exists in E as (r' & Hin & Hm').
  apply vote_matches_key in Hm, Hm'. apply list_elem_of_In.
  rewrite Hm, <- Hm'. apply in_map. exact Hin.
Qed.

Lemma votes_of_cons (target : Z) (r : VoteRow) (t : list VoteRow) :
  votes_of target (r :: t)
  = if vote_target r =? target then r :: votes_of target t
    else votes_of target t.
Proof. reflexivity. Qed.

Lemma sum_case_cons (v : Z) (r : VoteRow) (t : list VoteRow) :
  sum_case v (r :: t) = (if vote_value r =? v then 1 else 0) + sum_case v t.
Proof. reflexivity. Qed.

Lemma delete_vote_cons (userID target : Z) (r : VoteRow) (t : list VoteRow) :
  delete_vote userID target (r :: t)
  = if vote_matches userID target r then delete_vote userID target t
    else r :: delete_vote userID target t.
Proof.
  unfold delete_vote. cbn. destruct (vote_matches userID target r); reflexivity.
Qed.

Lemma update_vote_cons (userID target y : Z) (r : VoteRow) (t : list VoteRow) :
  update_vote userID target y (r :: t)
  = (if vote_matches userID target r
     then mkVote (vote_user r) (vote_target r) y else r)
    :: update_vote userID target y t.
Proof. reflexivity. Qed.

Lemma select_vote_cons (userID target : Z) (r : VoteRow) (t : list VoteRow) :
  select_vote userID target (r :: t)
  = if vote_matches userID target r then Some (vote_value r)
    else select_vote userID target t.
Proof.
  unfold select_vote. cbn. destruct (vote_matches userID target r); reflexivity.
Qed.

(** Under the primary key, removing or rewriting the vote of a user moves
    each sum by the one row that the user has. *)
Lemma sum_case_delete_vote (v userID target x : Z) (t : list VoteRow) :
  pk_unique t ->
  select_vote userID target t = Some x ->
  sum_case v (votes_of target (delete_vote userID target t))
  = sum_case v (votes_of target t) - (if x =? v then 1 else 0).
Proof.
  induction t as [|r t IH]; [discriminate|].
  intros Hpk Hsel. rewrite select_vote_cons in Hsel.
  rewrite delete_vote_cons, votes_of_cons.
  destruct (vote_matches userID target r) eqn:E.
  - pose proof (pk_unique_head _ _ _ _ Hpk E) as Hnone.
    injection Hsel as <-.
    rewrite (delete_vote_absent _ _ _ Hnone).
    apply andb_true_iff in E as [_ ->]. rewrite sum_case_cons. lia.
  - assert (Hpk' : pk_unique t) by (apply NoDup_cons_1_2 in Hpk; exact Hpk).
    specialize (IH Hpk' Hsel). rewrite votes_of_cons.
    destruct (vote_target r =? target); [|exact IH].
    rewrite !sum_case_cons, IH. lia.
Qed.

Lemma sum_case_update_vote (v userID target x y : Z) (t : list VoteRow) :
  pk_unique t ->
  select_vote userID target t = Some x ->
  sum_case v (votes_of target (update_vote userID target y t))
  = sum_case v (votes_of target t) - (if x =? v then 1 else 0)
    + (if y =? v then 1 else 0).
Proof.
  induction t as [|r t IH]; [discriminate|].
  intros Hpk Hsel. rewrite select_vote_cons in Hsel.
  rewrite update_vote_cons, !votes_of_cons.
  destruct (vote_matches userID target r) eqn:E.
  - pose proof (pk_unique_head _ _ _ _ Hpk E) as Hnone.
    injection Hsel as <-.
    rewrite (update_vote_absent _ _ _ _ Hnone).
    apply andb_true_iff in E as [_ Et]. cbn [vote_target]. rewrite Et.
    rewrite !sum_case_cons. cbn [vote_value]. lia.
  - assert (Hpk' : pk_unique t) by (apply NoDup_cons_1_2 in Hpk; exact Hpk).
    specialize (IH Hpk' Hsel).
    destruct (vote_target r =? target); [|exact IH].
    rewrite !sum_case_cons, IH. lia.
Qed.

Lemma votes_check_select (userID target x : Z) (t : list VoteRow) :
  votes_check t = true ->
  select_vote userID target t = Some x -> x = 1 \/ x = -1.
Proof.
  unfold votes_check, select_vote. induction t as [|r t IH]; [discriminate|].
  cbn. rewrite andb_true_iff, orb_true_iff, !Z.eqb_eq. intros [Hr Ht].
  destruct (vote_matches userID target r); cbn; [|exact (IH Ht)].
  intros [= <-]. exact Hr.
Qed.





(** The vote of the user and the two counts after a toggle, by the vote
    before. *)
Lemma toggle_vote_table (userID target v : Z) (t : list VoteRow) :
  v = 1 \/ v = -1 ->
  pk_unique t ->
  votes_check t = true ->
  let t' := toggle_vote userID target v true t in
  match select_vote userID target t with
  | None =>
      select_vote userID target t' = Some v
      /\ sum_case v (votes_of target t') = sum_case v (votes_of target t) + 1
      /\ sum_case (- v) (votes_of target t') = sum_case (- v) (votes_of target t)
  | Some x =>
      if x =? v then
        select_vote userID target t' = None
        /\ sum_case v (votes_of target t') = sum_case v (votes_of target t) - 1
        /\ sum_case (- v) (votes_of target t')
           = sum_case (- v) (votes_of target t)
      else
        select_vote userID target t' = Some v
        /\ sum_case v (votes_of target t') = sum_case v (votes_of target t) + 1
        /\ sum_case (- v) (votes_of target t')
           = sum_case (- v) (votes_of target t) - 1
  end.
Proof.
  intros Hv Hpk Hck. cbn zeta. unfold toggle_vote.
  destruct (select_vote userID target t) as [x|] eqn:Hx.
  - pose proof (existsb_select_vote _ _ _ _ Hx) as He.
    destruct (votes_check_select _ _ _ _ Hck Hx) as [-> | ->];
      destruct Hv as [-> | ->]; cbv [Z.opp]; cbn [Z.eqb Pos.eqb].
    + rewrite select_vote_delete_vote.
      rewrite !(sum_case_delete_vote _ _ _ 1 _ Hpk Hx). cbv [Z.opp]; cbn [Z.eqb Pos.eqb]. repeat split; lia.
    + rewrite (select_vote_update_vote _ _ _ _ He).
      rewrite !(sum_case_update_vote _ _ _ 1 (-1) _ Hpk Hx). cbv [Z.opp]; cbn [Z.eqb Pos.eqb].
      repeat split; lia.
    + rewrite (select_vote_update_vote _ _ _ _ He).
      rewrite !(sum_case_update_vote _ _ _ (-1) 1 _ Hpk Hx). cbv [Z.opp]; cbn [Z.eqb Pos.eqb].
      repeat split; lia.
    + rewrite select_vote_delete_vote.
      rewrite !(sum_case_delete_vote _ _ _ (-1) _ Hpk Hx). cbv [Z.opp]; cbn [Z.eqb Pos.eqb].
      repeat split; lia.
  - apply select_vote_None in Hx as He.
    rewrite (select_vote_insert _ _ _ _ He), !sum_case_insert.
    destruct Hv as [-> | ->]; cbv [Z.opp]; cbn [Z.eqb Pos.eqb]; repeat split; lia.
Qed.



(** X10.  A first like or dislike on a post that does not exist is refused by
    the foreign key: both handlers answer success=false with the message
    Server error., log Error updating vote: and leave the database as it was. *)
Theorem vote_on_missing_post (w : World) (r : Request) (userID : Z)
    (role : string) (postID : Z) :
  quiet w = true ->
  logged_in r w = Some (userID, role) ->
  Go.Atoi (Get (URL_Query r) "post_id") = Some postID ->
  post_exists postID (store w) = false ->
  select_vote userID postID (post_votes (store w)) = None ->
  ((LikeHandler r w).1
   = mkResponse StatusOK None (JSON (Message false "Server error."))
   /\ store (LikeHandler r w).2 = store w
   /\ In "Error updating vote:" (logs (LikeHandler r w).2))
  /\ ((DislikeHandler r w).1
      = mkResponse StatusOK None (JSON (Message false "Server error."))
      /\ store (DislikeHandler r w).2 = store w
      /\ In "Error updating vote:" (logs (DislikeHandler r w).2)).
Proof.
  intros Hq Hl Ha Hp Hsel.
  pose proof (Atoi_nonempty _ _ Ha) as Hne.
  apply select_vote_None in Hsel as He.
  destruct w as [d S ck f u t l].
  unfold quiet, logged_in, post_exists in *. cbn in *.
  unfold LikeHandler, DislikeHandler, IsAuthenticated. unfold_db.
  unfold upsert_post_vote. cbn.
  split; cases; repeat split; auto; apply in_or_app; right; left; reflexivity.
Qed.

Lemma vote_on_missing_post_witness :
  (LikeHandler (mkRequest "POST" (Some "tokB") {[ "post_id" := "8" ]} None) w0).1
  = mkResponse StatusOK None (JSON (Message false "Server error.")).
Proof.
  apply (vote_on_missing_post w0
           (mkRequest "POST" (Some "tokB") {[ "post_id" := "8" ]} None)
           2 "user" 8); reflexivity.
Defined.

(** ** Votes on comments *)

Lemma comment_like_store_toggle (userID commentID : Z) (d : DB) :
  comment_votes (comment_like_store userID commentID d)
  = toggle_vote userID commentID 1
      (user_exists userID d && comment_exists commentID d) (comment_votes d).
Proof.
  unfold comment_like_store, toggle_vote, upsert_comment_vote, user_exists,
    comment_exists.
  destruct (select_vote userID commentID (comment_votes d)) as [x|] eqn:Hx.
  - rewrite (existsb_select_vote _ _ _ _ Hx).
    destruct x as [|q|q]; try reflexivity. destruct q; reflexivity.
  - apply select_vote_None in Hx as ->.
    destruct (users d !! userID), (comments d !! commentID); reflexivity.
Qed.

Lemma comment_dislike_store_toggle (userID commentID : Z) (d : DB) :
  comment_votes (comment_dislike_store userID commentID d)
  = toggle_vote userID commentID (-1)
      (user_exists userID d && comment_exists commentID d) (comment_votes d).
Proof.
  unfold comment_dislike_store, toggle_vote, upsert_comment_vote, user_exists,
    comment_exists.
  destruct (select_vote userID commentID (comment_votes d)) as [x|] eqn:Hx.
  - rewrite (existsb_select_vote _ _ _ _ Hx).
    destruct x as [|q|q]; try reflexivity. destruct q; reflexivity.
  - apply select_vote_None in Hx as ->.
    destruct (users d !! userID), (comments d !! commentID); reflexivity.
Qed.

Lemma CommentLikeHandler_response (w : World) (r : Request) (userID : Z)
    (role : string) (commentID : Z) :
  quiet w = true ->
  Method r = "POST" ->
  logged_in r w = Some (userID, role) ->
  Go.Atoi (Get (URL_Query r) "comment_id") = Some commentID ->
  user_exists userID (store w) = true ->
  comment_exists commentID (store w) = true ->
  (CommentLikeHandler r w).1
  = mkResponse StatusOK None
      (JSON (VoteCounts
               (sum_case 1 (votes_of commentID
                  (comment_votes (comment_like_store userID commentID (store w)))))
               (sum_case (-1) (votes_of commentID
                  (comment_votes (comment_like_store userID commentID (store w)))))
               (default 0 (select_vote userID commentID
                  (comment_votes (comment_like_store userID commentID (store w)))))))
  /\ store (CommentLikeHandler r w).2
     = comment_like_store userID commentID (store w).
Proof.
  intros Hq Hm Hl Ha Hu Hp.
  pose proof (Atoi_nonempty _ _ Ha) as Hne.
  destruct w as [d S ck f u t l].
  unfold quiet, logged_in, user_exists, comment_exists in *. cbn in *.
  unfold CommentLikeHandler, IsAuthenticated, comment_like_store.
  unfold_db2. unfold_db. unfold upsert_comment_vote. rewrite Hm. cbn.
  cases;
    repeat match goal with
           | H : select_vote _ _ _ = _ |- _ => rewrite H
           end; split; reflexivity.
Qed.

Lemma CommentDislikeHandler_response (w : World) (r : Request) (userID : Z)
    (role : string) (commentID : Z) :
  quiet w = true ->
  Method r = "POST" ->
  logged_in r w = Some (userID, role) ->
  Go.Atoi (Get (URL_Query r) "comment_id") = Some commentID ->
  user_exists userID (store w) = true ->
  comment_exists commentID (store w) = true ->
  (CommentDislikeHandler r w).1
  = mkResponse StatusOK None
      (JSON (VoteCounts
               (sum_case 1 (votes_of commentID
                  (comment_votes (comment_dislike_store userID commentID (store w)))))
               (sum_case (-1) (votes_of commentID
                  (comment_votes (comment_dislike_store userID commentID (store w)))))
               (default 0 (select_vote userID commentID
                  (comment_votes (comment_dislike_store userID commentID (store w)))))))
  /\ store (CommentDislikeHandler r w).2
     = comment_dislike_store userID commentID (store w).
Proof.
  intros Hq Hm Hl Ha Hu Hp.
  pose proof (Atoi_nonempty _ _ Ha) as Hne.
  destruct w as [d S ck f u t l].
  unfold quiet, logged_in, user_exists, comment_exists in *. cbn in *.
  unfold CommentDislikeHandler, IsAuthenticated, comment_dislike_store.
  unfold_db2. unfold_db. unfold upsert_comment_vote. rewrite Hm. cbn.
  cases;
    repeat match goal with
           | H : select_vote _ _ _ = _ |- _ => rewrite H
           end; split; reflexivity.
Qed.

(** X11.  CommentLikeHandler and CommentDislikeHandler follow the same toggle
    table on comment_votes: for an authenticated POST on an existing comment
    without storage failure, the reply is 200 with the counts moved by the
    toggle and the user's vote after it, and the stored vote is that vote. *)
Theorem comment_vote_toggle (w : World) (r : Request) (userID : Z)
    (role : string) (commentID : Z) :
  quiet w = true ->
  Method r = "POST" ->
  logged_in r w = Some (userID, role) ->
  Go.Atoi (Get (URL_Query r) "comment_id") = Some commentID ->
  user_exists userID (store w) = true ->
  comment_exists commentID (store w) = true ->
  pk_unique (comment_votes (store w)) ->
  votes_check (comment_votes (store w)) = true ->
  let likes := sum_case 1 (votes_of commentID (comment_votes (store w))) in
  let dislikes := sum_case (-1) (votes_of commentID (comment_votes (store w))) in
  let after_like :=
    select_vote userID commentID
      (comment_votes (store (CommentLikeHandler r w).2)) in
  let after_dislike :=
    select_vote userID commentID
      (comment_votes (store (CommentDislikeHandler r w).2)) in
  match select_vote userID commentID (comment_votes (store w)) with
  | None =>
      ((CommentLikeHandler r w).1
       = mkResponse StatusOK None (JSON (VoteCounts (likes + 1) dislikes 1))
       /\ after_like = Some 1)
      /\ ((CommentDislikeHandler r w).1
          = mkResponse StatusOK None
              (JSON (VoteCounts likes (dislikes + 1) (-1)))
          /\ after_dislike = Some (-1))
  | Some 1 =>
      ((CommentLikeHandler r w).1
       = mkResponse StatusOK None (JSON (VoteCounts (likes - 1) dislikes 0))
       /\ after_like = None)
      /\ ((CommentDislikeHandler r w).1
          = mkResponse StatusOK None
              (JSON (VoteCounts (likes - 1) (dislikes + 1) (-1)))
          /\ after_dislike = Some (-1))
  | Some _ =>
      ((CommentLikeHandler r w).1
       = mkResponse StatusOK None
           (JSON (VoteCounts (likes + 1) (dislikes - 1) 1))
       /\ after_like = Some 1)
      /\ ((CommentDislikeHandler r w).1
          = mkResponse StatusOK None
              (JSON (VoteCounts likes (dislikes - 1) 0))
          /\ after_dislike = None)
  end.
Proof.
  intros Hq Hm Hl Ha Hu Hp Hpk Hck. cbn zeta.
  destruct (CommentLikeHandler_response w r userID role commentID
              Hq Hm Hl Ha Hu Hp) as [-> ->].
  destruct (CommentDislikeHandler_response w r userID role commentID
              Hq Hm Hl Ha Hu Hp) as [-> ->].
  rewrite comment_like_store_toggle, comment_dislike_store_toggle, Hu, Hp.
  cbn [andb].
  pose proof (toggle_vote_table userID commentID 1 _ (or_introl eq_refl) Hpk Hck)
    as HL.
  pose proof (toggle_vote_table userID commentID (-1) _ (or_intror eq_refl)
                Hpk Hck) as HD.
  cbn zeta in HL, HD. cbv [Z.opp] in HL, HD.
  destruct (select_vote userID commentID (comment_votes (store w)))
    as [x|] eqn:Hx.
  - destruct (votes_check_select _ _ _ _ Hck Hx) as [-> | ->];
      cbn [Z.eqb Pos.eqb] in HL, HD;
      destruct HL as (-> & -> & ->); destruct HD as (-> & -> & ->);
      repeat split; reflexivity.
  - destruct HL as (-> & -> & ->). destruct HD as (-> & -> & ->).
    repeat split; reflexivity.
Qed.

Lemma comment_vote_toggle_witness :
  ((CommentLikeHandler (comment_vote_req "tokA") w0).1
   = mkResponse StatusOK None (JSON (VoteCounts 0 0 0))
   /\ select_vote 1 3 (comment_votes (store (CommentLikeHandler
                                               (comment_vote_req "tokA") w0).2))
      = None)
  /\ ((CommentDislikeHandler (comment_vote_req "tokA") w0).1
      = mkResponse StatusOK None (JSON (VoteCounts 0 1 (-1)))
      /\ select_vote 1 3 (comment_votes (store (CommentDislikeHandler
                                                  (comment_vote_req "tokA") w0).2))
         = Some (-1)).
Proof.
  apply (comment_vote_toggle w0 (comment_vote_req "tokA") 1 "user" 3);
    try reflexivity.
  apply NoDup_cons_2; [apply not_elem_of_nil | apply NoDup_nil_2].
Defined.

Lemma CommentLikeHandler_effect (r : Request) (w : World) :
  (store (CommentLikeHandler r w).2 = store w
   \/ (exists c, store (CommentLikeHandler r w).2 = delete_session c (store w)))
  \/ exists userID role commentID t',
      logged_in r w = Some (userID, role)
      /\ Method r = "POST"
      /\ Go.Atoi (Get (URL_Query r) "comment_id") = Some commentID
      /\ store (CommentLikeHandler r w).2 = set_comment_votes t' (store w)
      /\ vote_write userID commentID 1
           (user_exists userID (store w) && comment_exists commentID (store w))
           (comment_votes (store w)) t'.
Proof.
  destruct w as [d S ck f u t l]. unfold logged_in, user_exists, comment_exists.
  unfold CommentLikeHandler, IsAuthenticated. unfold_db2. unfold_db.
  unfold upsert_comment_vote. cbn.
  destruct (String.eqb_spec (Method r) "POST") as [Hm|Hm]; cbn.
  2: { cases; eauto. }
  cases; eauto.
  all: right; eexists _, _, _, _; (split; [reflexivity|]); (split; [exact Hm|]);
    (split; [reflexivity|]); (split; [reflexivity|]).
  all: first [ apply vw_delete | apply vw_update | apply vw_insert;
               [ repeat match goal with H : _ !! _ = Some _ |- _ => rewrite H end; reflexivity | assumption ] ].
Qed.

Lemma CommentDislikeHandler_effect (r : Request) (w : World) :
  (store (CommentDislikeHandler r w).2 = store w
   \/ (exists c, store (CommentDislikeHandler r w).2 = delete_session c (store w)))
  \/ exists userID role commentID t',
      logged_in r w = Some (userID, role)
      /\ Method r = "POST"
      /\ Go.Atoi (Get (URL_Query r) "comment_id") = Some commentID
      /\ store (CommentDislikeHandler r w).2 = set_comment_votes t' (store w)
      /\ vote_write userID commentID (-1)
           (user_exists userID (store w) && comment_exists commentID (store w))
           (comment_votes (store w)) t'.
Proof.
  destruct w as [d S ck f u t l]. unfold logged_in, user_exists, comment_exists.
  unfold CommentDislikeHandler, IsAuthenticated. unfold_db2. unfold_db.
  unfold upsert_comment_vote. cbn.
  destruct (String.eqb_spec (Method r) "POST") as [Hm|Hm]; cbn.
  2: { cases; eauto. }
  cases; eauto.
  all: right; eexists _, _, _, _; (split; [reflexivity|]); (split; [exact Hm|]);
    (split; [reflexivity|]); (split; [reflexivity|]).
  all: first [ apply vw_delete | apply vw_update | apply vw_insert;
               [ repeat match goal with H : _ !! _ = Some _ |- _ => rewrite H end; reflexivity | assumption ] ].
Qed.

(** X12.  A comment like or dislike request changes at most the vote of its
    own (user, comment) pair: every other pair keeps its vote, and the post
    votes and the comments are untouched, whatever fails. *)
Theorem comment_vote_frame (r : Request) (w : World) (u c : Z) :
  (forall role, logged_in r w = Some (u, role) ->
                Go.Atoi (Get (URL_Query r) "comment_id") = Some c -> False) ->
  (select_vote u c (comment_votes (store (CommentLikeHandler r w).2))
   = select_vote u c (comment_votes (store w))
   /\ select_vote u c (comment_votes (store (CommentDislikeHandler r w).2))
      = select_vote u c (comment_votes (store w)))
  /\ post_votes (store (CommentLikeHandler r w).2) = post_votes (store w)
  /\ post_votes (store (CommentDislikeHandler r w).2) = post_votes (store w)
  /\ comments (store (CommentLikeHandler r w).2) = comments (store w)
  /\ comments (store (CommentDislikeHandler r w).2) = comments (store w).
Proof.
  intros Hnot.
  assert (Hframe : forall userID role commentID v ok t',
             logged_in r w = Some (userID, role) ->
             Go.Atoi (Get (URL_Query r) "comment_id") = Some commentID ->
             vote_write userID commentID v ok (comment_votes (store w)) t' ->
             select_vote u c t' = select_vote u c (comment_votes (store w))).
  { intros userID role commentID v ok t' Hl Ha Hw.
    apply (vote_write_other _ _ _ _ _ _ u c Hw).
    intros [-> ->]. exact (Hnot role Hl Ha). }
  destruct (CommentLikeHandler_effect r w)
    as [[HL | [x HL]] | (U1 & r1 & T1 & t1 & Hl1 & Hm1 & Ha1 & HL & Hw1)];
  destruct (CommentDislikeHandler_effect r w)
    as [[HD | [x' HD]] | (U2 & r2 & T2 & t2 & Hl2 & Hm2 & Ha2 & HD & Hw2)];
  rewrite HL, HD; cbn; repeat split; eauto.
Qed.

Lemma comment_vote_frame_witness :
  (select_vote 1 3 (comment_votes (store (CommentLikeHandler
                                            (comment_vote_req "tokB") w0).2))
   = select_vote 1 3 (comment_votes (store w0))
   /\ select_vote 1 3 (comment_votes (store (CommentDislikeHandler
                                               (comment_vote_req "tokB") w0).2))
      = select_vote 1 3 (comment_votes (store w0)))
  /\ post_votes (store (CommentLikeHandler (comment_vote_req "tokB") w0).2)
     = post_votes (store w0)
  /\ post_votes (store (CommentDislikeHandler (comment_vote_req "tokB") w0).2)
     = post_votes (store w0)
  /\ comments (store (CommentLikeHandler (comment_vote_req "tokB") w0).2)
     = comments (store w0)
  /\ comments (store (CommentDislikeHandler (comment_vote_req "tokB") w0).2)
     = comments (store w0).
Proof.
  apply (comment_vote_frame (comment_vote_req "tokB") w0 1 3).
  intros role H _. vm_compute in H. discriminate H.
Defined.

(** X13.  What CommentLikeHandler refuses: without a live session the reply is
    the redirect 303 to /?message=Login+please and no comment vote changes;
    with one, a method other than POST gets 405 Method not allowed. and a
    comment_id that is no number gets 400, the database staying as it was. *)
Theorem comment_vote_rejected (r : Request) (w : World) :
  (logged_in r w = None ->
   (CommentLikeHandler r w).1
   = mkResponse StatusSeeOther None (Redirect "/?message=Login+please")
   /\ comment_votes (store (CommentLikeHandler r w).2) = comment_votes (store w))
  /\ (forall u role,
        logged_in r w = Some (u, role) -> hd false (faults w) = false ->
        (Method r <> "POST" ->
         (CommentLikeHandler r w).1
         = mkResponse StatusMethodNotAllowed None
             (JSON (Message false "Method not allowed."))
         /\ store (CommentLikeHandler r w).2 = store w)
        /\ (Method r = "POST" ->
            Go.Atoi (Get (URL_Query r) "comment_id") = None ->
            Status (CommentLikeHandler r w).1 = StatusBadRequest
            /\ store (CommentLikeHandler r w).2 = store w)).
Proof.
  destruct w as [d S ck f u t l]. unfold logged_in.
  unfold CommentLikeHandler, IsAuthenticated. unfold_db2. unfold_db.
  unfold upsert_comment_vote. cbn.
  split.
  - cases; intros; try discriminate; auto.
  - intros U role Hl Hf. split.
    + intros Hm. apply String.eqb_neq in Hm. rewrite Hm. cases; auto.
    + intros Hm Ha. rewrite Hm, Ha. cases; auto.
Qed.

Lemma comment_vote_rejected_witness :
  (CommentLikeHandler (comment_vote_req "gone") w0).1
  = mkResponse StatusSeeOther None (Redirect "/?message=Login+please")
  /\ comment_votes (store (CommentLikeHandler (comment_vote_req "gone") w0).2)
     = comment_votes (store w0).
Proof.
  apply (proj1 (comment_vote_rejected (comment_vote_req "gone") w0)).
  reflexivity.
Defined.

(** ** Rights and failures of the delete handlers *)

Ltac step_k Hm :=
  split; [reflexivity|]; split; [exact Hm|]; split; [reflexivity|];
  split; [eassumption|]; split; [assumption|]; split; [lia|];
  split; [reflexivity|]; split; [reflexivity|];
  split; intros Hk; first [reflexivity | lia | discriminate Hk].

Lemma DeletePostHandler_effect (r : Request) (w : World) :
  exists new : list Stmt,
    trace (DeletePostHandler r w).2 = (trace w ++ new)%list
    /\ ((List.filter is_removal new = []
         /\ success_of (DeletePostHandler r w).1 = Some false
         /\ (store (DeletePostHandler r w).2 = store w
             \/ exists c, store (DeletePostHandler r w).2
                          = delete_session c (store w)))
        \/ exists (u : Z) (role : string) (postID : Z) (post : PostRow) (k : nat),
            logged_in r w = Some (u, role)
            /\ Method r = "DELETE"
            /\ Go.Atoi (Get (URL_Query r) "post_id") = Some postID
            /\ posts (store w) !! postID = Some post
            /\ (u =? p_user_id post) || String.eqb role "admin" = true
            /\ (k <= 4)%nat
            /\ store (DeletePostHandler r w).2
               = run_steps (firstn k (post_steps postID)) (store w)
            /\ List.filter is_removal new
               = firstn (S k) (post_removals postID)
            /\ ((k < 4)%nat -> (DeletePostHandler r w).1 = server_error)
            /\ (k = 4%nat -> success_of (DeletePostHandler r w).1 = Some true)).
Proof.
  destruct w as [d S ck f u t l]. unfold logged_in, server_error.
  unfold DeletePostHandler, IsAuthenticated. unfold_db. cbn.
  destruct (String.eqb_spec (Method r) "DELETE") as [Hm|Hm]; cbn.
  2: { exists []. rewrite app_nil_r. split; [reflexivity|]. left. auto. }
  cases; repeat rewrite <- app_assoc; cbn;
    first [ exists []; split; [symmetry; apply app_nil_r|]
          | eexists; split; [reflexivity|] ];
    try (left; cbn; split; [reflexivity|]; split; [reflexivity|]; eauto; fail).
  all: right; eexists _, _, _, _.
  all: match goal with
       | H : negb _ && negb _ = false |- _ =>
           rewrite <- negb_orb in H; apply negb_false_iff in H
       end.
  all: first [ exists 0%nat; step_k Hm | exists 1%nat; step_k Hm
             | exists 2%nat; step_k Hm | exists 3%nat; step_k Hm
             | exists 4%nat; step_k Hm ].
Qed.

Ltac step_c Hm :=
  split; [reflexivity|]; split; [exact Hm|]; split; [reflexivity|];
  split; [eassumption|]; split; [assumption|]; split; [lia|];
  split; [reflexivity|]; split; [reflexivity|];
  split; intros Hk; first [reflexivity | lia | discriminate Hk].

Lemma DeleteCommentHandler_effect (r : Request) (w : World) :
  exists new : list Stmt,
    trace (DeleteCommentHandler r w).2 = (trace w ++ new)%list
    /\ ((List.filter is_removal new = []
         /\ success_of (DeleteCommentHandler r w).1 = Some false
         /\ (store (DeleteCommentHandler r w).2 = store w
             \/ exists c, store (DeleteCommentHandler r w).2
                          = delete_session c (store w)))
        \/ exists (u : Z) (role : string) (commentID : Z) (comment : CommentRow)
                  (k : nat),
            logged_in r w = Some (u, role)
            /\ Method r = "DELETE"
            /\ Go.Atoi (Get (URL_Query r) "comment_id") = Some commentID
            /\ comments (store w) !! commentID = Some comment
            /\ String.eqb role "admin" || (u =? c_user_id comment) = true
            /\ (k <= 2)%nat
            /\ store (DeleteCommentHandler r w).2
               = run_steps (firstn k (comment_steps commentID)) (store w)
            /\ List.filter is_removal new
               = firstn (S k) (comment_removals commentID)
            /\ ((k < 2)%nat -> (DeleteCommentHandler r w).1 = server_error)
            /\ (k = 2%nat -> success_of (DeleteCommentHandler r w).1 = Some true)).
Proof.
  destruct w as [d S ck f u t l]. unfold logged_in, server_error.
  unfold DeleteCommentHandler, IsAuthenticated. unfold_db. cbn.
  destruct (String.eqb_spec (Method r) "DELETE") as [Hm|Hm]; cbn.
  2: { exists []. rewrite app_nil_r. split; [reflexivity|]. left. auto. }
  cases; repeat rewrite <- app_assoc; cbn;
    first [ exists []; split; [symmetry; apply app_nil_r|]
          | eexists; split; [reflexivity|] ];
    try (left; cbn; split; [reflexivity|]; split; [reflexivity|]; eauto; fail).
  all: right; eexists _, _, _, _.
  all: match goal with
       | H : negb _ && negb _ = false |- _ =>
           rewrite <- negb_orb in H; apply negb_false_iff in H
       end.
  all: first [ exists 0%nat; step_c Hm | exists 1%nat; step_c Hm
             | exists 2%nat; step_c Hm ].
Qed.

Lemma filter_app_removals (t new : list Stmt) :
  List.filter is_removal new = [] ->
  List.filter is_removal (t ++ new) = List.filter is_removal t.
Proof. intros H. rewrite List.filter_app, H. apply app_nil_r. Qed.

(** X14.  DeletePostHandler sends no removal to the database unless the
    request comes from the owner of the post it names or from an admin:
    otherwise, whatever fails, no DELETE on posts, categories, comments or
    votes is issued, these tables are unchanged and the reply is not a
    success; when the session and the owner are read the reply is 403
    Unauthorized. *)
Theorem delete_post_needs_rights (r : Request) (w : World) :
  (forall u role postID post,
      logged_in r w = Some (u, role) ->
      Go.Atoi (Get (URL_Query r) "post_id") = Some postID ->
      posts (store w) !! postID = Some post ->
      (u =? p_user_id post) || String.eqb role "admin" = false) ->
  (List.filter is_removal (trace (DeletePostHandler r w).2)
   = List.filter is_removal (trace w)
   /\ success_of (DeletePostHandler r w).1 = Some false
   /\ posts (store (DeletePostHandler r w).2) = posts (store w)
   /\ post_categories (store (DeletePostHandler r w).2) = post_categories (store w)
   /\ comments (store (DeletePostHandler r w).2) = comments (store w)
   /\ post_votes (store (DeletePostHandler r w).2) = post_votes (store w)
   /\ comment_votes (store (DeletePostHandler r w).2) = comment_votes (store w))
  /\ (forall u role postID post,
        Method r = "DELETE" ->
        logged_in r w = Some (u, role) ->
        Go.Atoi (Get (URL_Query r) "post_id") = Some postID ->
        posts (store w) !! postID = Some post ->
        hd false (faults w) = false ->
        hd false (tl (faults w)) = false ->
        (DeletePostHandler r w).1
        = mkResponse StatusForbidden None (JSON (Message false "Unauthorized."))).
Proof.
  intros Hno. split.
  - destruct (DeletePostHandler_effect r w)
      as (new & Ht & [(Hf & Hs & Hst)
                     | (u & role & p & post & k & Hl & _ & Ha & Hp & Hr & _)]).
    + rewrite Ht, (filter_app_removals _ _ Hf).
      destruct Hst as [-> | [c ->]]; repeat split; auto.
    + rewrite (Hno u role p post Hl Ha Hp) in Hr. discriminate Hr.
  - intros u role p post Hm Hl Ha Hp Hf1 Hf2.
    specialize (Hno u role p post Hl Ha Hp).
    pose proof (Atoi_nonempty _ _ Ha) as Hne.
    destruct w as [d S ck f us t l]. unfold logged_in in *. cbn in *.
    unfold DeletePostHandler, IsAuthenticated. unfold_db. rewrite Hm. cbn.
    apply orb_false_iff in Hno as [Hn1 Hn2].
    cases.
    all: match goal with
         | H : negb _ && negb _ = false |- _ =>
             rewrite Hn1, Hn2 in H; discriminate H
         end.
Qed.

Lemma delete_post_needs_rights_witness :
  (List.filter is_removal (trace (DeletePostHandler (delete_post_req "tokB") w0).2)
   = List.filter is_removal (trace w0)
   /\ success_of (DeletePostHandler (delete_post_req "tokB") w0).1 = Some false
   /\ posts (store (DeletePostHandler (delete_post_req "tokB") w0).2)
      = posts (store w0)
   /\ post_categories (store (DeletePostHandler (delete_post_req "tokB") w0).2)
      = post_categories (store w0)
   /\ comments (store (DeletePostHandler (delete_post_req "tokB") w0).2)
      = comments (store w0)
   /\ post_votes (store (DeletePostHandler (delete_post_req "tokB") w0).2)
      = post_votes (store w0)
   /\ comment_votes (store (DeletePostHandler (delete_post_req "tokB") w0).2)
      = comment_votes (store w0))
  /\ (DeletePostHandler (delete_post_req "tokB") w0).1
     = mkResponse StatusForbidden None (JSON (Message false "Unauthorized.")).
Proof.
  assert (Hno : forall u role postID post,
             logged_in (delete_post_req "tokB") w0 = Some (u, role) ->
             Go.Atoi (Get (URL_Query (delete_post_req "tokB")) "post_id")
             = Some postID ->
             posts (store w0) !! postID = Some post ->
             (u =? p_user_id post) || String.eqb role "admin" = false).
  { intros u role postID post Hl Ha Hp. vm_compute in Hl, Ha.
    injection Hl as <- <-. injection Ha as <-. vm_compute in Hp.
    injection Hp as <-. reflexivity. }
  destruct (delete_post_needs_rights (delete_post_req "tokB") w0 Hno) as [H1 H2].
  split; [exact H1|].
  apply (H2 2 "user" 7 (mkPost 1 "title" "text")); reflexivity.
Defined.

(** X15.  DeleteCommentHandler sends no removal to the database unless the
    request comes from the owner of the comment it names or from an admin:
    otherwise no DELETE is issued, comments and comment_votes are unchanged
    and the reply is not a success; when the session and the owner are read
    the reply is 403 Unauthorized. *)
Theorem delete_comment_needs_rights (r : Request) (w : World) :
  (forall u role commentID comment,
      logged_in r w = Some (u, role) ->
      Go.Atoi (Get (URL_Query r) "comment_id") = Some commentID ->
      comments (store w) !! commentID = Some comment ->
      String.eqb role "admin" || (u =? c_user_id comment) = false) ->
  (List.filter is_removal (trace (DeleteCommentHandler r w).2)
   = List.filter is_removal (trace w)
   /\ success_of (DeleteCommentHandler r w).1 = Some false
   /\ comments (store (DeleteCommentHandler r w).2) = comments (store w)
   /\ comment_votes (store (DeleteCommentHandler r w).2) = comment_votes (store w))
  /\ (forall u role commentID comment,
        Method r = "DELETE" ->
        logged_in r w = Some (u, role) ->
        Go.Atoi (Get (URL_Query r) "comment_id") = Some commentID ->
        comments (store w) !! commentID = Some comment ->
        hd false (faults w) = false ->
        hd false (tl (faults w)) = false ->
        (DeleteCommentHandler r w).1
        = mkResponse StatusForbidden None (JSON (Message false "Unauthorized."))).
Proof.
  intros Hno. split.
  - destruct (DeleteCommentHandler_effect r w)
      as (new & Ht & [(Hf & Hs & Hst)
                     | (u & role & p & post & k & Hl & _ & Ha & Hp & Hr & _)]).
    + rewrite Ht, (filter_app_removals _ _ Hf).
      destruct Hst as [-> | [c ->]]; repeat split; auto.
    + rewrite (Hno u role p post Hl Ha Hp) in Hr. discriminate Hr.
  - intros u role p post Hm Hl Ha Hp Hf1 Hf2.
    specialize (Hno u role p post Hl Ha Hp).
    pose proof (Atoi_nonempty _ _ Ha) as Hne.
    destruct w as [d S ck f us t l]. unfold logged_in in *. cbn in *.
    unfold DeleteCommentHandler, IsAuthenticated. unfold_db. rewrite Hm. cbn.
    apply orb_false_iff in Hno as [Hn1 Hn2].
    cases.
    all: match goal with
         | H : negb _ && negb _ = false |- _ =>
             rewrite Hn1, Hn2 in H; discriminate H
         end.
Qed.

Lemma delete_comment_needs_rights_witness :
  (List.filter is_removal
     (trace (DeleteCommentHandler (delete_comment_req "tokA") w0).2)
   = List.filter is_removal (trace w0)
   /\ success_of (DeleteCommentHandler (delete_comment_req "tokA") w0).1
      = Some false
   /\ comments (store (DeleteCommentHandler (delete_comment_req "tokA") w0).2)
      = comments (store w0)
   /\ comment_votes (store (DeleteCommentHandler (delete_comment_req "tokA") w0).2)
      = comment_votes (store w0))
  /\ (DeleteCommentHandler (delete_comment_req "tokA") w0).1
     = mkResponse StatusForbidden None (JSON (Message false "Unauthorized.")).
Proof.
  assert (Hno : forall u role commentID comment,
             logged_in (delete_comment_req "tokA") w0 = Some (u, role) ->
             Go.Atoi (Get (URL_Query (delete_comment_req "tokA")) "comment_id")
             = Some commentID ->
             comments (store w0) !! commentID = Some comment ->
             String.eqb role "admin" || (u =? c_user_id comment) = false).
  { intros u role commentID comment Hl Ha Hp. vm_compute in Hl, Ha.
    injection Hl as <- <-. injection Ha as <-. vm_compute in Hp.
    injection Hp as <-. reflexivity. }
  destruct (delete_comment_needs_rights (delete_comment_req "tokA") w0 Hno)
    as [H1 H2].
  split; [exact H1|].
  apply (H2 1 "user" 3 (mkComment 7 2 "first" 5)); reflexivity.
Defined.

(** X16.  When the read of the owner fails for another reason than a missing
    row, DeletePostHandler answers 404 Post not found. even for a post that
    exists, and DeleteCommentHandler compares the user with the owner id 0
    that the failed read returned: 403 for a user who is neither admin nor
    user 0, 500 otherwise. Nothing is removed in either case. *)
Theorem delete_owner_lookup_failure (r : Request) (w : World) (u : Z)
    (role : string) (id : Z) :
  Method r = "DELETE" ->
  logged_in r w = Some (u, role) ->
  hd false (faults w) = false ->
  hd false (tl (faults w)) = true ->
  (Go.Atoi (Get (URL_Query r) "post_id") = Some id ->
   (DeletePostHandler r w).1
   = mkResponse StatusNotFound None (JSON (Message false "Post not found."))
   /\ store (DeletePostHandler r w).2 = store w)
  /\ (Go.Atoi (Get (URL_Query r) "comment_id") = Some id ->
      (DeleteCommentHandler r w).1
      = (if String.eqb role "admin" || (u =? 0) then server_error
         else mkResponse StatusForbidden None
                (JSON (Message false "Unauthorized.")))
      /\ store (DeleteCommentHandler r w).2 = store w).
Proof.
  intros Hm Hl Hf1 Hf2.
  destruct w as [d S ck f us t l]. unfold logged_in, server_error in *.
  cbn in *. split; intros Ha; pose proof (Atoi_nonempty _ _ Ha) as Hne.
  - unfold DeletePostHandler, IsAuthenticated. unfold_db. rewrite Hm. cbn.
    cases; auto.
  - unfold DeleteCommentHandler, IsAuthenticated. unfold_db. rewrite Hm. cbn.
    cases; auto.
    all: exfalso;
      repeat match goal with
             | H : context [String.eqb ?a ?b] |- _ => destruct (String.eqb a b)
             | H : context [Z.eqb ?a ?b] |- _ => destruct (Z.eqb a b)
             end; discriminate.
Qed.

Lemma delete_owner_lookup_failure_witness :
  (DeleteCommentHandler (delete_comment_req "tokB")
     (with_faults [false; true] w0)).1
  = mkResponse StatusForbidden None (JSON (Message false "Unauthorized."))
  /\ store (DeleteCommentHandler (delete_comment_req "tokB")
              (with_faults [false; true] w0)).2
     = store (with_faults [false; true] w0).
Proof.
  apply (proj2 (delete_owner_lookup_failure (delete_comment_req "tokB")
                  (with_faults [false; true] w0) 2 "user" 3
                  eq_refl eq_refl eq_refl eq_refl)).
  reflexivity.
Defined.

(** X17.  No rollback in DeletePostHandler: when the k-th of its four removals
    fails (k < 4), the reply is 500 Server error., the removals before it stay
    done (categories, then comments with their votes, then post votes) and the
    post row itself is still there. *)
Theorem delete_post_partial_failure (r : Request) (w : World) (u : Z)
    (role : string) (postID : Z) (post : PostRow) (k : nat) (rest : list bool) :
  Method r = "DELETE" ->
  logged_in r w = Some (u, role) ->
  Go.Atoi (Get (URL_Query r) "post_id") = Some postID ->
  posts (store w) !! postID = Some post ->
  (u =? p_user_id post) || String.eqb role "admin" = true ->
  (k < 4)%nat ->
  faults w = (repeat false (2 + k) ++ true :: rest)%list ->
  (DeletePostHandler r w).1 = server_error
  /\ store (DeletePostHandler r w).2
     = run_steps (firstn k (post_steps postID)) (store w)
  /\ posts (store (DeletePostHandler r w).2) !! postID = Some post
  /\ faults (DeletePostHandler r w).2 = rest.
Proof.
  intros Hm Hl Ha Hp Hr Hk Hf.
  pose proof (Atoi_nonempty _ _ Ha) as Hne.
  destruct w as [d S ck f us t l]. unfold logged_in, server_error in *.
  cbn in *. subst f.
  unfold DeletePostHandler, IsAuthenticated. unfold_db. rewrite Hm. cbn.
  destruct k as [|[|[|[|k]]]]; try lia; cbn; cases;
    try (destruct (_ =? _), (String.eqb _ _); discriminate); auto.
Qed.

Lemma delete_post_partial_failure_witness :
  (DeletePostHandler (delete_post_req "tokA")
     (with_faults [false; false; false; false; true] w0)).1 = server_error
  /\ store (DeletePostHandler (delete_post_req "tokA")
              (with_faults [false; false; false; false; true] w0)).2
     = run_steps (firstn 2 (post_steps 7)) (store w0)
  /\ posts (store (DeletePostHandler (delete_post_req "tokA")
              (with_faults [false; false; false; false; true] w0)).2) !! 7
     = Some (mkPost 1 "title" "text")
  /\ faults (DeletePostHandler (delete_post_req "tokA")
               (with_faults [false; false; false; false; true] w0)).2 = [].
Proof.
  apply (delete_post_partial_failure (delete_post_req "tokA")
           (with_faults [false; false; false; false; true] w0)
           1 "user" 7 (mkPost 1 "title" "text") 2 []);
    first [reflexivity | lia].
Defined.

Lemma filter_filter_sub {A : Type} (f f' g : A -> bool) (l : list A) :
  (forall x, g x = true -> f' x = f x) ->
  (forall x, f x = true -> g x = true) ->
  List.filter f' (List.filter g l) = List.filter f l.
Proof.
  intros Hff Hfg. induction l as [|a l IH]; [reflexivity|]. cbn.
  destruct (g a) eqn:Hg; cbn.
  - rewrite (Hff a Hg). destruct (f a); [f_equal|]; exact IH.
  - destruct (f a) eqn:Hf; [|exact IH].
    rewrite (Hfg a Hf) in Hg. discriminate Hg.
Qed.

Section OtherPost.

Variables postID p : Z.
Hypothesis other : p <> postID.

Lemma categories_other (l : list (Z * Z)) :
  List.filter (fun pc : Z * Z => pc.1 =? p)
    (List.filter (fun pc : Z * Z => negb (pc.1 =? postID)) l)
  = List.filter (fun pc : Z * Z => pc.1 =? p) l.
Proof.
  apply filter_filter_sub; [reflexivity|].
  intros x Hx. apply Z.eqb_eq in Hx. apply negb_true_iff, Z.eqb_neq. congruence.
Qed.

Lemma votes_of_other (t : list VoteRow) :
  votes_of p (delete_votes_of postID t) = votes_of p t.
Proof.
  apply filter_filter_sub; [reflexivity|].
  intros x Hx. apply Z.eqb_eq in Hx. apply negb_true_iff, Z.eqb_neq. congruence.
Qed.

Lemma comments_other (cs : gmap Z CommentRow) :
  filter (fun kv : Z * CommentRow => c_post_id kv.2 = p)
    (comments_without_post postID cs)
  = filter (fun kv : Z * CommentRow => c_post_id kv.2 = p) cs.
Proof.
  unfold comments_without_post. apply map_eq. intros i.
  destruct (filter (fun kv : Z * CommentRow => c_post_id kv.2 = p) cs !! i)
    as [c|] eqn:E.
  - apply map_lookup_filter_Some in E as [Hc Hp]. cbn in Hp.
    apply map_lookup_filter_Some. split; [|exact Hp].
    apply map_lookup_filter_Some. split; [exact Hc|]. cbn. congruence.
  - apply map_lookup_filter_None. apply map_lookup_filter_None in E.
    destruct E as [E|E].
    + left. apply map_lookup_filter_None. left. exact E.
    + right. intros c Hc. apply map_lookup_filter_Some in Hc as [Hc _].
      exact (E c Hc).
Qed.

Lemma comment_votes_other (cs : gmap Z CommentRow) (t : list VoteRow) :
  List.filter (on_post p (comments_without_post postID cs))
    (votes_without_post postID cs t)
  = List.filter (on_post p cs) t.
Proof.
  unfold votes_without_post. apply filter_filter_sub.
  - intros x Hx. unfold on_post, comments_without_post.
    destruct (cs !! vote_target x) as [c|] eqn:E.
    + apply negb_true_iff, Z.eqb_neq in Hx.
      assert (Hk : filter (fun kv : Z * CommentRow => c_post_id kv.2 <> postID) cs
                     !! vote_target x = Some c)
        by (apply map_lookup_filter_Some; split; [exact E | exact Hx]).
      rewrite Hk. reflexivity.
    + assert (Hk : filter (fun kv : Z * CommentRow => c_post_id kv.2 <> postID) cs
                     !! vote_target x = None)
        by (apply map_lookup_filter_None; left; exact E).
      rewrite Hk. reflexivity.
  - intros x. unfold on_post. destruct (cs !! vote_target x) as [c|]; [|discriminate].
    intros Hx. apply Z.eqb_eq in Hx. apply negb_true_iff, Z.eqb_neq. congruence.
Qed.

Lemma post_view_delete_post_categories (d : DB) :
  post_view p (delete_post_categories postID d) = post_view p d.
Proof.
  unfold post_view, delete_post_categories. cbn [posts post_categories post_votes comments comment_votes].
  rewrite categories_other. reflexivity.
Qed.

Lemma post_view_delete_post_comments (d : DB) :
  post_view p (delete_post_comments postID d) = post_view p d.
Proof.
  unfold post_view, delete_post_comments. cbn [posts post_categories post_votes comments comment_votes].
  rewrite comments_other, comment_votes_other. reflexivity.
Qed.

Lemma post_view_delete_post_votes (d : DB) :
  post_view p (delete_post_votes postID d) = post_view p d.
Proof.
  unfold post_view, delete_post_votes. cbn [posts post_categories post_votes comments comment_votes].
  rewrite votes_of_other. reflexivity.
Qed.

Lemma post_view_delete_post (d : DB) :
  post_view p (delete_post postID d) = post_view p d.
Proof.
  unfold post_view, delete_post. cbn [posts post_categories post_votes comments comment_votes].
  rewrite categories_other, votes_of_other, comments_other, comment_votes_other.
  rewrite lookup_delete_ne by congruence. reflexivity.
Qed.

Lemma post_view_post_steps (k : nat) (d : DB) :
  post_view p (run_steps (firstn k (post_steps postID)) d) = post_view p d.
Proof.
  destruct k as [|[|[|[|k]]]]; cbn; try rewrite firstn_nil; cbn;
    repeat first [ rewrite post_view_delete_post
                 | rewrite post_view_delete_post_votes
                 | rewrite post_view_delete_post_comments
                 | rewrite post_view_delete_post_categories ];
    reflexivity.
Qed.

End OtherPost.

(** X18.  DeletePostHandler leaves every other post alone: a post that the
    request does not name keeps its row, its categories, its votes, its
    comments and the votes on them, and no user is touched, whatever the
    request and whatever fails. *)
Theorem delete_post_frame (r : Request) (w : World) (p : Z) :
  Go.Atoi (Get (URL_Query r) "post_id") <> Some p ->
  post_view p (store (DeletePostHandler r w).2) = post_view p (store w)
  /\ users (store (DeletePostHandler r w).2) = users (store w).
Proof.
  intros Hp.
  destruct (DeletePostHandler_effect r w)
    as (new & _ & [(_ & _ & [-> | [c ->]])
                  | (u & role & q & post & k & _ & _ & Ha & _ & _ & _ & -> & _)]).
  - auto.
  - split; reflexivity.
  - split.
    + apply post_view_post_steps. intros ->. exact (Hp Ha).
    + destruct k as [|[|[|[|k]]]]; cbn; try rewrite firstn_nil; reflexivity.
Qed.

Lemma delete_post_frame_witness :
  post_view 8 (store (DeletePostHandler (delete_post_req "tokA") w0).2)
  = post_view 8 (store w0)
  /\ users (store (DeletePostHandler (delete_post_req "tokA") w0).2)
     = users (store w0).
Proof.
  apply (delete_post_frame (delete_post_req "tokA") w0 8). discriminate.
Defined.

(** ** Creating comments *)

Lemma fold_max_bound (l : list Z) (k : Z) :
  In k l -> k <= fold_right Z.max 0 l.
Proof.
  induction l as [|a l IH]; [intros []|]. cbn [fold_right In].
  intros [-> | Hin]; [lia|]. specialize (IH Hin). lia.
Qed.

Lemma max_rowid_bound (cs : gmap Z CommentRow) (k : Z) (c : CommentRow) :
  cs !! k = Some c -> k <= max_rowid cs.
Proof.
  intros Hk. unfold max_rowid. apply fold_max_bound.
  apply in_map_iff. exists (k, c). split; [reflexivity|].
  apply list_elem_of_In, elem_of_map_to_list. exact Hk.
Qed.

Lemma trimmed_long_nonempty (s : string) :
  3 <= Go.len (Go.TrimSpace s) ->
  String.eqb s "" = false /\ String.eqb (Go.TrimSpace s) "" = false.
Proof.
  intros H. split.
  - destruct s; [|reflexivity]. vm_compute in H. exfalso. apply H. reflexivity.
  - destruct (Go.TrimSpace s); [|reflexivity].
    vm_compute in H. exfalso. apply H. reflexivity.
Qed.

(** X19.  A comment that passes the checks of CommentHandler is stored under
    an id greater than every id in use or used before, with the post, the
    user, the content as sent and the instant of the request; the comments
    already stored are unchanged. The reply carries that id and the author's
    name, and if the name cannot be read the reply is 500 while the comment
    stays stored. *)
Theorem comment_created (r : Request) (w : World) (u : Z) (role : string)
    (p : Z) (usr : UserRow) :
  Method r = "POST" ->
  logged_in r w = Some (u, role) ->
  is_Some (Form r) ->
  Go.Atoi (FormValue r "post_id") = Some p ->
  3 <= Go.len (Go.TrimSpace (FormValue r "content")) <= 500 ->
  post_exists p (store w) = true ->
  users (store w) !! u = Some usr ->
  hd false (faults w) = false ->
  hd false (tl (faults w)) = false ->
  let id := next_comment_id (store w) in
  let content := FormValue r "content" in
  comments (store w) !! id = None
  /\ (forall k c, comments (store w) !! k = Some c ->
        k < id /\ comments (store (CommentHandler r w).2) !! k = Some c)
  /\ comments_seq (store w) < id
  /\ comments (store (CommentHandler r w).2)
     = <[id := mkComment p u content (clock w)]> (comments (store w))
  /\ comments_seq (store (CommentHandler r w).2) = id
  /\ (CommentHandler r w).1
     = (if hd false (tl (tl (faults w))) then server_error
        else mkResponse StatusOK None
               (JSON (NewComment id content u (u_username usr) (clock w)))).
Proof.
  intros Hm Hl [form Hform] Ha Hlen Hp Hu Hf1 Hf2. cbn zeta.
  pose proof (Atoi_nonempty _ _ Ha) as Hne.
  destruct (trimmed_long_nonempty _ (proj1 Hlen)) as [Hc Ht].
  assert (H3 : (Go.len (Go.TrimSpace (FormValue r "content")) <? 3) = false)
    by (apply Z.ltb_ge; lia).
  assert (H5 : (500 <? Go.len (Go.TrimSpace (FormValue r "content"))) = false)
    by (apply Z.ltb_ge; lia).
  assert (Hfresh : forall k c, comments (store w) !! k = Some c ->
                               k < next_comment_id (store w)).
  { intros k c Hk. apply max_rowid_bound in Hk. unfold next_comment_id. lia. }
  assert (Hnone : comments (store w) !! next_comment_id (store w) = None).
  { destruct (comments (store w) !! next_comment_id (store w)) as [c|] eqn:E;
      [|reflexivity]. apply Hfresh in E. lia. }
  assert (Hseq : comments_seq (store w) < next_comment_id (store w))
    by (unfold next_comment_id; lia).
  split; [exact Hnone|].
  split; [|split; [exact Hseq|]].
  { intros k c Hk. split; [exact (Hfresh k c Hk)|]. revert Hk Hnone.
    destruct w as [d S ck f us t l].
    unfold logged_in, post_exists, next_comment_id in *. cbn in *.
    unfold CommentHandler, IsAuthenticated. unfold_db. unfold insert_comment.
    remember (FormValue r "content") as content.
    remember (FormValue r "post_id") as pid.
    rewrite Hm, Hform. cbn. rewrite Hne, Hc, Ha. cbn. rewrite Ht, H3, H5. cbn.
    cases; intros Hk Hnone; try exact Hk.
    all: rewrite lookup_insert_ne by congruence; exact Hk. }
  clear Hfresh Hnone Hseq.
  destruct w as [d S ck f us t l].
  unfold logged_in, post_exists, server_error, next_comment_id in *. cbn in *.
  unfold CommentHandler, IsAuthenticated. unfold_db. unfold insert_comment.
  remember (FormValue r "content") as content.
  remember (FormValue r "post_id") as pid.
  rewrite Hm, Hform. cbn. rewrite Hne, Hc, Ha. cbn. rewrite Ht, H3, H5. cbn.
  cases; auto.
Qed.

Lemma comment_created_witness :
  comments (store w0) !! 4 = None
  /\ (forall k c, comments (store w0) !! k = Some c ->
        k < 4
        /\ comments (store (CommentHandler (comment_req "tokB" "  hello ") w0).2)
             !! k = Some c)
  /\ comments_seq (store w0) < 4
  /\ comments (store (CommentHandler (comment_req "tokB" "  hello ") w0).2)
     = <[4 := mkComment 7 2 "  hello " 10]> (comments (store w0))
  /\ comments_seq (store (CommentHandler (comment_req "tokB" "  hello ") w0).2) = 4
  /\ (CommentHandler (comment_req "tokB" "  hello ") w0).1
     = mkResponse StatusOK None (JSON (NewComment 4 "  hello " 2 "bob" 10)).
Proof.
  apply (comment_created (comment_req "tokB" "  hello ") w0 2 "user" 7
           (mkUser "bob@forum.io" "bob" "hash-b" "user"));
    first [reflexivity | (eexists; reflexivity) | (vm_compute; split; discriminate)].
Defined.

(** X20.  A valid comment for a post that does not exist is refused by the
    foreign key: CommentHandler answers 500 Server error., logs Error
    inserting comment: and stores nothing. *)
Theorem comment_on_missing_post (r : Request) (w : World) (u : Z)
    (role : string) (p : Z) :
  Method r = "POST" ->
  logged_in r w = Some (u, role) ->
  is_Some (Form r) ->
  Go.Atoi (FormValue r "post_id") = Some p ->
  3 <= Go.len (Go.TrimSpace (FormValue r "content")) <= 500 ->
  post_exists p (store w) = false ->
  hd false (faults w) = false ->
  (CommentHandler r w).1 = server_error
  /\ store (CommentHandler r w).2 = store w
  /\ In "Error inserting comment:" (logs (CommentHandler r w).2).
Proof.
  intros Hm Hl [form Hform] Ha Hlen Hp Hf1.
  pose proof (Atoi_nonempty _ _ Ha) as Hne.
  destruct (trimmed_long_nonempty _ (proj1 Hlen)) as [Hc Ht].
  assert (H3 : (Go.len (Go.TrimSpace (FormValue r "content")) <? 3) = false)
    by (apply Z.ltb_ge; lia).
  assert (H5 : (500 <? Go.len (Go.TrimSpace (FormValue r "content"))) = false)
    by (apply Z.ltb_ge; lia).
  destruct w as [d S ck f us t l].
  unfold logged_in, post_exists, server_error in *. cbn in *.
  unfold CommentHandler, IsAuthenticated. unfold_db. unfold insert_comment.
  remember (FormValue r "content") as content.
  remember (FormValue r "post_id") as pid.
  rewrite Hm, Hform. cbn. rewrite Hne, Hc, Ha. cbn. rewrite Ht, H3, H5. cbn.
  cases; repeat split; auto; apply in_or_app; right; left; reflexivity.
Qed.

Lemma comment_on_missing_post_witness :
  (CommentHandler
     (mkRequest "POST" (Some "tokB") ∅
        (Some {[ "post_id" := "8"; "content" := "hello" ]})) w0).1 = server_error
  /\ store (CommentHandler
              (mkRequest "POST" (Some "tokB") ∅
                 (Some {[ "post_id" := "8"; "content" := "hello" ]})) w0).2
     = store w0
  /\ In "Error inserting comment:"
       (logs (CommentHandler
                (mkRequest "POST" (Some "tokB") ∅
                   (Some {[ "post_id" := "8"; "content" := "hello" ]})) w0).2).
Proof.
  apply (comment_on_missing_post
           (mkRequest "POST" (Some "tokB") ∅
              (Some {[ "post_id" := "8"; "content" := "hello" ]})) w0
           2 "user" 8);
    first [reflexivity | (eexists; reflexivity) | (vm_compute; split; discriminate)].
Defined.

(** ** Invariants of the database *)

Ltac fk_start :=
  intros (Hs & Hp & Hc & Hpv & Hcm & Hcv);
  unfold fk_ok, vote_refs_ok, user_exists, post_exists, comment_exists in *;
  cbn [users sessions posts post_categories post_votes comments comments_seq
         comment_votes];
  refine (conj _ (conj _ (conj _ (conj _ (conj _ _))))); try assumption.

Lemma fk_ok_delete_session (c : string) (d : DB) :
  fk_ok d -> fk_ok (delete_session c d).
Proof.
  unfold delete_session. fk_start.
  intros k s Hk. apply lookup_delete_Some in Hk as [_ Hk]. exact (Hs k s Hk).
Qed.

Lemma fk_ok_delete_user_sessions (u : Z) (d : DB) :
  fk_ok d -> fk_ok (delete_user_sessions u d).
Proof.
  unfold delete_user_sessions. fk_start.
  intros k s Hk. apply map_lookup_filter_Some in Hk as [Hk _]. exact (Hs k s Hk).
Qed.

Lemma fk_ok_insert_session (sid : string) (u : Z) (role : string) (e : Time)
    (d : DB) :
  fk_ok d -> fk_ok (insert_session sid u role e d).2.
Proof.
  unfold insert_session.
  destruct (sessions d !! sid); [auto|].
  destruct (users d !! u) as [usr|] eqn:Hu; [|auto]. cbn [snd].
  fk_start.
  intros k s Hk. apply lookup_insert_Some in Hk as [[_ <-] | [_ Hk]].
  - cbn. rewrite Hu. reflexivity.
  - exact (Hs k s Hk).
Qed.

Lemma refs_delete_vote (P : VoteRow -> Prop) (u p : Z) (t : list VoteRow) :
  (forall v, In v t -> P v) -> forall v, In v (delete_vote u p t) -> P v.
Proof.
  intros H v Hv. unfold delete_vote in Hv. apply filter_In in Hv as [Hv _]. auto.
Qed.

Lemma refs_delete_votes_of (P : VoteRow -> Prop) (p : Z) (t : list VoteRow) :
  (forall v, In v t -> P v) ->
  forall v, In v (delete_votes_of p t) -> P v /\ vote_target v <> p.
Proof.
  intros H v Hv. unfold delete_votes_of in Hv. apply filter_In in Hv as [Hv Hne].
  apply negb_true_iff, Z.eqb_neq in Hne. auto.
Qed.

Lemma refs_update_vote (P : Z -> Z -> Prop) (u p x : Z) (t : list VoteRow) :
  (forall v, In v t -> P (vote_user v) (vote_target v)) ->
  forall v, In v (update_vote u p x t) -> P (vote_user v) (vote_target v).
Proof.
  intros H v Hv. unfold update_vote in Hv.
  apply in_map_iff in Hv as (y & <- & Hy).
  destruct (vote_matches u p y); cbn; auto.
Qed.

Lemma fk_ok_remove_post_vote (u p : Z) (d : DB) :
  fk_ok d -> fk_ok (set_post_votes (delete_vote u p (post_votes d)) d).
Proof.
  unfold set_post_votes. fk_start.
  intros v Hv. exact (refs_delete_vote _ u p _ Hpv v Hv).
Qed.

Lemma fk_ok_upsert_post_vote (u p x : Z) (d : DB) :
  fk_ok d -> fk_ok (upsert_post_vote u p x d).2.
Proof.
  unfold upsert_post_vote, set_post_votes.
  destruct (existsb _ _); cbn [snd].
  - fk_start. intros v Hv.
    exact (refs_update_vote
             (fun a b => match users d !! a with Some _ => true | None => false end
                         = true
                         /\ match posts d !! b with Some _ => true | None => false end
                            = true) u p x _ Hpv v Hv).
  - destruct (users d !! u) eqn:Hu; [|auto].
    destruct (posts d !! p) eqn:Hq; [|auto]. cbn [snd].
    fk_start. intros v Hv. apply in_app_or in Hv as [Hv | [<- | []]].
    + exact (Hpv v Hv).
    + cbn. rewrite Hu, Hq. split; reflexivity.
Qed.

Lemma fk_ok_remove_comment_vote (u p : Z) (d : DB) :
  fk_ok d -> fk_ok (set_comment_votes (delete_vote u p (comment_votes d)) d).
Proof.
  unfold set_comment_votes. fk_start.
  intros v Hv. exact (refs_delete_vote _ u p _ Hcv v Hv).
Qed.

Lemma fk_ok_upsert_comment_vote (u p x : Z) (d : DB) :
  fk_ok d -> fk_ok (upsert_comment_vote u p x d).2.
Proof.
  unfold upsert_comment_vote, set_comment_votes.
  destruct (existsb _ _); cbn [snd].
  - fk_start. intros v Hv.
    exact (refs_update_vote
             (fun a b => match users d !! a with Some _ => true | None => false end
                         = true
                         /\ match comments d !! b with Some _ => true | None => false end
                            = true) u p x _ Hcv v Hv).
  - destruct (users d !! u) eqn:Hu; [|auto].
    destruct (comments d !! p) eqn:Hq; [|auto]. cbn [snd].
    fk_start. intros v Hv. apply in_app_or in Hv as [Hv | [<- | []]].
    + exact (Hcv v Hv).
    + cbn. rewrite Hu, Hq. split; reflexivity.
Qed.

Lemma fk_ok_delete_post_categories (p : Z) (d : DB) :
  fk_ok d -> fk_ok (delete_post_categories p d).
Proof.
  unfold delete_post_categories. fk_start.
  intros pc Hin. apply filter_In in Hin as [Hin _]. exact (Hc pc Hin).
Qed.

Lemma fk_ok_delete_post_votes (p : Z) (d : DB) :
  fk_ok d -> fk_ok (delete_post_votes p d).
Proof.
  unfold delete_post_votes. fk_start.
  intros v Hv. exact (proj1 (refs_delete_votes_of _ p _ Hpv v Hv)).
Qed.

Lemma votes_without_post_refs (p : Z) (cs : gmap Z CommentRow)
    (t : list VoteRow) (v : VoteRow) :
  In v (votes_without_post p cs t) ->
  In v t
  /\ (is_Some (cs !! vote_target v) ->
      is_Some (comments_without_post p cs !! vote_target v)).
Proof.
  unfold votes_without_post, comments_without_post.
  intros Hv. apply filter_In in Hv as [Hv Hk]. split; [exact Hv|].
  intros [c Hc]. rewrite Hc in Hk. apply negb_true_iff, Z.eqb_neq in Hk.
  exists c. apply map_lookup_filter_Some. split; [exact Hc | exact Hk].
Qed.

Lemma is_Some_true {A : Type} (o : option A) :
  match o with Some _ => true | None => false end = true <-> is_Some o.
Proof.
  destruct o; split; intros H; try reflexivity; try discriminate; eauto.
  destruct H as [x H]. discriminate H.
Qed.

Lemma fk_ok_delete_post_comments (p : Z) (d : DB) :
  fk_ok d -> fk_ok (delete_post_comments p d).
Proof.
  unfold delete_post_comments. fk_start.
  - intros k c Hk. unfold comments_without_post in Hk.
    apply map_lookup_filter_Some in Hk as [Hk _]. exact (Hcm k c Hk).
  - intros v Hv.
    destruct (votes_without_post_refs p (comments d) (comment_votes d) v Hv)
      as [Hin Hsome].
    destruct (Hcv v Hin) as [Hu Ht]. split; [exact Hu|].
    apply is_Some_true, Hsome, is_Some_true, Ht.
Qed.

Lemma fk_ok_delete_post (p : Z) (d : DB) :
  fk_ok d -> fk_ok (delete_post p d).
Proof.
  unfold delete_post. fk_start.
  - intros k q Hk. apply lookup_delete_Some in Hk as [_ Hk]. exact (Hp k q Hk).
  - intros pc Hin. apply filter_In in Hin as [Hin Hne].
    apply negb_true_iff, Z.eqb_neq in Hne.
    rewrite lookup_delete_ne by congruence. exact (Hc pc Hin).
  - intros v Hv. destruct (refs_delete_votes_of _ p _ Hpv v Hv) as [[Hu Ht] Hne].
    split; [exact Hu|]. rewrite lookup_delete_ne by congruence. exact Ht.
  - intros k c Hk. unfold comments_without_post in Hk.
    apply map_lookup_filter_Some in Hk as [Hk Hne]. cbn in Hne.
    destruct (Hcm k c Hk) as [Hq Hu]. split; [|exact Hu].
    rewrite lookup_delete_ne by congruence. exact Hq.
  - intros v Hv.
    destruct (votes_without_post_refs p (comments d) (comment_votes d) v Hv)
      as [Hin Hsome].
    destruct (Hcv v Hin) as [Hu Ht]. split; [exact Hu|].
    apply is_Some_true, Hsome, is_Some_true, Ht.
Qed.

Lemma fk_ok_delete_comment_votes (c : Z) (d : DB) :
  fk_ok d -> fk_ok (delete_comment_votes c d).
Proof.
  unfold delete_comment_votes. fk_start.
  intros v Hv. exact (proj1 (refs_delete_votes_of _ c _ Hcv v Hv)).
Qed.

Lemma fk_ok_delete_comment (c : Z) (d : DB) :
  fk_ok d -> fk_ok (delete_comment c d).
Proof.
  unfold delete_comment. fk_start.
  - intros k x Hk. apply lookup_delete_Some in Hk as [_ Hk]. exact (Hcm k x Hk).
  - intros v Hv. destruct (refs_delete_votes_of _ c _ Hcv v Hv) as [[Hu Ht] Hne].
    split; [exact Hu|]. rewrite lookup_delete_ne by congruence. exact Ht.
Qed.

Lemma fk_ok_insert_comment (p u : Z) (content : string) (at_ : Time) (d : DB) :
  fk_ok d -> fk_ok (insert_comment p u content at_ d).2.
Proof.
  unfold insert_comment.
  destruct (posts d !! p) eqn:Hq; [|auto].
  destruct (users d !! u) eqn:Hu; [|auto]. cbn [snd].
  fk_start.
  - intros k c Hk. apply lookup_insert_Some in Hk as [[_ <-] | [_ Hk]].
    + cbn. rewrite Hq, Hu. split; reflexivity.
    + exact (Hcm k c Hk).
  - intros v Hv. destruct (Hcv v Hv) as [Hx Ht]. split; [exact Hx|].
    apply is_Some_true. apply is_Some_true in Ht.
    apply lookup_insert_is_Some'. right. exact Ht.
Qed.

Lemma fk_ok_insert_user (email username hash : string) (d : DB) :
  fk_ok d -> fk_ok (insert_user email username hash d).2.
Proof.
  unfold insert_user. destruct (existsb _ _); [auto|]. cbn [snd].
  assert (Hkeep : forall k,
             match users d !! k with Some _ => true | None => false end = true ->
             match <[max_user_id (users d) + 1
                     := mkUser email username hash "user"]> (users d) !! k
             with Some _ => true | None => false end = true).
  { intros k Hk. apply is_Some_true. apply is_Some_true in Hk.
    apply lookup_insert_is_Some'. right. exact Hk. }
  intros (Hs & Hp & Hc & Hpv & Hcm & Hcv).
  unfold fk_ok, vote_refs_ok, user_exists, post_exists, comment_exists in *.
  cbn [users sessions posts post_categories post_votes comments comments_seq
         comment_votes].
  refine (conj _ (conj _ (conj _ (conj _ (conj _ _))))); try assumption.
  - intros k s Hk. apply Hkeep. exact (Hs k s Hk).
  - intros k q Hk. apply Hkeep. exact (Hp k q Hk).
  - intros v Hv. destruct (Hpv v Hv). split; [apply Hkeep|]; assumption.
  - intros k c Hk. destruct (Hcm k c Hk). split; [|apply Hkeep]; assumption.
  - intros v Hv. destruct (Hcv v Hv). split; [apply Hkeep|]; assumption.
Qed.

(** A property of the database that every statement of [database/db.go]
    modelled here preserves is preserved by every handler, whatever the
    request and whatever fails. *)
Section Invariant.

Variable P : DB -> Prop.

Hypothesis I1 : forall c d, P d -> P (delete_session c d).
Hypothesis I2 : forall u d, P d -> P (delete_user_sessions u d).
Hypothesis I3 : forall sid u role e d, P d -> P (insert_session sid u role e d).2.
Hypothesis I4 :
  forall u p d, P d -> P (set_post_votes (delete_vote u p (post_votes d)) d).
Hypothesis I5 :
  forall u p x d, x = 1 \/ x = -1 -> P d -> P (upsert_post_vote u p x d).2.
Hypothesis I6 :
  forall u c d, P d -> P (set_comment_votes (delete_vote u c (comment_votes d)) d).
Hypothesis I7 :
  forall u c x d, x = 1 \/ x = -1 -> P d -> P (upsert_comment_vote u c x d).2.
Hypothesis I8 : forall p d, P d -> P (delete_post_categories p d).
Hypothesis I9 : forall p d, P d -> P (delete_post_comments p d).
Hypothesis I10 : forall p d, P d -> P (delete_post_votes p d).
Hypothesis I11 : forall p d, P d -> P (delete_post p d).
Hypothesis I12 : forall c d, P d -> P (delete_comment_votes c d).
Hypothesis I13 : forall c d, P d -> P (delete_comment c d).
Hypothesis I14 :
  forall p u content t d, P d -> P (insert_comment p u content t d).2.
Hypothesis I15 :
  forall email username hash d, P d -> P (insert_user email username hash d).2.

Ltac step_P :=
  repeat first
    [ assumption
    | apply I1 | apply I2 | apply I3 | apply I4
    | apply I5; [auto|] | apply I6 | apply I7; [auto|]
    | apply I8 | apply I9 | apply I10 | apply I11 | apply I12 | apply I13
    | apply I14 | apply I15 ].

Lemma IsAuthenticated_preserves (r : Request) (w : World) :
  P (store w) -> P (store (IsAuthenticated r w).2).
Proof.
  destruct w as [d S ck f u t l]. cbn [store].
  unfold IsAuthenticated. unfold_db. cbn. intros Hd. cases; step_P.
Qed.

Lemma vote_handlers_preserve (r : Request) (w : World) :
  P (store w) ->
  P (store (LikeHandler r w).2) /\ P (store (DislikeHandler r w).2)
  /\ P (store (CommentLikeHandler r w).2)
  /\ P (store (CommentDislikeHandler r w).2).
Proof.
  destruct w as [d S ck f u t l]. cbn [store]. intros Hd.
  repeat split.
  - unfold LikeHandler, IsAuthenticated. unfold_db. cbn. cases; step_P.
  - unfold DislikeHandler, IsAuthenticated. unfold_db. cbn. cases; step_P.
  - unfold CommentLikeHandler, IsAuthenticated. unfold_db2. unfold_db. cbn.
    cases; step_P.
  - unfold CommentDislikeHandler, IsAuthenticated. unfold_db2. unfold_db. cbn.
    cases; step_P.
Qed.

Lemma content_handlers_preserve (r : Request) (w : World) :
  P (store w) ->
  P (store (CommentHandler r w).2) /\ P (store (DeletePostHandler r w).2)
  /\ P (store (DeleteCommentHandler r w).2) /\ P (store (LogoutHandler r w).2).
Proof.
  destruct w as [d S ck f u t l]. cbn [store]. intros Hd.
  repeat split.
  - unfold CommentHandler, IsAuthenticated. unfold_db. cbn. cases; step_P.
  - unfold DeletePostHandler, IsAuthenticated. unfold_db. cbn. cases; step_P.
  - unfold DeleteCommentHandler, IsAuthenticated. unfold_db. cbn. cases; step_P.
  - unfold LogoutHandler. unfold_db. cbn. cases; step_P.
Qed.

Lemma account_handlers_preserve (check : string -> string -> bool)
    (lower : string -> string) (hash : string -> option string)
    (parse : string -> bool) (r : Request) (w : World) :
  P (store w) ->
  P (store (LoginHandler check r w).2)
  /\ P (store (RegisterHandler lower hash parse r w).2).
Proof.
  destruct w as [d S ck f u t l]. cbn [store]. intros Hd.
  split.
  - unfold LoginHandler, IsAuthenticated. unfold_db. cbn. cases; step_P.
  - unfold RegisterHandler, render_register, IsAuthenticated. unfold_db2.
    unfold_db. cbn. cases; step_P.
Qed.

End Invariant.

(** X21.  Referential integrity is an invariant of the ten modelled handlers:
    if every session, post, category link, vote and comment refers to rows
    that exist, then this holds again after any request to any of them,
    whatever statement fails in the middle (partial deletes included). *)
Theorem handlers_keep_references (check : string -> string -> bool)
    (lower : string -> string) (hash : string -> option string)
    (parse : string -> bool) (r : Request) (w : World) :
  fk_ok (store w) ->
  fk_ok (store (LoginHandler check r w).2)
  /\ fk_ok (store (RegisterHandler lower hash parse r w).2)
  /\ fk_ok (store (LogoutHandler r w).2)
  /\ fk_ok (store (LikeHandler r w).2)
  /\ fk_ok (store (DislikeHandler r w).2)
  /\ fk_ok (store (CommentLikeHandler r w).2)
  /\ fk_ok (store (CommentDislikeHandler r w).2)
  /\ fk_ok (store (CommentHandler r w).2)
  /\ fk_ok (store (DeletePostHandler r w).2)
  /\ fk_ok (store (DeleteCommentHandler r w).2).
Proof.
  intros Hfk.
  destruct (account_handlers_preserve fk_ok
              fk_ok_delete_session fk_ok_delete_user_sessions
              fk_ok_insert_session fk_ok_insert_user check lower hash parse r w Hfk)
    as [H1 H2].
  destruct (vote_handlers_preserve fk_ok fk_ok_delete_session
              fk_ok_remove_post_vote (fun u p x d _ => fk_ok_upsert_post_vote u p x d)
              fk_ok_remove_comment_vote
              (fun u p x d _ => fk_ok_upsert_comment_vote u p x d) r w Hfk)
    as (H4 & H5 & H6 & H7).
  destruct (content_handlers_preserve fk_ok fk_ok_delete_session
              fk_ok_delete_post_categories fk_ok_delete_post_comments
              fk_ok_delete_post_votes fk_ok_delete_post
              fk_ok_delete_comment_votes fk_ok_delete_comment
              fk_ok_insert_comment r w Hfk)
    as (H8 & H9 & H10 & H3).
  exact (conj H1 (conj H2 (conj H3 (conj H4 (conj H5 (conj H6 (conj H7
           (conj H8 (conj H9 H10))))))))).
Qed.

Ltac in_table H :=
  apply elem_of_map_to_list in H; vm_compute in H;
  repeat (apply elem_of_cons in H as [H | H];
          [injection H as -> ->; vm_compute; auto|]);
  apply elem_of_nil in H; destruct H.

Ltac in_rows H :=
  vm_compute in H;
  repeat (destruct H as [<- | H]; [vm_compute; auto|]); destruct H.

Lemma fk_ok_db0 : fk_ok db0.
Proof.
  refine (conj _ (conj _ (conj _ (conj _ (conj _ _))))).
  - intros k s H. in_table H.
  - intros k p H. in_table H.
  - intros pc H. in_rows H.
  - intros v H. in_rows H.
  - intros k c H. in_table H.
  - intros v H. in_rows H.
Qed.

Lemma handlers_keep_references_witness :
  fk_ok (store (LoginHandler check_password (login_req "bob@forum.io" "b") w0).2)
  /\ fk_ok (store (RegisterHandler ascii_lower hash_password (fun _ => true)
                     (login_req "bob@forum.io" "b") w0).2)
  /\ fk_ok (store (LogoutHandler (login_req "bob@forum.io" "b") w0).2)
  /\ fk_ok (store (LikeHandler (login_req "bob@forum.io" "b") w0).2)
  /\ fk_ok (store (DislikeHandler (login_req "bob@forum.io" "b") w0).2)
  /\ fk_ok (store (CommentLikeHandler (login_req "bob@forum.io" "b") w0).2)
  /\ fk_ok (store (CommentDislikeHandler (login_req "bob@forum.io" "b") w0).2)
  /\ fk_ok (store (CommentHandler (login_req "bob@forum.io" "b") w0).2)
  /\ fk_ok (store (DeletePostHandler (login_req "bob@forum.io" "b") w0).2)
  /\ fk_ok (store (DeleteCommentHandler (login_req "bob@forum.io" "b") w0).2).
Proof.
  exact (handlers_keep_references check_password ascii_lower hash_password
           (fun _ => true) (login_req "bob@forum.io" "b") w0 fk_ok_db0).
Defined.

Lemma pk_unique_filter (f : VoteRow -> bool) (t : list VoteRow) :
  pk_unique t -> pk_unique (List.filter f t).
Proof.
  unfold pk_unique. induction t as [|a t IH]; [auto|]. cbn.
  intros Hnd. pose proof (NoDup_cons_1_1 _ _ Hnd) as Ha.
  pose proof (NoDup_cons_1_2 _ _ Hnd) as Ht.
  destruct (f a); [|auto]. cbn. apply NoDup_cons_2; [|auto].
  intros Hin. apply Ha. apply list_elem_of_In in Hin. apply list_elem_of_In.
  apply in_map_iff in Hin as (y & Hy & Hyin). apply in_map_iff.
  exists y. split; [exact Hy|]. apply filter_In in Hyin as [Hyin _]. exact Hyin.
Qed.

Lemma votes_check_filter (f : VoteRow -> bool) (t : list VoteRow) :
  votes_check t = true -> votes_check (List.filter f t) = true.
Proof.
  unfold votes_check. induction t as [|a t IH]; [auto|]. cbn.
  intros H. apply andb_true_iff in H as [Ha Ht].
  destruct (f a); cbn; [rewrite Ha|]; auto.
Qed.

Lemma votes_ok_upsert_post_vote (u p x : Z) (d : DB) :
  x = 1 \/ x = -1 -> votes_ok d -> votes_ok (upsert_post_vote u p x d).2.
Proof.
  intros Hx [[Hpk Hck] Hc]. unfold upsert_post_vote.
  destruct (existsb _ _) eqn:He; cbn [snd].
  - split; [split|exact Hc]; cbn.
    + apply pk_unique_update_vote. exact Hpk.
    + apply votes_check_update_vote; assumption.
  - destruct (users d !! u); [|split; auto].
    destruct (posts d !! p); [|split; auto]. cbn [snd].
    split; [split|exact Hc]; cbn.
    + apply pk_unique_insert; assumption.
    + apply votes_check_insert; assumption.
Qed.

Lemma votes_ok_upsert_comment_vote (u c x : Z) (d : DB) :
  x = 1 \/ x = -1 -> votes_ok d -> votes_ok (upsert_comment_vote u c x d).2.
Proof.
  intros Hx [Hp [Hpk Hck]]. unfold upsert_comment_vote.
  destruct (existsb _ _) eqn:He; cbn [snd].
  - split; [exact Hp|split]; cbn.
    + apply pk_unique_update_vote. exact Hpk.
    + apply votes_check_update_vote; assumption.
  - destruct (users d !! u); [|split; auto].
    destruct (comments d !! c); [|split; auto]. cbn [snd].
    split; [exact Hp|split]; cbn.
    + apply pk_unique_insert; assumption.
    + apply votes_check_insert; assumption.
Qed.

Ltac votes_ok_filter :=
  intros [[Hpk Hck] [Hpk' Hck']];
  repeat split; cbn;
  first [ assumption
        | apply pk_unique_filter; assumption
        | apply votes_check_filter; assumption
        | apply pk_unique_delete_vote; assumption
        | apply votes_check_delete_vote; assumption ].

(** X22.  The primary key (one row per user and target) and the CHECK(vote IN
    (-1, 1)) of post_votes and of comment_votes are invariants of the ten
    modelled handlers: they hold again after any request, whatever fails. *)
Theorem handlers_keep_vote_constraints (check : string -> string -> bool)
    (lower : string -> string) (hash : string -> option string)
    (parse : string -> bool) (r : Request) (w : World) :
  votes_ok (store w) ->
  votes_ok (store (LoginHandler check r w).2)
  /\ votes_ok (store (RegisterHandler lower hash parse r w).2)
  /\ votes_ok (store (LogoutHandler r w).2)
  /\ votes_ok (store (LikeHandler r w).2)
  /\ votes_ok (store (DislikeHandler r w).2)
  /\ votes_ok (store (CommentLikeHandler r w).2)
  /\ votes_ok (store (CommentDislikeHandler r w).2)
  /\ votes_ok (store (CommentHandler r w).2)
  /\ votes_ok (store (DeletePostHandler r w).2)
  /\ votes_ok (store (DeleteCommentHandler r w).2).
Proof.
  intros Hok.
  assert (J1 : forall c d, votes_ok d -> votes_ok (delete_session c d))
    by (intros c d H; exact H).
  assert (J2 : forall u d, votes_ok d -> votes_ok (delete_user_sessions u d))
    by (intros u d H; exact H).
  assert (J3 : forall sid u role e d,
             votes_ok d -> votes_ok (insert_session sid u role e d).2).
  { intros sid u role e d H. unfold insert_session.
    destruct (sessions d !! sid), (users d !! u); exact H. }
  assert (J4 : forall u p d,
             votes_ok d ->
             votes_ok (set_post_votes (delete_vote u p (post_votes d)) d))
    by (intros u p d; votes_ok_filter).
  assert (J6 : forall u c d,
             votes_ok d ->
             votes_ok (set_comment_votes (delete_vote u c (comment_votes d)) d))
    by (intros u c d; votes_ok_filter).
  assert (J8 : forall p d, votes_ok d -> votes_ok (delete_post_categories p d))
    by (intros p d H; exact H).
  assert (J9 : forall p d, votes_ok d -> votes_ok (delete_post_comments p d))
    by (intros p d; unfold votes_without_post; votes_ok_filter).
  assert (J10 : forall p d, votes_ok d -> votes_ok (delete_post_votes p d))
    by (intros p d; unfold delete_votes_of; votes_ok_filter).
  assert (J11 : forall p d, votes_ok d -> votes_ok (delete_post p d))
    by (intros p d; unfold delete_votes_of, votes_without_post; votes_ok_filter).
  assert (J12 : forall c d, votes_ok d -> votes_ok (delete_comment_votes c d))
    by (intros c d; unfold delete_votes_of; votes_ok_filter).
  assert (J13 : forall c d, votes_ok d -> votes_ok (delete_comment c d))
    by (intros c d; unfold delete_votes_of; votes_ok_filter).
  assert (J14 : forall p u content t d,
             votes_ok d -> votes_ok (insert_comment p u content t d).2).
  { intros p u content t d H. unfold insert_comment.
    destruct (posts d !! p), (users d !! u); exact H. }
  assert (J15 : forall email username h d,
             votes_ok d -> votes_ok (insert_user email username h d).2).
  { intros email username h d H. unfold insert_user.
    destruct (existsb _ _); exact H. }
  destruct (account_handlers_preserve votes_ok J1 J2 J3 J15
              check lower hash parse r w Hok) as [H1 H2].
  destruct (vote_handlers_preserve votes_ok J1 J4 votes_ok_upsert_post_vote
              J6 votes_ok_upsert_comment_vote r w Hok) as (H4 & H5 & H6 & H7).
  destruct (content_handlers_preserve votes_ok J1 J8 J9 J10 J11 J12 J13 J14
              r w Hok) as (H8 & H9 & H10 & H3).
  exact (conj H1 (conj H2 (conj H3 (conj H4 (conj H5 (conj H6 (conj H7
           (conj H8 (conj H9 H10))))))))).
Qed.

Lemma votes_ok_db0 : votes_ok db0.
Proof.
  split; split; try reflexivity.
  - apply NoDup_nil_2.
  - apply NoDup_cons_2; [apply not_elem_of_nil | apply NoDup_nil_2].
Qed.

Lemma handlers_keep_vote_constraints_witness :
  votes_ok (store (LoginHandler check_password (vote_req "tokB") w0).2)
  /\ votes_ok (store (RegisterHandler ascii_lower hash_password (fun _ => true)
                        (vote_req "tokB") w0).2)
  /\ votes_ok (store (LogoutHandler (vote_req "tokB") w0).2)
  /\ votes_ok (store (LikeHandler (vote_req "tokB") w0).2)
  /\ votes_ok (store (DislikeHandler (vote_req "tokB") w0).2)
  /\ votes_ok (store (CommentLikeHandler (vote_req "tokB") w0).2)
  /\ votes_ok (store (CommentDislikeHandler (vote_req "tokB") w0).2)
  /\ votes_ok (store (CommentHandler (vote_req "tokB") w0).2)
  /\ votes_ok (store (DeletePostHandler (vote_req "tokB") w0).2)
  /\ votes_ok (store (DeleteCommentHandler (vote_req "tokB") w0).2).
Proof.
  exact (handlers_keep_vote_constraints check_password ascii_lower hash_password
           (fun _ => true) (vote_req "tokB") w0 votes_ok_db0).
Defined.

(** ** Registration *)

Lemma max_user_id_bound (us : gmap Z UserRow) (k : Z) (u : UserRow) :
  us !! k = Some u -> k <= max_user_id us.
Proof.
  intros Hk. unfold max_user_id. apply fold_max_bound.
  apply in_map_iff. exists (k, u). split; [reflexivity|].
  apply list_elem_of_In, elem_of_map_to_list. exact Hk.
Qed.

Lemma next_user_id_fresh (d : DB) : users d !! next_user_id d = None.
Proof.
  destruct (users d !! next_user_id d) as [u|] eqn:E; [|reflexivity].
  apply max_user_id_bound in E. unfold next_user_id in E. lia.
Qed.

Lemma find_user_by_email_None (email : string) (us : gmap Z UserRow) :
  find_user_by_email email us = None <->
  forall k u, us !! k = Some u -> u_email u <> email.
Proof.
  unfold find_user_by_email. split.
  - intros Hn k u Hk He.
    pose proof (find_none _ _ Hn (k, u)) as Hf. cbn in Hf.
    rewrite (proj2 (String.eqb_eq _ _) He) in Hf.
    assert (Hin : In (k, u) (map_to_list us))
      by (apply list_elem_of_In, elem_of_map_to_list; exact Hk).
    specialize (Hf Hin). discriminate Hf.
  - intros Hall. destruct (find _ _) as [[k u]|] eqn:E; [|reflexivity].
    apply find_some in E as [Hin He]. cbn in He. apply String.eqb_eq in He.
    apply list_elem_of_In, elem_of_map_to_list in Hin.
    exfalso. exact (Hall k u Hin He).
Qed.

Lemma find_user_by_email_insert (email : string) (us : gmap Z UserRow) (k : Z)
    (u : UserRow) :
  us !! k = None -> u_email u = email ->
  find_user_by_email email us = None ->
  find_user_by_email email (<[k := u]> us) = Some (k, u).
Proof.
  intros Hk He Hn. pose proof (proj1 (find_user_by_email_None _ _) Hn) as Hall.
  unfold find_user_by_email.
  destruct (find _ (map_to_list (<[k := u]> us))) as [[k' u']|] eqn:E.
  - apply find_some in E as [Hin He']. cbn in He'. apply String.eqb_eq in He'.
    apply list_elem_of_In, elem_of_map_to_list in Hin.
    apply lookup_insert_Some in Hin as [[<- <-] | [_ Hin]]; [reflexivity|].
    exfalso. exact (Hall k' u' Hin He').
  - pose proof (find_none _ _ E (k, u)) as Hf. cbn in Hf.
    rewrite (proj2 (String.eqb_eq _ _) He) in Hf.
    assert (Hin : In (k, u) (map_to_list (<[k := u]> us))).
    { apply list_elem_of_In, elem_of_map_to_list. apply lookup_insert_eq. }
    specialize (Hf Hin). discriminate Hf.
Qed.

Lemma existsb_users_false (f : Z * UserRow -> bool) (us : gmap Z UserRow) :
  existsb f (map_to_list us) = false <->
  forall k u, us !! k = Some u -> f (k, u) = false.
Proof.
  split.
  - intros He k u Hk.
    destruct (f (k, u)) eqn:Hf; [|reflexivity].
    assert (Hex : existsb f (map_to_list us) = true).
    { apply existsb_exists. exists (k, u). split; [|exact Hf].
      apply list_elem_of_In, elem_of_map_to_list. exact Hk. }
    congruence.
  - intros Hall. destruct (existsb f (map_to_list us)) eqn:He; [|reflexivity].
    apply existsb_exists in He as ([k u] & Hin & Hf).
    apply list_elem_of_In, elem_of_map_to_list in Hin.
    rewrite (Hall k u Hin) in Hf. discriminate Hf.
Qed.

(** What [RegisterHandler] does to the table of users, whatever the request
    and whatever fails: nothing, or one row is added under a fresh id, with
    the role user, the trimmed email and name of the form and the hash of
    its password; then the email had the shape asked for, and no user had
    this email, this name, or a name that LOWER maps to the lowered name. *)
Lemma RegisterHandler_effect (lower : string -> string)
    (hash : string -> option string) (parse : string -> bool) (r : Request)
    (w : World) :
  let email := Go.TrimSpace (FormValue r "email") in
  let username := Go.TrimSpace (FormValue r "username") in
  let w' := (RegisterHandler lower hash parse r w).2 in
  ((RegisterHandler lower hash parse r w).1 <> registered
   /\ users (store w') = users (store w))
  \/ exists h,
      hash (FormValue r "password") = Some h
      /\ Method r = "POST"
      /\ users (store w')
         = <[next_user_id (store w) := mkUser email username h "user"]>
             (users (store w))
      /\ users (store w) !! next_user_id (store w) = None
      /\ regexp.MatchString emailRegex email = true
      /\ (forall k u, users (store w) !! k = Some u ->
            u_email u <> email /\ u_username u <> username
            /\ sqlite_LOWER (u_username u) <> lower username)
      /\ ((RegisterHandler lower hash parse r w).1 = registered
          \/ (parse "templates/register.html" = false
              /\ (RegisterHandler lower hash parse r w).1
                 = Answer (mkResponse StatusOK None
                             (ErrorPage StatusInternalServerError)))).
Proof.
  cbn zeta. pose proof (next_user_id_fresh (store w)) as Hfresh.
  destruct w as [d S ck f u t l]. unfold next_user_id, registered in *.
  cbn [store users] in *.
  unfold RegisterHandler, render_register, IsAuthenticated.
  unfold_db2. unfold_db. unfold insert_user.
  remember (FormValue r "email") as e.
  remember (FormValue r "username") as n.
  remember (FormValue r "password") as p.
  cbn.
  cases; try (left; split; [discriminate | reflexivity]).
  all: right; eexists; split; [reflexivity|].
  all: split; [apply String.eqb_eq; assumption|].
  all: split; [reflexivity|]; split; [exact Hfresh|].
  all: split; [match goal with
               | H : negb (regexp.MatchString _ _) = false |- _ =>
                   apply negb_false_iff in H; exact H
               end|].
  all: split;
    [|first [ left; reflexivity
            | right; split; [apply negb_true_iff; assumption | reflexivity] ]].
  all: intros k0 u0 Hk0.
  all: unfold username_taken in *.
  all: repeat match goal with
       | H : existsb ?g (map_to_list ?m) = false |- _ =>
           let Hx := fresh "Hx" in
           pose proof (proj1 (existsb_users_false g m) H k0 u0 Hk0) as Hx;
           cbn in Hx; clear H
       end.
  all: repeat match goal with
       | H : _ || _ = false |- _ => apply orb_false_iff in H as [? ?]
       end.
  all: repeat match goal with
       | H : String.eqb _ _ = false |- _ => apply String.eqb_neq in H
       end.
  all: repeat split; assumption.
Qed.

(** A registration that succeeds, for a visitor without a cookie. *)
Lemma RegisterHandler_registered (lower : string -> string)
    (hash : string -> option string) (parse : string -> bool) (r : Request)
    (w : World) :
  Cookie_session_id r = None ->
  (RegisterHandler lower hash parse r w).1 = registered ->
  let email := Go.TrimSpace (FormValue r "email") in
  let username := Go.TrimSpace (FormValue r "username") in
  let w' := (RegisterHandler lower hash parse r w).2 in
  exists h,
    hash (FormValue r "password") = Some h
    /\ is_Some (Form r)
    /\ String.eqb email "" = false
    /\ String.eqb (FormValue r "password") "" = false
    /\ find_user_by_email email (users (store w)) = None
    /\ store w'
       = mkDB (<[next_user_id (store w) := mkUser email username h "user"]>
                 (users (store w)))
           (sessions (store w)) (posts (store w)) (post_categories (store w))
           (post_votes (store w)) (comments (store w)) (comments_seq (store w))
           (comment_votes (store w))
    /\ uuids w' = uuids w /\ clock w' = clock w
    /\ faults w' = tl (tl (tl (faults w))).
Proof.
  intros Hc. cbn zeta.
  destruct w as [d S ck f u t l]. unfold next_user_id, registered in *.
  cbn [store users uuids clock faults] in *.
  unfold RegisterHandler, render_register, IsAuthenticated.
  unfold_db2. unfold_db. unfold insert_user. rewrite Hc.
  cbn.
  cases; intros Hp; try discriminate Hp.
  eexists; split; [reflexivity|]. split; [eauto|].
  repeat match goal with
         | H : _ || _ = false |- _ => apply orb_false_iff in H as [? ?]
         end.
  repeat split; auto.
Qed.

(** A login that goes through. *)
Lemma LoginHandler_run (check : string -> string -> bool) (r : Request)
    (w : World) (id : Z) (usr : UserRow) :
  quiet w = true ->
  Cookie_session_id r = None ->
  Method r = "POST" ->
  is_Some (Form r) ->
  String.eqb (Go.TrimSpace (FormValue r "email")) "" = false ->
  String.eqb (FormValue r "password") "" = false ->
  find_user_by_email (Go.TrimSpace (FormValue r "email")) (users (store w))
  = Some (id, usr) ->
  users (store w) !! id = Some usr ->
  check (u_password usr) (FormValue r "password") = true ->
  sessions (store w) !! hd "" (uuids w) = None ->
  (LoginHandler check r w).1
  = mkResponse StatusSeeOther (Some (mkCookie (hd "" (uuids w)) (24 * 60 * 60) None))
      (Redirect (redirect_target r))
  /\ sessions (store (LoginHandler check r w).2)
     = <[hd "" (uuids w) := mkSession id (u_role usr) (clock w + 24 * Hour)]>
         (filter (fun kv : string * SessionRow => s_user_id kv.2 <> id)
            (sessions (store w)))
  /\ clock (LoginHandler check r w).2 = clock w.
Proof.
  intros Hq Hc Hm [form Hf] He Hp Hfind Hu Hck Hfresh.
  assert (Hfresh' : filter (fun kv : string * SessionRow => s_user_id kv.2 <> id)
                      (sessions (store w)) !! hd "" (uuids w) = None)
    by (apply map_lookup_filter_None; left; exact Hfresh).
  destruct w as [d S ck f u t l]. unfold quiet in *.
  cbn [store users uuids clock faults sessions] in *.
  unfold LoginHandler, IsAuthenticated. unfold_db.
  unfold insert_session, delete_user_sessions.
  remember (FormValue r "email") as e.
  remember (FormValue r "password") as p.
  rewrite Hc, Hm, Hf. cbn. rewrite He, Hp. cbn. rewrite Hfind. cbn.
  cases; auto.
  match goal with H : negb _ = true |- _ => rewrite Hck in H; discriminate H end.
Qed.

(** X23.  Round trip of registration and login: after RegisterHandler answered
    Registration successful for a visitor without cookie, LoginHandler with
    the same form sets a session cookie, for any password check that accepts
    the hashes the hashing produced; the session belongs to the new user id
    and has the role user. *)
Theorem register_then_login (lower : string -> string)
    (hash : string -> option string) (parse : string -> bool)
    (check : string -> string -> bool) (r : Request) (w : World) :
  (forall p h, hash p = Some h -> check h p = true) ->
  quiet w = true ->
  Cookie_session_id r = None ->
  sessions (store w) !! hd "" (uuids w) = None ->
  (RegisterHandler lower hash parse r w).1 = registered ->
  let w1 := (RegisterHandler lower hash parse r w).2 in
  (LoginHandler check r w1).1
  = mkResponse StatusSeeOther
      (Some (mkCookie (hd "" (uuids w)) (24 * 60 * 60) None))
      (Redirect (redirect_target r))
  /\ sessions (store (LoginHandler check r w1).2) !! hd "" (uuids w)
     = Some (mkSession (next_user_id (store w)) "user" (clock w + 24 * Hour)).
Proof.
  intros Hcheck Hq Hc Hfresh Hreg. cbn zeta.
  pose proof (RegisterHandler_effect lower hash parse r w) as Heff.
  cbn zeta in Heff. destruct Heff as [[Hne _] | (h' & _ & Hm & _)];
    [contradiction|].
  destruct (RegisterHandler_registered lower hash parse r w Hc Hreg)
    as (h & Hh & Hform & He & Hp & Hnone & Hst & Hu & Hck & Hf).
  set (w1 := (RegisterHandler lower hash parse r w).2) in *.
  pose proof (next_user_id_fresh (store w)) as Hid.
  destruct (LoginHandler_run check r w1 (next_user_id (store w))
              (mkUser (Go.TrimSpace (FormValue r "email"))
                 (Go.TrimSpace (FormValue r "username")) h "user"))
    as (Hresp & Hsess & _).
  - unfold quiet in *. rewrite Hf. auto using quiet_tl.
  - exact Hc.
  - exact Hm.
  - exact Hform.
  - exact He.
  - exact Hp.
  - rewrite Hst. cbn [users]. apply find_user_by_email_insert; auto.
  - rewrite Hst. cbn [users]. apply lookup_insert_eq.
  - cbn [u_password]. apply Hcheck. exact Hh.
  - rewrite Hst, Hu. exact Hfresh.
  - rewrite Hresp, Hsess, Hu, Hck. split; [reflexivity|].
    cbn [u_role]. apply lookup_insert_eq.
Qed.

Lemma register_then_login_witness :
  (LoginHandler check_password (register_req "cy@forum.io" "cy" "c")
     (RegisterHandler ascii_lower hash_password (fun _ => true)
        (register_req "cy@forum.io" "cy" "c") w0).2).1
  = mkResponse StatusSeeOther (Some (mkCookie "tokN" (24 * 60 * 60) None))
      (Redirect "/")
  /\ sessions (store (LoginHandler check_password
                        (register_req "cy@forum.io" "cy" "c")
                        (RegisterHandler ascii_lower hash_password (fun _ => true)
                           (register_req "cy@forum.io" "cy" "c") w0).2).2)
       !! "tokN"
     = Some (mkSession 3 "user" (10 + 24 * Hour)).
Proof.
  apply (register_then_login ascii_lower hash_password (fun _ => true)
           check_password (register_req "cy@forum.io" "cy" "c") w0);
    try reflexivity.
  intros p h Hh. injection Hh as <-. unfold check_password.
  apply String.eqb_refl.
Defined.

(** X24.  RegisterHandler adds no user and does not answer with the success
    page when some user already has the trimmed email, the trimmed name, or a
    name that SQLite's LOWER maps to the lower-cased name of the form,
    whatever fails. *)
Theorem register_duplicate_refused (lower : string -> string)
    (hash : string -> option string) (parse : string -> bool) (r : Request)
    (w : World) (k : Z) (u : UserRow) :
  users (store w) !! k = Some u ->
  u_email u = Go.TrimSpace (FormValue r "email")
  \/ u_username u = Go.TrimSpace (FormValue r "username")
  \/ sqlite_LOWER (u_username u) = lower (Go.TrimSpace (FormValue r "username")) ->
  (RegisterHandler lower hash parse r w).1 <> registered
  /\ users (store (RegisterHandler lower hash parse r w).2) = users (store w).
Proof.
  intros Hk Hdup.
  pose proof (RegisterHandler_effect lower hash parse r w) as Heff.
  cbn zeta in Heff. destruct Heff as [H | (h & _ & _ & _ & _ & _ & Hall & _)];
    [exact H|].
  destruct (Hall k u Hk) as (H1 & H2 & H3).
  destruct Hdup as [Hd | [Hd | Hd]]; contradiction.
Qed.

Lemma register_duplicate_refused_witness :
  (RegisterHandler ascii_lower hash_password (fun _ => true)
     (register_req "new@forum.io" "BOB" "c") w0).1 <> registered
  /\ users (store (RegisterHandler ascii_lower hash_password (fun _ => true)
                     (register_req "new@forum.io" "BOB" "c") w0).2)
     = users (store w0).
Proof.
  apply (register_duplicate_refused ascii_lower hash_password (fun _ => true)
           (register_req "new@forum.io" "BOB" "c") w0 2
           (mkUser "bob@forum.io" "bob" "hash-b" "user")).
  - reflexivity.
  - right. right. reflexivity.
Defined.

(** X25.  RegisterHandler can neither change an account nor create an admin:
    every user stored after the request was stored before, unchanged, or is
    the single new row, which sits under the next free id with the role user
    while all earlier rows are kept. *)
Theorem register_adds_plain_user (lower : string -> string)
    (hash : string -> option string) (parse : string -> bool) (r : Request)
    (w : World) (k : Z) (u : UserRow) :
  users (store (RegisterHandler lower hash parse r w).2) !! k = Some u ->
  users (store w) !! k = Some u
  \/ (users (store w) !! k = None /\ k = next_user_id (store w)
      /\ u_role u = "user"
      /\ (forall k' u', users (store w) !! k' = Some u' ->
            users (store (RegisterHandler lower hash parse r w).2) !! k'
            = Some u')).
Proof.
  intros Hk.
  pose proof (RegisterHandler_effect lower hash parse r w) as Heff.
  cbn zeta in Heff.
  destruct Heff as [[_ Hsame] | (h & _ & _ & Hins & Hfresh & _)].
  - left. rewrite <- Hsame. exact Hk.
  - rewrite Hins in Hk. apply lookup_insert_Some in Hk as [[<- <-] | [_ Hk]].
    + right. split; [exact Hfresh|]. split; [reflexivity|].
      split; [reflexivity|]. intros k' u' Hk'. rewrite Hins.
      rewrite lookup_insert_ne; [exact Hk'|]. intros <-. congruence.
    + left. exact Hk.
Qed.

Lemma register_adds_plain_user_witness :
  users (store w0) !! 3 = Some (mkUser "cy@forum.io" "cy" "hash-c" "user")
  \/ (users (store w0) !! 3 = None /\ 3 = next_user_id (store w0)
      /\ u_role (mkUser "cy@forum.io" "cy" "hash-c" "user") = "user"
      /\ (forall k' u', users (store w0) !! k' = Some u' ->
            users (store (RegisterHandler ascii_lower hash_password
                            (fun _ => true)
                            (register_req "cy@forum.io" "cy" "c") w0).2) !! k'
            = Some u')).
Proof.
  apply (register_adds_plain_user ascii_lower hash_password (fun _ => true)
           (register_req "cy@forum.io" "cy" "c") w0 3
           (mkUser "cy@forum.io" "cy" "hash-c" "user")).
  reflexivity.
Defined.

(** ** [middleware.go] *)

Import middleware.

Lemma run_ops_written (ops : list Op) (rec : responseRecorder) :
  written rec = true ->
  run_ops ops rec
  = mkRecorder (inner rec ++ bodies ops) (statusCode rec) true.
Proof.
  revert rec. induction ops as [|o ops IH]; intros [i s wr] Hw; cbn in Hw;
    subst wr.
  - cbn. rewrite app_nil_r. reflexivity.
  - unfold run_ops in *. cbn [fold_left].
    destruct o as [code | b n err].
    + cbn. rewrite IH by reflexivity. reflexivity.
    + unfold run_op, Write. cbn [written inner statusCode negb snd].
      destruct (handlers.is_nil err && (0 <? n)); rewrite IH by reflexivity;
        cbn; rewrite <- app_assoc; reflexivity.
Qed.

Lemma run_ops_first (o : Op) (ops : list Op) :
  run_ops (o :: ops) fresh_recorder
  = mkRecorder (WriteHeaderCall (status_of o) :: bodies (o :: ops))
      (status_of o) true.
Proof.
  unfold run_ops, fresh_recorder. cbn [fold_left].
  destruct o as [code | b n err].
  - cbn. change (fold_left run_op ops ?r) with (run_ops ops r).
    rewrite run_ops_written by reflexivity. reflexivity.
  - unfold run_op, Write. cbn [written inner statusCode negb snd].
    change (fold_left run_op ops ?r) with (run_ops ops r).
    destruct (handlers.is_nil err && (0 <? n));
      rewrite run_ops_written by reflexivity; reflexivity.
Qed.

(** X27.  Through responseRecorder the server's writer receives exactly one
    status line, that of the handler's first operation (its WriteHeader code,
    or 200 for a Write), before the bodies, which arrive all and in order;
    later WriteHeader calls are dropped, and the recorder counts as written
    after any operation. *)
Theorem recorder_first_status_wins (o : Op) (ops : list Op) :
  inner (run_ops (o :: ops) fresh_recorder)
  = WriteHeaderCall (status_of o) :: bodies (o :: ops)
  /\ statusCode (run_ops (o :: ops) fresh_recorder) = status_of o
  /\ written (run_ops (o :: ops) fresh_recorder) = true.
Proof. rewrite run_ops_first. repeat split. Qed.

(** X28.  CustomHandler.ServeHTTP adds a 404 exactly when the router wrote
    nothing: the status line 404 then the 404 page, the plain text Page not
    found. when the template does not parse, or nothing more for HEAD; when
    the handler wrote anything, the client receives the recorder's calls and
    nothing else. *)
Theorem ServeHTTP_not_found (method : string) (parse_ok : bool)
    (ops : list Op) :
  ServeHTTP method parse_ok ops
  = match ops with
    | [] =>
        WriteHeaderCall StatusNotFound
        :: (if String.eqb method "HEAD" then []
            else if parse_ok then [ExecuteCall "templates/404.html"]
                 else [WriteHeaderCall StatusNotFound;
                       WriteCall "Page not found.
"])
    | o :: _ => WriteHeaderCall (status_of o) :: bodies ops
    end.
Proof.
  unfold ServeHTTP. destruct ops as [|o ops].
  - cbn. destruct (String.eqb method "HEAD"), parse_ok; reflexivity.
  - change (mkRecorder [] 0 false) with fresh_recorder.
    rewrite run_ops_first. reflexivity.
Qed.

(** ** The query of [GetPosts] *)

(** X29.  The query text that GetPosts builds has exactly as many ?
    placeholders as arguments are passed to db.Query, for every user, filter
    and category: the user, the user again for the filters my, liked and
    commented, and the category last when it is not empty. *)
Theorem GetPosts_placeholders (userID : Z) (filter category : string) :
  placeholders (GetPosts_query userID filter category).1
  = List.length (GetPosts_query userID filter category).2
  /\ (GetPosts_query userID filter category).2
     = ([ArgInt userID]
        ++ (if String.eqb filter "my" || String.eqb filter "liked"
               || String.eqb filter "commented"
            then [ArgInt userID] else [])
        ++ (if String.eqb category "" then [] else [ArgString category]))%list.
Proof.
  unfold GetPosts_query, GetPosts_filter.
  destruct (String.eqb_spec filter "my") as [-> | N1];
    [|destruct (String.eqb_spec filter "liked") as [-> | N2];
      [|destruct (String.eqb_spec filter "commented") as [-> | N3];
        [|destruct (String.eqb_spec filter "best") as [-> | N4];
          [|destruct (String.eqb_spec filter "new") as [-> | N5]]]]];
    destruct (String.eqb category "") eqn:Ec;
    cbn [negb orb fst snd]; split; vm_compute; reflexivity.
Qed.

(** X30.  The text of GetPosts' query depends only on the filter and on
    whether a category is given: neither the user id nor the category text is
    spliced into it. A filter that is none of my, liked, commented, best, new
    gives the query of new. *)
Theorem GetPosts_text (userID : Z) (filter category : string) :
  (GetPosts_query userID filter category).1
  = (GetPosts_query 0 filter (if String.eqb category "" then "" else "c")).1
  /\ GetPosts_query userID filter category
     = GetPosts_query userID (if known_filter filter then filter else "new")
         category.
Proof.
  unfold GetPosts_query, GetPosts_filter, known_filter.
  destruct (String.eqb_spec filter "my") as [-> | N1];
    [|destruct (String.eqb_spec filter "liked") as [-> | N2];
      [|destruct (String.eqb_spec filter "commented") as [-> | N3];
        [|destruct (String.eqb_spec filter "best") as [-> | N4];
          [|destruct (String.eqb_spec filter "new") as [-> | N5]]]]];
    destruct (String.eqb category ""); split; reflexivity.
Qed.

(** ** The expression for emails *)

Import regexp.

Lemma append_empty (s1 s2 : string) : s1 ++ s2 = "" -> s1 = "" /\ s2 = "".
Proof. destruct s1; [auto | discriminate]. Qed.

Lemma nullable_lang (r : Regexp) : nullable r = true <-> lang r "".
Proof.
  split.
  - induction r as [| |p|r1 IH1 r2 IH2|r1 IH1 r2 IH2|r IH]; cbn; intros H;
      try discriminate.
    + constructor.
    + apply andb_true_iff in H as [H1 H2].
      change "" with ("" ++ ""). constructor; auto.
    + apply orb_true_iff in H as [H | H];
        [apply lang_alt_l | apply lang_alt_r]; auto.
    + constructor.
  - intros H. remember "" as s eqn:Hs.
    induction H as [|p a Hp|r1 r2 s1 s2 H1 IH1 H2 IH2|r1 r2 s H IH|r1 r2 s H IH
                   |r|r s1 s2 H1 IH1 H2 IH2]; cbn; try reflexivity.
    + discriminate Hs.
    + apply append_empty in Hs as [-> ->]. rewrite IH1, IH2; reflexivity.
    + rewrite IH by exact Hs. reflexivity.
    + rewrite IH by exact Hs. apply orb_true_r.
Qed.

Lemma deriv_sound (a : ascii) (r : Regexp) (s : string) :
  lang (deriv a r) s -> lang r (String a s).
Proof.
  revert s. induction r as [| |p|r1 IH1 r2 IH2|r1 IH1 r2 IH2|r IH]; cbn;
    intros s H.
  - inversion H.
  - inversion H.
  - destruct (p a) eqn:Hp; inversion H; subst. constructor. exact Hp.
  - destruct (nullable r1) eqn:Hn.
    + inversion H as [| | |x y z H1| x y z H2| |]; subst.
      * inversion H1 as [| |x y s1 s2 Ha Hb| | | |]; subst.
        change (String a (s1 ++ s2)) with (String a s1 ++ s2).
        constructor; auto.
      * change (String a s) with ("" ++ String a s).
        constructor; [apply nullable_lang; exact Hn | auto].
    + inversion H as [| |x y s1 s2 Ha Hb| | | |]; subst.
      change (String a (s1 ++ s2)) with (String a s1 ++ s2).
      constructor; auto.
  - inversion H; subst; [apply lang_alt_l | apply lang_alt_r]; auto.
  - inversion H as [| |x y s1 s2 Ha Hb| | | |]; subst.
    change (String a (s1 ++ s2)) with (String a s1 ++ s2).
    constructor; auto.
Qed.

Lemma deriv_complete (a : ascii) (r : Regexp) (s t : string) :
  lang r t -> t = String a s -> lang (deriv a r) s.
Proof.
  intros H. revert s.
  induction H as [|p b Hp|r1 r2 s1 s2 H1 IH1 H2 IH2|r1 r2 t H IH|r1 r2 t H IH
                 |r|r s1 s2 H1 IH1 H2 IH2]; intros s Ht; cbn.
  - discriminate Ht.
  - injection Ht as -> <-. rewrite Hp. constructor.
  - destruct s1 as [|b s1]; cbn in Ht.
    + rewrite (proj2 (nullable_lang r1) H1). apply lang_alt_r. auto.
    + injection Ht as -> <-.
      destruct (nullable r1); [apply lang_alt_l|]; constructor; auto.
  - apply lang_alt_l. auto.
  - apply lang_alt_r. auto.
  - discriminate Ht.
  - destruct s1 as [|b s1]; cbn in Ht.
    + apply (IH2 s Ht).
    + injection Ht as -> <-. constructor; auto.
Qed.

Lemma MatchString_lang (r : Regexp) (s : string) :
  MatchString r s = true <-> lang r s.
Proof.
  revert r. induction s as [|a s IH]; intros r; cbn.
  - apply nullable_lang.
  - rewrite IH. split; [apply deriv_sound|].
    intros H. exact (deriv_complete a r s _ H eq_refl).
Qed.

Lemma lang_star_class (p : ascii -> bool) (s : string) :
  lang (Star (Class p)) s <-> all_chars p s = true.
Proof.
  split.
  - intros H. remember (Star (Class p)) as r eqn:Hr.
    induction H as [|q b Hq|r1 r2 s1 s2 H1 IH1 H2 IH2|r1 r2 t H IH|r1 r2 t H IH
                   |r|r s1 s2 H1 IH1 H2 IH2]; try discriminate Hr.
    + reflexivity.
    + injection Hr as ->. inversion H1; subst. unfold String.append. cbn.
      rewrite IH2 by reflexivity. rewrite andb_true_r. assumption.
  - induction s as [|a s IH]; cbn; intros H.
    + constructor.
    + apply andb_true_iff in H as [Ha Hs].
      change (String a s) with (String a "" ++ s).
      constructor; [constructor; exact Ha | auto].
Qed.

Lemma lang_plus_class (p : ascii -> bool) (s : string) :
  lang (Plus (Class p)) s <-> s <> "" /\ all_chars p s = true.
Proof.
  unfold Plus. split.
  - intros H. inversion H as [| |x y s1 s2 Ha Hb| | | |]; subst.
    inversion Ha; subst. unfold String.append. cbn.
    apply lang_star_class in Hb.
    split; [discriminate|]. rewrite Hb, andb_true_r. assumption.
  - intros [Hne H]. destruct s as [|a s]; [congruence|]. cbn in H.
    apply andb_true_iff in H as [Ha Hs].
    change (String a s) with (String a "" ++ s).
    constructor; [constructor; exact Ha | apply lang_star_class; exact Hs].
Qed.

Lemma lang_class_inv (p : ascii -> bool) (s : string) :
  lang (Class p) s -> exists a, s = String a "" /\ p a = true.
Proof. intros H. inversion H; subst. eauto. Qed.

(** X26.  The emails that RegisterHandler's expression accepts are exactly the
    texts local@domain.tld with a non-empty local part of letters, digits and
    ._%+-, a non-empty domain of letters, digits, dots and hyphens, and a last
    label of at least two letters. *)
Theorem email_shape (s : string) :
  MatchString emailRegex s = true <->
  exists local domain tld : string,
    s = local ++ "@" ++ domain ++ "." ++ tld
    /\ local <> "" /\ all_chars is_local local = true
    /\ domain <> "" /\ all_chars is_domain domain = true
    /\ (2 <= String.length tld)%nat /\ all_chars is_letter tld = true.
Proof.
  rewrite MatchString_lang. unfold emailRegex. split.
  - intros H.
    inversion H as [| |x y l s1 Hl H1| | | |]; subst.
    inversion H1 as [| |x y at_ s2 Hat H2| | | |]; subst.
    inversion H2 as [| |x y dm s3 Hd H3| | | |]; subst.
    inversion H3 as [| |x y dot s4 Hdot H4| | | |]; subst.
    inversion H4 as [| |x y c1 s5 Hc1 H5| | | |]; subst.
    inversion H5 as [| |x y c2 s6 Hc2 H6| | | |]; subst.
    apply lang_plus_class in Hl as [Hl1 Hl2].
    apply lang_plus_class in Hd as [Hd1 Hd2].
    apply lang_class_inv in Hat as (a & -> & Ha).
    apply lang_class_inv in Hdot as (b & -> & Hb).
    apply lang_class_inv in Hc1 as (x1 & -> & Hx1).
    apply lang_class_inv in Hc2 as (x2 & -> & Hx2).
    apply lang_star_class in H6.
    apply Ascii.eqb_eq in Ha, Hb. subst a b.
    exists l, dm, (String x1 (String x2 s6)).
    split; [reflexivity|]. repeat split; auto.
    + cbn. lia.
    + cbn. rewrite Hx1, Hx2, H6. reflexivity.
  - intros (l & dm & tld & -> & Hl1 & Hl2 & Hd1 & Hd2 & Hlen & Ht).
    destruct tld as [|x1 [|x2 rest]]; cbn in Hlen; try lia.
    cbn in Ht. apply andb_true_iff in Ht as [Hx1 Ht].
    apply andb_true_iff in Ht as [Hx2 Ht].
    constructor; [apply lang_plus_class; auto|].
    change ("@" ++ dm ++ "." ++ String x1 (String x2 rest))
      with (String "@" "" ++ (dm ++ (String "." "" ++ (String x1 ""
              ++ (String x2 "" ++ rest))))).
    constructor; [constructor; reflexivity|].
    constructor; [apply lang_plus_class; auto|].
    constructor; [constructor; reflexivity|].
    constructor; [constructor; exact Hx1|].
    constructor; [constructor; exact Hx2|].
    apply lang_star_class. exact Ht.
Qed.
